(** * Ainaa sales dashboard: the ingestion and analysis code of [dashboard.py]

    A shallow embedding of the Streamlit script [src/dashboard.py]: the CSV
    loader [try_read_csv], the column-role lookups, the in-place coercions of
    the date and amount columns, and the aggregations behind the four pages.

    The script is written against pandas.  The pandas operations it calls
    are embedded with their documented default behaviour ([groupby] sorts the
    group keys and drops missing keys, [sum] skips missing values,
    [sort_values] keeps missing values last, ...).  The text-level parsers
    ([bytes.decode], [pd.read_csv], and the per-cell parsing done by
    [pd.to_numeric] and [pd.to_datetime]) are parameters of the development,
    and so are the machine arithmetic of numpy (int64 sums wrap around,
    float64 sums and quotients round) and the order in which its default
    sort leaves entries of equal value. *)

From Stdlib Require Import List String Ascii Bool Arith ZArith QArith Qabs Lia.
From Stdlib Require Import Sorting.Sorted Sorting.Permutation.
From Stdlib Require Import Structures.OrderedTypeEx.
Import ListNotations.

Local Open Scope string_scope.
Local Open Scope list_scope.

(** ** Python strings

    A [str] is embedded as its UTF-8 byte string.  The keywords searched for
    are ASCII, and no non-ASCII character lower-cases to a text containing
    one of them, so [lower] only has to fold the ASCII capitals. *)

Module Str.

Definition lower_ascii (c : ascii) : ascii :=
  let n := nat_of_ascii c in
  if (65 <=? n)%nat && (n <=? 90)%nat then ascii_of_nat (n + 32) else c.

(** [s.lower()] *)
Fixpoint lower (s : string) : string :=
  match s with
  | EmptyString => EmptyString
  | String c t => String (lower_ascii c) (lower t)
  end.

(** [sub in s] *)
Fixpoint contains (sub s : string) : bool :=
  String.prefix sub s ||
  match s with
  | EmptyString => false
  | String _ t => contains sub t
  end.

Definition tab : string := String (ascii_of_nat 9) EmptyString.
Definition newline : string := String (ascii_of_nat 10) EmptyString.

End Str.

(** ** Exceptions *)

Inductive exn : Type :=
| IndexError
| KeyError
| ValueError
| TypeError
| AttributeError
| ParserError.

Inductive result (A : Type) : Type :=
| Ok (a : A)
| Raise (e : exn).
Arguments Ok {A} a.
Arguments Raise {A} e.

Definition rbind {A B} (r : result A) (k : A -> result B) : result B :=
  match r with
  | Ok a => k a
  | Raise e => Raise e
  end.

Declare Scope result_scope.
Delimit Scope result_scope with result.
Notation "x <- r ;; k" := (rbind r (fun x => k))
  (at level 61, r at next level, right associativity) : result_scope.

(** [l[0]] *)
Definition index0 {A} (l : list A) : result A :=
  match l with
  | [] => Raise IndexError
  | x :: _ => Ok x
  end.

(** ** Cells and frames

    A cell of a column: a [str] of an object column, a number of an int64 or
    float64 column (the rational it stands for), a [Timestamp] (nanoseconds
    since the epoch), the missing value [NaN] of object and float columns,
    or the missing date [NaT]. *)

Inductive cell : Type :=
| CStr (s : string)
| CNum (q : Q)
| CDate (t : Z)
| CNaN
| CNaT.

Definition isnull (c : cell) : bool :=
  match c with
  | CNaN | CNaT => true
  | _ => false
  end.

Definition notnull (c : cell) : bool := negb (isnull c).

Definition is_str (c : cell) : bool :=
  match c with CStr _ => true | _ => false end.

Definition is_num (c : cell) : bool :=
  match c with CNum _ => true | _ => false end.

(** Cells of a numeric column: numbers and [NaN]. *)
Definition is_numeric (c : cell) : bool :=
  match c with CNum _ | CNaN => true | _ => false end.

(** Cells of a datetime64 column: timestamps and [NaT]. *)
Definition is_datetime (c : cell) : bool :=
  match c with CDate _ | CNaT => true | _ => false end.

(** Element-wise [==]: a missing value is equal to nothing. *)
Definition cell_eqb (a b : cell) : bool :=
  match a, b with
  | CStr s, CStr s' => String.eqb s s'
  | CNum q, CNum q' => Qeq_bool q q'
  | CDate t, CDate t' => Z.eqb t t'
  | _, _ => false
  end.

(** The order pandas sorts values by: numbers, then dates, then strings (by
    code point, which is the byte order of UTF-8).  Missing values are not
    ordered: the callers remove them first. *)
Definition kind_rank (c : cell) : nat :=
  match c with
  | CNum _ => 0
  | CDate _ => 1
  | CStr _ => 2
  | CNaN => 3
  | CNaT => 4
  end.

Definition cell_compare (a b : cell) : comparison :=
  match a, b with
  | CStr s, CStr s' => String.compare s s'
  | CNum q, CNum q' => Qcompare q q'
  | CDate t, CDate t' => Z.compare t t'
  | _, _ => Nat.compare (kind_rank a) (kind_rank b)
  end.

Definition cell_lt (a b : cell) : Prop := cell_compare a b = Lt.

(** A frame: the length of its index and its columns in header order. *)
Record DataFrame : Type := mkDF {
  nrows : nat;
  cols : list (string * list cell)
}.

(** [pd.DataFrame()] *)
Definition empty_frame : DataFrame := mkDF 0 [].

(** [df.columns] *)
Definition columns (df : DataFrame) : list string := map fst (cols df).

(** [df.shape[1]] *)
Definition shape1 (df : DataFrame) : nat := List.length (cols df).

(** [len(df)] *)
Definition len (df : DataFrame) : nat := nrows df.

(** [df.empty]: some axis has length 0. *)
Definition empty (df : DataFrame) : bool :=
  (nrows df =? 0)%nat || (shape1 df =? 0)%nat.

Fixpoint lookup (c : string) (l : list (string * list cell)) : option (list cell) :=
  match l with
  | [] => None
  | (n, v) :: rest => if String.eqb n c then Some v else lookup c rest
  end.

(** [df[c]] *)
Definition getitem (df : DataFrame) (c : string) : result (list cell) :=
  match lookup c (cols df) with
  | Some v => Ok v
  | None => Raise KeyError
  end.

Fixpoint replace_col (c : string) (v : list cell) (l : list (string * list cell))
  : list (string * list cell) :=
  match l with
  | [] => [(c, v)]
  | (n, w) :: rest =>
      if String.eqb n c then (n, v) :: rest else (n, w) :: replace_col c v rest
  end.

(** [df[c] = v]: the column named [c] is overwritten where it stands (a new
    name is appended). *)
Definition setitem (df : DataFrame) (c : string) (v : list cell) : DataFrame :=
  mkDF (nrows df) (replace_col c v (cols df)).

(** Every column is as long as the index, and no header is repeated
    ([read_csv] renames repeated headers). *)
Definition wf_frame (df : DataFrame) : Prop :=
  NoDup (columns df) /\
  Forall (fun nv => List.length (snd nv) = nrows df) (cols df).

(** ** Column roles: the list comprehensions over [df.columns] *)

(** [[c for c in cols if "date" in c.lower()]] *)
Definition date_cols (cs : list string) : list string :=
  filter (fun c => Str.contains "date" (Str.lower c)) cs.

(** [[c for c in cols if "name" in c.lower() or "customer" in c.lower()]] *)
Definition cust_cols (cs : list string) : list string :=
  filter (fun c => Str.contains "name" (Str.lower c)
                   || Str.contains "customer" (Str.lower c)) cs.

(** [[c for c in cols if "total" in c.lower() or "amount" in c.lower()]] *)
Definition amt_cols (cs : list string) : list string :=
  filter (fun c => Str.contains "total" (Str.lower c)
                   || Str.contains "amount" (Str.lower c)) cs.

(** [[c for c in df.columns if "product" in c.lower() or "item" in c.lower()]] *)
Definition prod_cols (cs : list string) : list string :=
  filter (fun c => Str.contains "product" (Str.lower c)
                   || Str.contains "item" (Str.lower c)) cs.

(** ** The text-level parsers the script delegates to *)

Class TextParsers : Type := {
  (** [file.getvalue().decode("utf-8", errors="ignore")] *)
  decode : list Byte.byte -> string;
  (** [pd.read_csv(io.StringIO(content), sep=sep)]; [Raise] stands for any
      exception of the reader *)
  read_csv : string -> string -> result DataFrame;
  (** what [pd.to_numeric] reads in one [str], if anything *)
  parse_number : string -> option Q;
  (** what [pd.to_datetime(..., dayfirst=True)] reads in one string or number
      of the given column, if anything *)
  parse_date : list cell -> cell -> option Z
}.

(** ** The arithmetic and the sort of numpy

    The sums and the quotients that the pages compute on the numbers of a
    column are those of the machine: int64 addition wraps around at 2^63,
    float64 addition and division round, and the two ways in which pandas
    adds up numbers ([Series.sum], and the group sums of [groupby]) do not
    round alike.  The sort behind [sort_values] is numpy's default
    [kind='quicksort'], which promises no order among entries of equal
    value.  All of these are parameters. *)

Class Numpy : Type := {
  (** [Series.sum()] on the numbers of an int64 or float64 column, in row
      order *)
  series_sum : list Q -> Q;
  (** the sum of the numbers of one group in [groupby(...)[col].sum()], in
      row order *)
  group_sum : list Q -> Q;
  (** [total / n], where [n] is a [len(...)] *)
  true_divide : Q -> nat -> Q;
  (** the rank that the sort of the given values gives to the entry at a
      position: entries of equal value come out by ascending rank *)
  tie_rank : list cell -> nat -> nat
}.

(** The sums of int64 columns. *)
Module Int64.

(** The int64 that a whole number wraps around to. *)
Definition wrap (z : Z) : Z := ((z + 2 ^ 63) mod 2 ^ 64 - 2 ^ 63)%Z.

(** The whole number a rational stands for. *)
Definition whole (q : Q) : Z := (Qnum q / Zpos (Qden q))%Z.

(** The sum of the numbers of an int64 column: addition modulo 2^64, whose
    result does not depend on the order of the additions. *)
Definition sum (ns : list Q) : Q :=
  inject_Z (wrap (fold_right Z.add 0%Z (map whole ns))).

End Int64.

Section Ingest.
Context {P : TextParsers}.

(** The candidates of the [for sep in [",", "\t", ";"]] loop. *)
Definition separators : list string := [","; Str.tab; ";"].

(** The loop of [try_read_csv] over the remaining candidates, ending in
    [return pd.DataFrame()]. *)
Fixpoint try_seps (content : string) (seps : list string) : DataFrame :=
  match seps with
  | [] => empty_frame
  | sep :: rest =>
      match read_csv content sep with
      | Ok df => if (1 <? shape1 df)%nat then df else try_seps content rest
      | Raise _ => try_seps content rest
      end
  end.

Definition try_read_csv (file : list Byte.byte) : DataFrame :=
  let content := decode file in
  try_seps content separators.

End Ingest.

(** ** The pandas operations of the pages *)

Section Coercion.
Context {P : TextParsers}.

(** [pd.to_numeric(col, errors='coerce')], cell by cell: a string that does
    not read as a number becomes [NaN]; a datetime column is seen through
    its int64 nanosecond values ([NaT] being the least int64). *)
Definition to_numeric_cell (c : cell) : cell :=
  match c with
  | CStr s => match parse_number s with
              | Some q => CNum q
              | None => CNaN
              end
  | CNum q => CNum q
  | CDate t => CNum (inject_Z t)
  | CNaN => CNaN
  | CNaT => CNum (inject_Z (- 2 ^ 63))
  end.

Definition to_numeric (col : list cell) : list cell :=
  map to_numeric_cell col.

(** [pd.to_datetime(col, errors='coerce', dayfirst=True)]: what does not
    read as a date becomes [NaT]. *)
Definition to_datetime_cell (col : list cell) (c : cell) : cell :=
  match c with
  | CDate t => CDate t
  | CNaN | CNaT => CNaT
  | _ => match parse_date col c with
         | Some t => CDate t
         | None => CNaT
         end
  end.

Definition to_datetime (col : list cell) : list cell :=
  map (to_datetime_cell col) col.

End Coercion.

(** [col.fillna(v)] *)
Definition fillna (v : Q) (col : list cell) : list cell :=
  map (fun c => if isnull c then CNum v else c) col.

(** The numbers of a column, in row order. *)
Definition numbers (l : list cell) : list Q :=
  flat_map (fun c => match c with CNum q => [q] | _ => [] end) l.

(** The sum of the numbers of a column, formed by [sum]; the sum of no
    number is 0. *)
Definition total_with (sum : list Q -> Q) (l : list cell) : Q :=
  match numbers l with
  | [] => 0
  | ns => sum ns
  end.

(** Python's [+] on the strings of an object column: two strings are
    concatenated, and a string is added to nothing else. *)
Definition py_add (a b : cell) : result cell :=
  match a, b with
  | CStr s, CStr t => Ok (CStr (s ++ t))
  | _, _ => Raise TypeError
  end.

(** The running sum of pandas' [sum] on an object column: missing values
    are skipped, the first value starts the sum, and a sum of nothing is
    0. *)
Fixpoint sum_from (acc : option cell) (l : list cell) : result cell :=
  match l with
  | [] => Ok (match acc with
              | Some t => t
              | None => CNum 0
              end)
  | v :: rest =>
      if isnull v then sum_from acc rest
      else match acc with
           | None => sum_from (Some v) rest
           | Some t => rbind (py_add t v) (fun t' => sum_from (Some t') rest)
           end
  end.

(** A sum of pandas, missing values skipped: a datetime column has no sum,
    the numbers of a numeric column are added by [sum], the strings of an
    object column are concatenated, and a string next to a number is a
    [TypeError]. *)
Definition sum_with (sum : list Q -> Q) (l : list cell) : result cell :=
  if existsb is_datetime l then Raise TypeError
  else if forallb is_numeric l then Ok (CNum (total_with sum l))
  else if existsb is_num l then Raise TypeError
  else sum_from None l.

Section Sums.
Context {N : Numpy}.

Definition series_total (l : list cell) : Q := total_with series_sum l.

Definition group_total (l : list cell) : Q := total_with group_sum l.

(** [col.sum()].  (On an object column holding both strings and [NaN],
    [Series.sum] raises where the group sum skips the [NaN]; the pages call
    [Series.sum] on coerced columns only.) *)
Definition nansum (l : list cell) : result cell := sum_with series_sum l.

(** The sum of one group of [groupby(...)[col].sum()]. *)
Definition group_nansum (l : list cell) : result cell := sum_with group_sum l.

End Sums.

(** The number in a value used in arithmetic or in a [:,.2f] format. *)
Definition as_number (c : cell) : result Q :=
  match c with
  | CNum q => Ok q
  | _ => Raise TypeError
  end.

(** Insertion of a group key into the ascending list of the keys seen in
    the rows after it. *)
Fixpoint insert_key (k : cell) (l : list cell) : list cell :=
  match l with
  | [] => [k]
  | x :: xs =>
      match cell_compare k x with
      | Lt => k :: l
      | Eq => k :: xs
      | Gt => x :: insert_key k xs
      end
  end.

(** The group keys of [groupby(col)] with its defaults [sort=True] and
    [dropna=True]: the distinct values that are not missing, ascending. *)
Definition group_keys (keys : list cell) : list cell :=
  fold_right (fun k acc => if isnull k then acc else insert_key k acc) [] keys.

(** The values of the rows whose key is [k]. *)
Definition group_vals (k : cell) (rows : list (cell * cell)) : list cell :=
  map snd (filter (fun r => cell_eqb (fst r) k) rows).

Fixpoint mapM {A B} (f : A -> result B) (l : list A) : result (list B) :=
  match l with
  | [] => Ok []
  | x :: xs =>
      rbind (f x) (fun y => rbind (mapM f xs) (fun ys => Ok (y :: ys)))
  end.

(** [df.groupby(key)[val].sum()]: one entry per group key, in key order. *)
Definition groupby_sum {N : Numpy} (df : DataFrame) (key val : string)
  : result (list (cell * cell)) :=
  (ks <- getitem df key ;;
   vs <- getitem df val ;;
   mapM (fun k => s <- group_nansum (group_vals k (combine ks vs)) ;; Ok (k, s))
        (group_keys ks))%result.

(** [.reset_index()] on a grouped series: the key becomes a column next to
    the values, which fails when both carry the same name. *)
Definition reset_index (key val : string) (s : list (cell * cell))
  : result (list (cell * cell)) :=
  if String.eqb key val then Raise ValueError else Ok s.

(** Descending insertion that keeps an entry before the entries of equal
    value met after it. *)
Fixpoint insert_desc {A} (x : A * cell) (l : list (A * cell)) : list (A * cell) :=
  match l with
  | [] => [x]
  | y :: ys =>
      match cell_compare (snd y) (snd x) with
      | Gt => y :: insert_desc x ys
      | _ => x :: l
      end
  end.

(** Ascending insertion by rank, before the entries of equal rank met after
    it. *)
Fixpoint insert_rank {A} (x : nat * A) (l : list (nat * A)) : list (nat * A) :=
  match l with
  | [] => [x]
  | y :: ys => if (fst y <? fst x)%nat then y :: insert_rank x ys else x :: l
  end.

(** The entries by ascending rank of their positions. *)
Definition by_rank {A} (rank : nat -> nat) (l : list A) : list A :=
  map snd (fold_right insert_rank []
             (combine (map rank (seq 0 (List.length l))) l)).

(** The descending sort: by descending value, entries of equal value by
    ascending [tie_rank]. *)
Definition sort_desc {N : Numpy} {A} (l : list (A * cell)) : list (A * cell) :=
  fold_right insert_desc [] (by_rank (tie_rank (map snd l)) l).

(** Values that Python can compare with each other. *)
Definition comparable (l : list cell) : bool :=
  forallb is_numeric l || forallb is_str l || forallb is_datetime l.

(** [.sort_values(ascending=False)] on values without missing entries:
    descending; comparing a string with a number is a [TypeError].  The
    order among entries of equal value is the one the sort leaves them in
    ([tie_rank]): the default [kind='quicksort'] promises none. *)
Definition sort_values_desc {N : Numpy} {A} (l : list (A * cell))
  : result (list (A * cell)) :=
  if comparable (map snd l) then Ok (sort_desc l) else Raise TypeError.

(** [.head(n)] *)
Definition head {A} (n : nat) (l : list A) : list A := firstn n l.

(** [col.nunique()]: the number of distinct values that are not missing. *)
Definition nunique (col : list cell) : nat := List.length (group_keys col).

(** [col.max()]: the greatest value that is not missing; the missing value
    of the column's type when there is none. *)
Fixpoint max_from (acc : cell) (l : list cell) : cell :=
  match l with
  | [] => acc
  | v :: rest =>
      if isnull v then max_from acc rest
      else if isnull acc then max_from v rest
      else match cell_compare acc v with
           | Lt => max_from v rest
           | _ => max_from acc rest
           end
  end.

Definition series_max (col : list cell) : result cell :=
  if forallb is_datetime col then Ok (max_from CNaT col)
  else if forallb is_numeric col then Ok (max_from CNaN col)
  else if forallb is_str col then Ok (max_from CNaN col)
  else Raise TypeError.

(** Nanoseconds in a day. *)
Definition ns_per_day : Z := 86400 * 1000000000.

(** [value.date()]: the day of a [Timestamp]; [NaT.date()] is [NaT]; other
    values have no such method. *)
Definition date_method (c : cell) : result cell :=
  match c with
  | CDate t => Ok (CDate (t / ns_per_day * ns_per_day))
  | CNaT => Ok CNaT
  | _ => Raise AttributeError
  end.

(** [selected.replace(' ','+')]: a [str] method; numbers have no such
    method, [Timestamp.replace] refuses these arguments and [NaT.replace] is
    [NaT]. *)
Definition replace_method (c : cell) : result unit :=
  match c with
  | CStr _ | CNaT => Ok tt
  | CDate _ => Raise ValueError
  | CNum _ | CNaN => Raise AttributeError
  end.

(** [sorted(values)] raises when two of the values cannot be compared. *)
Definition sorted_check (values : list cell) : result unit :=
  if comparable values then Ok tt else Raise TypeError.

(** Rows picked by a boolean mask. *)
Fixpoint select {A} (mask : list bool) (l : list A) : list A :=
  match mask, l with
  | true :: m, x :: t => x :: select m t
  | false :: m, _ :: t => select m t
  | _, _ => []
  end.

Definition count_true (mask : list bool) : nat :=
  List.length (filter (fun b => b) mask).

(** [df[mask]] *)
Definition filter_rows (df : DataFrame) (mask : list bool) : DataFrame :=
  mkDF (count_true mask) (map (fun nv => (fst nv, select mask (snd nv))) (cols df)).

(** [col == selected] *)
Definition eq_mask (col : list cell) (selected : cell) : list bool :=
  map (fun c => cell_eqb c selected) col.

Definition same_value (a b : cell) : bool :=
  cell_eqb a b || (isnull a && isnull b).

(** [col.unique()]: the distinct values in order of first appearance, a
    missing value included once. *)
Fixpoint unique_from (seen : list cell) (col : list cell) : list cell :=
  match col with
  | [] => []
  | c :: rest =>
      if existsb (same_value c) seen then unique_from seen rest
      else c :: unique_from (c :: seen) rest
  end.

Definition unique (col : list cell) : list cell := unique_from [] col.

(** The row order of [df.sort_values(c, ascending=False)]: descending, rows
    of equal value in the order the sort leaves them in, missing values
    last. *)
Definition argsort_desc {N : Numpy} (col : list cell) : list nat :=
  let rows := combine (seq 0 (List.length col)) col in
  map fst (sort_desc (filter (fun r => notnull (snd r)) rows))
  ++ map fst (filter (fun r => isnull (snd r)) rows).

Definition take (idx : list nat) (col : list cell) : list cell :=
  map (fun i => nth i col CNaN) idx.

Definition sort_rows_desc {N : Numpy} (df : DataFrame) (c : string)
  : result DataFrame :=
  (col <- getitem df c ;;
   if comparable (filter notnull col)
   then Ok (mkDF (nrows df)
                 (map (fun nv => (fst nv, take (argsort_desc col) (snd nv))) (cols df)))
   else Raise TypeError)%result.

(** ** The computations of the pages *)

(** Lines 139-142: the four figures of the Home page. *)
Record Summary : Type := mkSummary {
  total_sales : Q;
  total_orders : nat;
  total_customers : nat;
  avg_order : Q
}.

Definition summary_metrics {N : Numpy} (df : DataFrame) (amt_col cust_col : string)
  : result Summary :=
  (a <- getitem df amt_col ;;
   s <- nansum a ;;
   let total_orders := len df in
   c <- getitem df cust_col ;;
   let total_customers := nunique c in
   total_sales <- as_number s ;;
   let avg_order :=
     if (total_orders =? 0)%nat then 0
     else true_divide total_sales total_orders in
   Ok (mkSummary total_sales total_orders total_customers avg_order))%result.

(** Lines 151 and 196: [df.groupby(date_col)[amt_col].sum().reset_index()]. *)
Definition trend_by_date {N : Numpy} (df : DataFrame) (date_col amt_col : string)
  : result (list (cell * cell)) :=
  (s <- groupby_sum df date_col amt_col ;;
   reset_index date_col amt_col s)%result.

(** Line 157:
    [df.groupby(cust_col)[amt_col].sum().sort_values(ascending=False).head(10).reset_index()]. *)
Definition top_customers {N : Numpy} (df : DataFrame) (cust_col amt_col : string)
  : result (list (cell * cell)) :=
  (s <- groupby_sum df cust_col amt_col ;;
   sorted <- sort_values_desc s ;;
   reset_index cust_col amt_col (head 10 sorted))%result.

(** Line 210:
    [df.groupby(prod)[amt_col].sum().reset_index().sort_values(amt_col, ascending=False).head(20)]. *)
Definition top_products {N : Numpy} (df : DataFrame) (prod amt_col : string)
  : result (list (cell * cell)) :=
  (s <- groupby_sum df prod amt_col ;;
   t <- reset_index prod amt_col s ;;
   sorted <- sort_values_desc t ;;
   Ok (head 20 sorted))%result.

(** Lines 173-177: the figures of one customer. *)
Record Profile : Type := mkProfile {
  data : DataFrame;
  total_spend : Q;
  order_count : nat;
  profile_avg_order : Q;
  last_purchase : cell
}.

Definition customer_profile {N : Numpy} (df : DataFrame)
  (cust_col amt_col date_col : string) (selected : cell) : result Profile :=
  (custs <- getitem df cust_col ;;
   let data := filter_rows df (eq_mask custs selected) in
   a <- getitem data amt_col ;;
   s <- nansum a ;;
   d <- getitem data date_col ;;
   last_purchase <- series_max d ;;
   total_spend <- as_number s ;;
   let avg_order :=
     if (len data =? 0)%nat then 0
     else true_divide total_spend (len data) in
   Ok (mkProfile data total_spend (len data) avg_order last_purchase))%result.

(** ** The pages

    A page runs on the frame [df], which is the object held in
    [st.session_state["df"]]: it may overwrite columns of it, it renders
    widgets one after the other, and it ends normally or with an uncaught
    exception. *)

Inductive widget : Type :=
| Warning (msg : string)
| Info (msg : string)
| Metrics (m : Summary)
| LineChart (points : list (cell * cell))
| BarChart (bars : list (cell * cell))
| CustomerCard (selected : cell) (p : Profile) (last_purchase_date : cell)
| Table (df : DataFrame).

Definition View (A : Type) : Type :=
  DataFrame -> DataFrame * list widget * result A.

Definition vbind {A B} (m : View A) (k : A -> View B) : View B :=
  fun df =>
    match m df with
    | (df1, w1, Ok a) =>
        match k a df1 with
        | (df2, w2, r) => (df2, w1 ++ w2, r)
        end
    | (df1, w1, Raise e) => (df1, w1, Raise e)
    end.

Definition get : View DataFrame := fun df => (df, [], Ok df).
Definition put (df' : DataFrame) : View unit := fun _ => (df', [], Ok tt).
Definition emit (w : widget) : View unit := fun df => (df, [w], Ok tt).
Definition lift {A} (r : result A) : View A := fun df => (df, [], r).

Declare Scope view_scope.
Delimit Scope view_scope with view.
Notation "x <- m ;; k" := (vbind m (fun x => k))
  (at level 61, m at next level, right associativity) : view_scope.
Notation "m ;; k" := (vbind m (fun _ => k))
  (at level 61, right associativity) : view_scope.

Section Pages.
Context {P : TextParsers} {N : Numpy}.

(** [df[c] = pd.to_datetime(df[c], errors='coerce', dayfirst=True)] *)
Definition assign_datetime (c : string) : View unit :=
  (df <- get ;;
   col <- lift (getitem df c) ;;
   put (setitem df c (to_datetime col)))%view.

(** [df[c] = pd.to_numeric(df[c], errors='coerce').fillna(0)] *)
Definition assign_numeric (c : string) : View unit :=
  (df <- get ;;
   col <- lift (getitem df c) ;;
   put (setitem df c (fillna 0 (to_numeric col))))%view.

(** Lines 139-159: the figures and charts of the Home page, computed on the
    coerced [df]. *)
Definition home_render (date_col cust_col amt_col : string) : View unit :=
  (df <- get ;;
   m <- lift (summary_metrics df amt_col cust_col) ;;
   emit (Metrics m) ;;
   trend <- lift (trend_by_date df date_col amt_col) ;;
   emit (LineChart trend) ;;
   top <- lift (top_customers df cust_col amt_col) ;;
   emit (BarChart top))%view.

(** Lines 125-159. *)
Definition home : View unit :=
  (df <- get ;;
   if empty df then emit (Warning "Upload CSV untuk mula analisis.")
   else
     let cols := columns df in
     date_col <- lift (index0 (date_cols cols)) ;;
     cust_col <- lift (index0 (cust_cols cols)) ;;
     amt_col <- lift (index0 (amt_cols cols)) ;;
     assign_datetime date_col ;;
     assign_numeric amt_col ;;
     home_render date_col cust_col amt_col)%view.

(** Lines 172-198: the card, the order history and the spending trend of
    the selected customer, computed on the coerced [df].  [selected] is what
    [st.selectbox] returns: the option picked by the user ([None], returned
    when there is no option, behaves as [NaN] in every use made of it
    here). *)
Definition profile_render (selected : cell) (cust_col amt_col date_col : string)
  : View unit :=
  (df <- get ;;
   custs <- lift (getitem df cust_col) ;;
   lift (sorted_check (unique custs)) ;;
   p <- lift (customer_profile df cust_col amt_col date_col selected) ;;
   lift (replace_method selected) ;;
   d <- lift (date_method (last_purchase p)) ;;
   emit (CustomerCard selected p d) ;;
   history <- lift (sort_rows_desc (data p) date_col) ;;
   emit (Table history) ;;
   trend <- lift (trend_by_date (data p) date_col amt_col) ;;
   emit (LineChart trend))%view.

(** Lines 161-198. *)
Definition customer_profile_page (selected : cell) : View unit :=
  (df <- get ;;
   if empty df then emit (Warning "Upload CSV untuk mula.")
   else
     cust_col <- lift (index0 (cust_cols (columns df))) ;;
     amt_col <- lift (index0 (amt_cols (columns df))) ;;
     date_col <- lift (index0 (date_cols (columns df))) ;;
     assign_numeric amt_col ;;
     assign_datetime date_col ;;
     profile_render selected cust_col amt_col date_col)%view.

(** Lines 200-202. *)
Definition all_sales : View unit :=
  (df <- get ;; emit (Table df))%view.

(** Lines 204-214. *)
Definition products : View unit :=
  (df <- get ;;
   let prod_col := prod_cols (columns df) in
   match prod_col with
   | prod :: _ =>
       amt_col <- lift (index0 (amt_cols (columns df))) ;;
       top_p <- lift (top_products df prod amt_col) ;;
       emit (BarChart top_p)
   | [] => emit (Info "Tiada column produk dalam fail CSV ni.")
   end)%view.

Inductive Page : Type := Home | AllSales | CustomerProfile | Products.

Definition page_view (page : Page) (selected : cell) : View unit :=
  match page with
  | Home => home
  | CustomerProfile => customer_profile_page selected
  | AllSales => all_sales
  | Products => products
  end.

(** Lines 215-216: nothing uploaded and no table stored. *)
Definition no_table_yet : list widget :=
  [Info "Upload CSV untuk mula guna dashboard."].

(** One run of the script (lines 115-216) on the session state: the frame
    stored under ["df"], if any.  An upload is parsed and stored; the page
    then works on the stored object itself, so what it writes into [df] is
    what the session holds afterwards. *)
Definition run (uploaded : option (list Byte.byte)) (page : Page)
  (selected : cell) (session : option DataFrame)
  : option DataFrame * list widget * result unit :=
  let df := match uploaded with
            | Some file => Some (try_read_csv file)
            | None => session
            end in
  match df with
  | Some df =>
      match page_view page selected df with
      | (df', ws, r) => (Some df', ws, r)
      end
  | None => (None, no_table_yet, Ok tt)
  end.

End Pages.

(** ** A small instance of the parsers

    Enough of a reader for plain ASCII text without quoting, rows never
    longer than the header, decimal numbers and [dd/mm/yyyy] dates, on which
    it reads what pandas reads.  It is used to run the pages on concrete
    files. *)

Module Sample.

Fixpoint split_on (sep : ascii) (s : string) : list string :=
  match s with
  | EmptyString => [EmptyString]
  | String c t =>
      if Ascii.eqb c sep then EmptyString :: split_on sep t
      else match split_on sep t with
           | [] => [String c EmptyString]
           | f :: fs => String c f :: fs
           end
  end.

Definition digit (c : ascii) : option Z :=
  let n := nat_of_ascii c in
  if (48 <=? n)%nat && (n <=? 57)%nat then Some (Z.of_nat (n - 48)) else None.

Fixpoint digits (acc : Z) (s : string) : option Z :=
  match s with
  | EmptyString => Some acc
  | String c t =>
      match digit c with
      | Some d => digits (10 * acc + d)%Z t
      | None => None
      end
  end.

Definition natural (s : string) : option Z :=
  match s with
  | EmptyString => None
  | _ => digits 0 s
  end.

Definition unsigned (s : string) : option Q :=
  match split_on "." s with
  | [i] => option_map inject_Z (natural i)
  | [i; f] =>
      match natural i, natural f with
      | Some a, Some b =>
          Some (inject_Z a + (b # Pos.pow 10 (Pos.of_nat (String.length f))))%Q
      | _, _ => None
      end
  | _ => None
  end.

Definition number (s : string) : option Q :=
  match s with
  | String "-" t => option_map Qopp (unsigned t)
  | _ => unsigned s
  end.

(** Days from 1970-01-01 to the given day of the proleptic Gregorian
    calendar. *)
Definition days_from_civil (y m d : Z) : Z :=
  (let y' := if m <=? 2 then y - 1 else y in
   let era := y' / 400 in
   let yoe := y' - era * 400 in
   let doy := (153 * (if 2 <? m then m - 3 else m + 9) + 2) / 5 + d - 1 in
   let doe := yoe * 365 + yoe / 4 - yoe / 100 + doy in
   era * 146097 + doe - 719468)%Z.

Definition days_in_month (y m : Z) : Z :=
  (if m =? 2 then
     if ((y mod 4 =? 0) && negb (y mod 100 =? 0)) || (y mod 400 =? 0) then 29 else 28
   else if (m =? 4) || (m =? 6) || (m =? 9) || (m =? 11) then 30 else 31)%Z.

(** A day-first date [dd/mm/yyyy]; a whole number is that many nanoseconds
    after the epoch. *)
Definition date (col : list cell) (c : cell) : option Z :=
  match c with
  | CNum q =>
      if (Qnum q mod Zpos (Qden q) =? 0)%Z then Some (Qnum q / Zpos (Qden q))%Z
      else None
  | CStr s =>
      match map natural (split_on "/" s) with
      | [Some d; Some m; Some y] =>
          if ((1 <=? m) && (m <=? 12) && (1 <=? d) && (d <=? days_in_month y m))%Z
          then Some (days_from_civil y m d * ns_per_day)%Z
          else None
      | _ => None
      end
  | _ => None
  end.

(** One column of fields: numbers when every field that is not empty reads
    as a number, strings otherwise; an empty field is missing. *)
Definition infer_column (fields : list string) : list cell :=
  if forallb (fun f => String.eqb f "" || match number f with Some _ => true | None => false end)
             fields
  then map (fun f => match number f with Some q => CNum q | None => CNaN end) fields
  else map (fun f => if String.eqb f "" then CNaN else CStr f) fields.

Definition lines (content : string) : list string :=
  filter (fun l => negb (String.eqb l "")) (split_on (ascii_of_nat 10) content).

Definition csv (content sep : string) : result DataFrame :=
  match sep, lines content with
  | String c EmptyString, header :: rows =>
      let names := split_on c header in
      let table := map (split_on c) rows in
      if forallb (fun r => (List.length r <=? List.length names)%nat) table
      then Ok (mkDF (List.length rows)
                    (map (fun j => (nth j names "",
                                    infer_column (map (fun r => nth j r "") table)))
                         (seq 0 (List.length names))))
      else Raise ParserError
  | _, _ => Raise ParserError
  end.

#[export] Instance parsers : TextParsers := {|
  decode := string_of_list_byte;
  read_csv := csv;
  parse_number := number;
  parse_date := date
|}.

(** The sum of rationals, from the left. *)
Definition exact_sum (ns : list Q) : Q :=
  match ns with
  | [] => 0
  | n :: rest => fold_left Qplus rest n
  end.

(** Exact sums and quotients, which are those of the machine on the small
    numbers of the files below, and a sort that leaves entries of equal
    value in their incoming order, one of the orders that the default sort
    may leave them in. *)
#[export] Instance numpy : Numpy := {|
  series_sum := exact_sum;
  group_sum := exact_sum;
  true_divide := fun total n => total / inject_Z (Z.of_nat n);
  tie_rank := fun _ _ => 0%nat
|}.

(** The file of the specification's scenario. *)
Definition scenario_text : string :=
  "Date,Customer,Total" ++ Str.newline ++
  "01/02/2024,Ali,10" ++ Str.newline ++
  "02/02/2024,Ali,5" ++ Str.newline ++
  "01/02/2024,Bee,bad" ++ Str.newline.

Definition scenario_file : list Byte.byte := list_byte_of_string scenario_text.

(** A file without date column. *)
Definition no_date_file : list Byte.byte :=
  list_byte_of_string
    ("Customer,Total" ++ Str.newline ++ "Ali,10" ++ Str.newline).

(** A file with a product column and no amount column. *)
Definition no_amount_file : list Byte.byte :=
  list_byte_of_string
    ("Product;Qty" ++ Str.newline ++ "Serum;2" ++ Str.newline).

(** A file with a single column under every delimiter. *)
Definition one_column_file : list Byte.byte :=
  list_byte_of_string
    ("Notes" ++ Str.newline ++ "hello" ++ Str.newline).

(** A semicolon-separated file. *)
Definition semicolon_file : list Byte.byte :=
  list_byte_of_string
    ("Product;Qty;Amount" ++ Str.newline ++ "Serum;2;30" ++ Str.newline).

(** A file with a date that does not read as one. *)
Definition trend_file : list Byte.byte :=
  list_byte_of_string
    ("Date,Customer,Total" ++ Str.newline ++
     "01/02/2024,Ali,10" ++ Str.newline ++
     "bad,Bee,5" ++ Str.newline).

(** Two customers with equal totals, in both row orders. *)
Definition tie_file : list Byte.byte :=
  list_byte_of_string
    ("Date,Customer,Total" ++ Str.newline ++
     "01/02/2024,Bee,10" ++ Str.newline ++
     "02/02/2024,Ali,10" ++ Str.newline).

Definition tie_file_swapped : list Byte.byte :=
  list_byte_of_string
    ("Date,Customer,Total" ++ Str.newline ++
     "02/02/2024,Ali,10" ++ Str.newline ++
     "01/02/2024,Bee,10" ++ Str.newline).

(** A file with products and an amount that does not read as a number. *)
Definition product_file : list Byte.byte :=
  list_byte_of_string
    ("Date,Customer,Product,Total" ++ Str.newline ++
     "01/02/2024,Ali,Serum,10" ++ Str.newline ++
     "02/02/2024,Ali,Serum,bad" ++ Str.newline ++
     "03/02/2024,Bee,Toner,5" ++ Str.newline).

(** A file with a missing customer name. *)
Definition missing_customer_file : list Byte.byte :=
  list_byte_of_string
    ("Date,Customer,Total" ++ Str.newline ++
     "01/02/2024,Ali,10" ++ Str.newline ++
     "02/02/2024,,5" ++ Str.newline).

(** A file whose second header is both a customer and an amount header. *)
Definition shared_header_file : list Byte.byte :=
  list_byte_of_string
    ("Date,Customer Total" ++ Str.newline ++
     "01/02/2024,10" ++ Str.newline ++
     "02/02/2024,5" ++ Str.newline).

(** A file whose second header is both an amount and a date header. *)
Definition amount_date_file : list Byte.byte :=
  list_byte_of_string
    ("Customer,Total To Date" ++ Str.newline ++
     "Ali,10" ++ Str.newline ++
     "Bee,5" ++ Str.newline).

(** The table held by the session after the file was uploaded with the Home
    page selected. *)
Definition after_home (file : list Byte.byte) : DataFrame :=
  match run (Some file) Home CNaN None with
  | (Some df, _, _) => df
  | _ => empty_frame
  end.

End Sample.
(** ** Vocabulary of the statements *)

(** [sep] yields a table with more than one column. *)
Definition multi_column {P : TextParsers} (content sep : string) : bool :=
  match read_csv content sep with
  | Ok df => (1 <? shape1 df)%nat
  | Raise _ => false
  end.

(** The header [c] contains [kw], ignoring case. *)
Definition mentions (kw c : string) : bool := Str.contains kw (Str.lower c).

(** The trend keeps the rows of missing date as a last bucket of their own. *)
Definition null_bucket_last (dates : list cell) (trend : list (cell * cell)) : Prop :=
  existsb isnull dates = true -> exists front s, trend = front ++ [(CNaT, s)].

(** The page leaves the table it runs on as it was. *)
Definition leaves_table_unchanged {P : TextParsers} {N : Numpy} (page : Page)
  (selected : cell) (df : DataFrame) : Prop :=
  exists ws r, run None page selected (Some df) = (Some df, ws, r).

(** The position of the first row carrying the key [k]. *)
Fixpoint first_index (k : cell) (keys : list cell) : nat :=
  match keys with
  | [] => 0
  | x :: xs => if cell_eqb x k then 0 else S (first_index k xs)
  end.

(** Entries of equal sum come in the order in which their keys first appear
    in the rows. *)
Definition ties_by_first_encounter (keys : list cell) (top : list (cell * cell))
  : Prop :=
  forall i j x y,
    (i < j)%nat ->
    nth_error top i = Some x ->
    nth_error top j = Some y ->
    cell_compare (snd x) (snd y) = Eq ->
    (first_index (fst x) keys < first_index (fst y) keys)%nat.

(** The number a cell counts for in a sum of amounts. *)
Definition amount (c : cell) : Q :=
  match c with
  | CNum q => q
  | _ => 0
  end.

(** The sum of the amounts of a list of cells. *)
Definition amount_total (l : list cell) : Q :=
  fold_right (fun c acc => amount c + acc) 0 l.

(** [ds] lists the distinct values of [col] that are not missing, each
    once. *)
Definition distinct_values (col ds : list cell) : Prop :=
  (forall d, In d ds -> In d col /\ isnull d = false) /\
  (forall c, In c col -> isnull c = false ->
             exists d, In d ds /\ cell_eqb c d = true) /\
  ForallOrdPairs (fun a b => cell_eqb a b = false) ds.

(** What one entry of the grouped sums is: a group key with the sum, as the
    machine forms it, of the amounts of the rows carrying that key. *)
Definition group_entry {N : Numpy} (ks vs : list cell) (g : cell * cell) : Prop :=
  snd g = CNum (group_total (group_vals (fst g) (combine ks vs))).

(** An entry whose sum is the sum of the amounts of the rows carrying its
    key, without wrap-around or rounding. *)
Definition exact_group_entry (ks vs : list cell) (g : cell * cell) : Prop :=
  exists q, snd g = CNum q /\
            q == amount_total (group_vals (fst g) (combine ks vs)).

(** The sum of [x] is not smaller than the sum of [y]. *)
Definition not_below (x y : cell * cell) : Prop :=
  cell_compare (snd x) (snd y) <> Lt.

(** The sum of a list of rationals. *)
Definition exact_total (ns : list Q) : Q := fold_right Qplus 0 ns.

Definition is_integer (q : Q) : bool :=
  (Qnum q mod Zpos (Qden q) =? 0)%Z.

(** The sum of the absolute values. *)
Definition magnitude (ns : list Q) : Q :=
  fold_right (fun q acc => Qabs q + acc) 0 ns.

(** Whole numbers whose absolute values add up to at most 2^53: whatever the
    order in which they are added, every partial sum is a whole number that
    int64 and float64 both hold, so that neither wraps around nor rounds. *)
Definition small_integers (ns : list Q) : bool :=
  forallb is_integer ns && Qle_bool (magnitude ns) (inject_Z (2 ^ 53)).

(** The sums of the machine are the sums of the numbers where nothing wraps
    around or rounds. *)
Definition exact_sums (N : Numpy) : Prop :=
  forall ns, small_integers ns = true ->
    series_sum ns == exact_total ns /\ group_sum ns == exact_total ns.

(** [m] is the latest of the dates: the missing date when all are missing. *)
Definition latest_date (dates : list cell) (m : cell) : Prop :=
  ((forall t, ~ In (CDate t) dates) -> m = CNaT) /\
  (forall t, In (CDate t) dates ->
             exists t', m = CDate t' /\ In (CDate t') dates /\ (t <= t')%Z).

(** A view that leaves [df] as it found it. *)
Definition read_only {A} (v : View A) : Prop :=
  forall df, exists ws r, v df = (df, ws, r).

(** The amounts of the rows whose key is not missing. *)
Definition keyed_amounts (rows : list (cell * cell)) : list cell :=
  map snd (filter (fun r => notnull (fst r)) rows).

(** The total over the groups of the keys [ks]. *)
Definition groups_total (ks : list cell) (rows : list (cell * cell)) : Q :=
  fold_right (fun k acc => amount_total (group_vals k rows) + acc) 0 ks.

(** What the row [r] adds to the groups of [ks]. *)
Definition row_share (ks : list cell) (r : cell * cell) : Q :=
  fold_right (fun k acc => (if cell_eqb (fst r) k then amount (snd r) else 0) + acc)
             0 ks.

(** ** Properties of the loader *)

Section IngestFacts.
Context {P : TextParsers}.

Lemma try_seps_none (content : string) (seps : list string) :
  (forall s, In s seps -> multi_column content s = false) ->
  try_seps content seps = empty_frame.
Proof.
  induction seps as [|sep rest IH]; intros Hall; simpl.
  - reflexivity.
  - assert (Hsep : multi_column content sep = false) by (apply Hall; now left).
    unfold multi_column in Hsep.
    destruct (read_csv content sep) as [df|e].
    + rewrite Hsep. apply IH. intros s Hs. apply Hall. now right.
    + apply IH. intros s Hs. apply Hall. now right.
Qed.

Lemma try_seps_first (content : string) (pre post : list string)
  (sep : string) (df : DataFrame) :
  (forall s, In s pre -> multi_column content s = false) ->
  read_csv content sep = Ok df ->
  (1 < shape1 df)%nat ->
  try_seps content (pre ++ sep :: post) = df.
Proof.
  induction pre as [|p pre IH]; intros Hpre Hread Hcols; simpl.
  - rewrite Hread.
    apply Nat.ltb_lt in Hcols. now rewrite Hcols.
  - assert (Hp : multi_column content p = false) by (apply Hpre; now left).
    unfold multi_column in Hp.
    destruct (read_csv content p) as [d|e].
    + rewrite Hp. apply IH; auto. intros s Hs. apply Hpre. now right.
    + apply IH; auto. intros s Hs. apply Hpre. now right.
Qed.

Lemma first_multi_column (content : string) (seps : list string) :
  (exists s, In s seps /\ multi_column content s = true) ->
  exists pre sep post,
    seps = pre ++ sep :: post /\
    (forall s, In s pre -> multi_column content s = false) /\
    multi_column content sep = true.
Proof.
  induction seps as [|a seps IH]; intros [s [Hin Hs]].
  - destruct Hin.
  - destruct (multi_column content a) eqn:Ha.
    + exists [], a, seps. repeat split; auto. intros ? [].
    + destruct Hin as [->|Hin]; [congruence|].
      destruct IH as (pre & sep & post & -> & Hpre & Hsep); [now exists s|].
      exists (a :: pre), sep, post. repeat split; auto.
      intros x [<-|Hx]; auto.
Qed.

(** C2.  When some delimiter among comma, tab and semicolon makes
    [read_csv] return a table with more than one column, [try_read_csv]
    returns the table read with the first such delimiter in the order comma,
    tab, semicolon. *)
Theorem try_read_csv_first_delimiter (file : list Byte.byte) :
  (exists s, In s separators /\ multi_column (decode file) s = true) ->
  exists pre sep post df,
    separators = pre ++ sep :: post /\
    (forall s, In s pre -> multi_column (decode file) s = false) /\
    read_csv (decode file) sep = Ok df /\
    (1 < shape1 df)%nat /\
    try_read_csv file = df.
Proof.
  intros Hex.
  destruct (first_multi_column _ _ Hex) as (pre & sep & post & Hsplit & Hpre & Hsep).
  unfold multi_column in Hsep.
  destruct (read_csv (decode file) sep) as [df|e] eqn:Hread; [|discriminate].
  apply Nat.ltb_lt in Hsep.
  exists pre, sep, post, df. repeat split; auto.
  unfold try_read_csv. rewrite Hsplit.
  now apply try_seps_first.
Qed.

(** C9.  When no delimiter among comma, tab and semicolon makes [read_csv]
    return a table with more than one column (it raises, or the table has at
    most one column), [try_read_csv] returns the frame [pd.DataFrame()],
    with no row and no column; being a function into frames it raises
    nothing. *)
Theorem try_read_csv_no_delimiter (file : list Byte.byte) :
  (forall s, In s separators -> multi_column (decode file) s = false) ->
  try_read_csv file = empty_frame /\
  len (try_read_csv file) = 0%nat /\
  shape1 (try_read_csv file) = 0%nat /\
  empty (try_read_csv file) = true.
Proof.
  intros Hnone.
  assert (E : try_read_csv file = empty_frame)
    by (unfold try_read_csv; now apply try_seps_none).
  rewrite E. repeat split.
Qed.

End IngestFacts.

(** ** Properties of the role lookups *)

Lemma filter_nil {A} (f : A -> bool) (l : list A) :
  (forall x, In x l -> f x = false) -> filter f l = [].
Proof.
  induction l as [|a l IH]; intros H; simpl; [reflexivity|].
  rewrite (H a) by now left.
  apply IH. intros x Hx. apply H. now right.
Qed.

Lemma filter_not_nil {A} (f : A -> bool) (l : list A) (x : A) :
  In x l -> f x = true -> filter f l <> [].
Proof.
  intros Hin Hf E.
  assert (Hx : In x (filter f l)) by (apply filter_In; auto).
  rewrite E in Hx. destruct Hx.
Qed.

Lemma index0_in {A} (l : list A) (x : A) : index0 l = Ok x -> In x l.
Proof. destruct l; simpl; intros E; inversion E; subst; now left. Qed.

Lemma date_col_in (cs : list string) (c : string) :
  index0 (date_cols cs) = Ok c -> In c cs /\ mentions "date" c = true.
Proof. intros E. apply index0_in in E. now apply filter_In in E. Qed.

Lemma cust_col_in (cs : list string) (c : string) :
  index0 (cust_cols cs) = Ok c -> In c cs.
Proof. intros E. apply index0_in in E. now apply filter_In in E. Qed.

Lemma amt_col_in (cs : list string) (c : string) :
  index0 (amt_cols cs) = Ok c -> In c cs.
Proof. intros E. apply index0_in in E. now apply filter_In in E. Qed.

Lemma no_date_header (cs : list string) :
  (forall c, In c cs -> mentions "date" c = false) -> date_cols cs = [].
Proof. intros H. now apply filter_nil. Qed.

(** The Home page on a non-empty table without a date header: the lookup
    [[...][0]] of line 132 raises before anything is written or rendered. *)
Lemma home_without_date {P : TextParsers} {N : Numpy} (df : DataFrame) :
  empty df = false ->
  (forall c, In c (columns df) -> mentions "date" c = false) ->
  home df = (df, [], Raise IndexError).
Proof.
  intros Hne Hno.
  unfold home, vbind, get. rewrite Hne.
  unfold lift. now rewrite (no_date_header _ Hno).
Qed.

(** The Customer Profile page on such a table: one of the lookups of lines
    166-168 raises. *)
Lemma customer_profile_page_without_date {P : TextParsers} {N : Numpy}
  (df : DataFrame) (selected : cell) :
  empty df = false ->
  (forall c, In c (columns df) -> mentions "date" c = false) ->
  customer_profile_page selected df = (df, [], Raise IndexError).
Proof.
  intros Hne Hno.
  unfold customer_profile_page, vbind, get. rewrite Hne.
  unfold lift. rewrite (no_date_header _ Hno).
  destruct (cust_cols (columns df)); simpl; [reflexivity|].
  destruct (amt_cols (columns df)); reflexivity.
Qed.

Section NoDateFile.
#[local] Existing Instance Sample.parsers.
#[local] Existing Instance Sample.numpy.

(** C1.  The file [Customer,Total / Ali,10] parses to a non-empty table no
    header of which contains "date"; on it the Home page and the Customer
    Profile page end with an uncaught [IndexError] and render nothing, where
    the Products page answers a missing product header with a message. *)
Theorem pages_without_date_raise :
  let df := try_read_csv Sample.no_date_file in
  empty df = false /\
  (forall c, In c (columns df) -> mentions "date" c = false) /\
  run (Some Sample.no_date_file) Home CNaN None = (Some df, [], Raise IndexError) /\
  run (Some Sample.no_date_file) CustomerProfile (CStr "Ali") None
    = (Some df, [], Raise IndexError) /\
  run (Some Sample.no_date_file) Products CNaN None
    = (Some df, [Info "Tiada column produk dalam fail CSV ni."], Ok tt).
Proof.
  cbv zeta.
  assert (Hne : empty (try_read_csv Sample.no_date_file) = false) by reflexivity.
  assert (Hno : forall c, In c (columns (try_read_csv Sample.no_date_file)) ->
                          mentions "date" c = false).
  { intros c Hc. vm_compute in Hc.
    destruct Hc as [<-|[<-|[]]]; reflexivity. }
  split; [exact Hne|]. split; [exact Hno|]. split; [|split].
  - unfold run, page_view. now rewrite home_without_date.
  - unfold run, page_view. now rewrite customer_profile_page_without_date.
  - reflexivity.
Qed.

End NoDateFile.

(** C10.  On a non-empty table with a header containing "product" or "item"
    and no header containing "total" or "amount", the Products page ends
    with the [IndexError] of its amount lookup; only the product lookup is
    guarded: a table without product header gets the message, whatever its
    other headers. *)
Theorem products_amount_lookup_unguarded {N : Numpy} (df : DataFrame) :
  empty df = false ->
  (exists c, In c (columns df) /\
             (mentions "product" c = true \/ mentions "item" c = true)) ->
  (forall c, In c (columns df) ->
             mentions "total" c = false /\ mentions "amount" c = false) ->
  products df = (df, [], Raise IndexError) /\
  (forall df' : DataFrame,
      (forall c, In c (columns df') ->
                 mentions "product" c = false /\ mentions "item" c = false) ->
      products df' = (df', [Info "Tiada column produk dalam fail CSV ni."], Ok tt)).
Proof.
  intros _ [c [Hin Hprod]] Hamt. split.
  - unfold products, vbind, get.
    assert (Hp : prod_cols (columns df) <> []).
    { apply (filter_not_nil _ _ c Hin). unfold mentions in Hprod.
      destruct Hprod as [-> | ->]; [reflexivity | apply orb_true_r]. }
    assert (Ha : amt_cols (columns df) = []).
    { apply filter_nil. intros x Hx. destruct (Hamt x Hx) as [H1 H2].
      unfold mentions in H1, H2. now rewrite H1, H2. }
    destruct (prod_cols (columns df)) as [|p ps]; [congruence|].
    unfold lift. rewrite Ha. reflexivity.
  - intros df' Hnone. unfold products, vbind, get.
    assert (Hp : prod_cols (columns df') = []).
    { apply filter_nil. intros x Hx. destruct (Hnone x Hx) as [H1 H2].
      unfold mentions in H1, H2. now rewrite H1, H2. }
    rewrite Hp. reflexivity.
Qed.

(** ** The order on cells *)

Lemma cell_compare_antisym (a b : cell) :
  cell_compare b a = CompOpp (cell_compare a b).
Proof.
  destruct a, b; simpl; try reflexivity.
  - apply String.compare_antisym.
  - symmetry. apply Qcompare_antisym.
  - apply Z.compare_antisym.
Qed.

Lemma cell_compare_eq (a b : cell) :
  isnull a = false -> cell_compare a b = Eq -> cell_eqb a b = true.
Proof.
  destruct a, b; simpl; try discriminate; intros _ H.
  - apply String.compare_eq_iff in H. now apply String.eqb_eq.
  - apply Qeq_alt in H. now apply Qeq_bool_iff.
  - apply Z.compare_eq_iff in H. now apply Z.eqb_eq.
Qed.

Lemma cell_eqb_compare (a b : cell) :
  cell_eqb a b = true -> cell_compare a b = Eq.
Proof.
  destruct a, b; simpl; try discriminate; intros H.
  - apply String.eqb_eq in H. now apply String_as_OT.cmp_eq.
  - apply Qeq_bool_iff in H. now apply Qeq_alt.
  - apply Z.eqb_eq in H. now apply Z.compare_eq_iff.
Qed.

Lemma cell_eqb_notnull (a b : cell) :
  cell_eqb a b = true -> isnull a = false /\ isnull b = false.
Proof. destruct a, b; simpl; try discriminate; auto. Qed.

Lemma cell_eqb_sym (a b : cell) : cell_eqb a b = cell_eqb b a.
Proof.
  destruct a, b; simpl; try reflexivity.
  - apply String.eqb_sym.
  - apply eq_true_iff_eq. rewrite !Qeq_bool_iff. split; intros H; now symmetry.
  - apply Z.eqb_sym.
Qed.

Lemma cell_eqb_refl (a : cell) : isnull a = false -> cell_eqb a a = true.
Proof.
  destruct a; simpl; try discriminate; intros _.
  - apply String.eqb_refl.
  - apply Qeq_bool_iff. reflexivity.
  - apply Z.eqb_refl.
Qed.

Lemma cell_eqb_trans (a b c : cell) :
  cell_eqb a b = true -> cell_eqb b c = true -> cell_eqb a c = true.
Proof.
  destruct a, b, c; simpl; try discriminate.
  - rewrite !String.eqb_eq. congruence.
  - rewrite !Qeq_bool_iff. intros H1 H2. now rewrite H1.
  - rewrite !Z.eqb_eq. congruence.
Qed.

Lemma string_compare_trans (a b c : string) :
  String.compare a b = Lt -> String.compare b c = Lt -> String.compare a c = Lt.
Proof.
  intros H1 H2.
  apply String_as_OT.cmp_lt. apply String_as_OT.cmp_lt in H1, H2.
  eapply String_as_OT.lt_trans; eauto.
Qed.

Lemma cell_lt_trans (a b c : cell) : cell_lt a b -> cell_lt b c -> cell_lt a c.
Proof.
  unfold cell_lt.
  destruct a, b, c; simpl; try discriminate; try reflexivity.
  - apply string_compare_trans.
  - rewrite <- !Qlt_alt. apply Qlt_trans.
  - rewrite !Z.compare_lt_iff. apply Z.lt_trans.
Qed.

Lemma cell_lt_not_eqb (a b : cell) : cell_lt a b -> cell_eqb a b = false.
Proof.
  intros H. destruct (cell_eqb a b) eqn:E; [|reflexivity].
  apply cell_eqb_compare in E. unfold cell_lt in H. congruence.
Qed.

(** Cells that compare equal compare alike with any other cell. *)
Lemma cell_compare_Eq_l (a b c : cell) :
  cell_compare a b = Eq -> cell_compare a c = cell_compare b c.
Proof.
  destruct a, b, c; simpl; try discriminate; try reflexivity.
  - intros H. apply String.compare_eq_iff in H. now subst.
  - rewrite <- Qeq_alt. intros H. now rewrite H.
  - rewrite Z.compare_eq_iff. now intros ->.
Qed.

Lemma cell_compare_Eq_r (a b c : cell) :
  cell_compare a b = Eq -> cell_compare c a = cell_compare c b.
Proof.
  intros H. rewrite (cell_compare_antisym a c), (cell_compare_antisym b c).
  now rewrite (cell_compare_Eq_l a b c H).
Qed.

Lemma cell_compare_eqb_l (a b c : cell) :
  cell_eqb a b = true -> cell_compare a c = cell_compare b c.
Proof. intros H. now apply cell_compare_Eq_l, cell_eqb_compare. Qed.

(** ** Sums *)

Lemma numeric_not_datetime (l : list cell) :
  forallb is_numeric l = true -> existsb is_datetime l = false.
Proof.
  induction l as [|c l IH]; simpl; [reflexivity|].
  intros H. apply andb_true_iff in H as [Hc Hl].
  rewrite (IH Hl). destruct c; try discriminate; reflexivity.
Qed.

(** On numbers and [NaN]s, a sum is the sum of the numbers as [sum] forms
    it. *)
Lemma sum_with_numeric (sum : list Q -> Q) (l : list cell) :
  forallb is_numeric l = true ->
  sum_with sum l = Ok (CNum (total_with sum l)).
Proof.
  intros H. unfold sum_with. now rewrite (numeric_not_datetime l H), H.
Qed.

Lemma nansum_numeric {N : Numpy} (l : list cell) :
  forallb is_numeric l = true -> nansum l = Ok (CNum (series_total l)).
Proof. apply sum_with_numeric. Qed.

Lemma group_nansum_numeric {N : Numpy} (l : list cell) :
  forallb is_numeric l = true -> group_nansum l = Ok (CNum (group_total l)).
Proof. apply sum_with_numeric. Qed.

(** ** Where the sums of the machine are exact *)

Lemma amount_total_numbers (l : list cell) :
  amount_total l == exact_total (numbers l).
Proof.
  induction l as [|c l IH]; simpl; [reflexivity|].
  rewrite IH. destruct c; simpl; ring.
Qed.

Lemma total_with_exact (sum : list Q -> Q) (l : list cell) :
  (forall ns, small_integers ns = true -> sum ns == exact_total ns) ->
  small_integers (numbers l) = true ->
  total_with sum l == amount_total l.
Proof.
  intros Hsum Hsmall. rewrite amount_total_numbers. unfold total_with.
  destruct (numbers l) as [|n ns] eqn:E; [reflexivity|].
  now apply Hsum.
Qed.

Lemma series_total_exact {N : Numpy} (l : list cell) :
  exact_sums N -> small_integers (numbers l) = true ->
  series_total l == amount_total l.
Proof.
  intros Hex. apply total_with_exact. intros ns Hns. now apply Hex.
Qed.

Lemma group_total_exact {N : Numpy} (l : list cell) :
  exact_sums N -> small_integers (numbers l) = true ->
  group_total l == amount_total l.
Proof.
  intros Hex. apply total_with_exact. intros ns Hns. now apply Hex.
Qed.

Lemma magnitude_nonneg (ns : list Q) : 0 <= magnitude ns.
Proof.
  induction ns as [|q ns IH]; simpl; [apply Qle_refl|].
  rewrite <- (Qplus_0_l 0). apply Qplus_le_compat; [apply Qabs_nonneg|exact IH].
Qed.

Lemma small_integers_spec (ns : list Q) :
  small_integers ns = true <->
  forallb is_integer ns = true /\ magnitude ns <= inject_Z (2 ^ 53).
Proof.
  unfold small_integers. rewrite andb_true_iff, Qle_bool_iff. reflexivity.
Qed.

Lemma is_integer_whole (q : Q) :
  is_integer q = true -> q == inject_Z (Int64.whole q).
Proof.
  unfold is_integer, Int64.whole. intros H. apply Z.eqb_eq in H.
  unfold Qeq, inject_Z. simpl.
  rewrite Z.mul_1_r.
  pose proof (Z.div_mod (Qnum q) (Zpos (Qden q))) as E.
  rewrite H, Z.add_0_r in E. rewrite E at 1 by discriminate.
  apply Z.mul_comm.
Qed.

Lemma whole_total (ns : list Q) :
  forallb is_integer ns = true ->
  exact_total ns == inject_Z (fold_right Z.add 0%Z (map Int64.whole ns)) /\
  magnitude ns == inject_Z (fold_right (fun z acc => Z.abs z + acc)%Z 0%Z
                              (map Int64.whole ns)).
Proof.
  induction ns as [|n ns IH]; simpl; intros H; [split; reflexivity|].
  apply andb_true_iff in H as [Hn Hns]. destruct (IH Hns) as [IH1 IH2].
  rewrite !inject_Z_plus, <- IH1, <- IH2.
  rewrite (is_integer_whole n Hn) at 1 3.
  split; [reflexivity|].
  apply Qplus_comp; [|reflexivity].
  unfold Qabs, inject_Z. reflexivity.
Qed.

Lemma abs_total_le (zs : list Z) :
  (Z.abs (fold_right Z.add 0 zs) <= fold_right (fun z acc => Z.abs z + acc) 0 zs)%Z.
Proof.
  induction zs as [|z zs IH]; simpl; [reflexivity|]. lia.
Qed.

(** int64 sums do not wrap around on whole numbers whose absolute values
    add up to at most 2^53. *)
Lemma int64_sum_exact (ns : list Q) :
  small_integers ns = true -> Int64.sum ns == exact_total ns.
Proof.
  intros H. apply small_integers_spec in H as [Hint Hmag].
  destruct (whole_total ns Hint) as [Ht Hm].
  rewrite Ht. rewrite Hm in Hmag. rewrite <- Zle_Qle in Hmag.
  pose proof (abs_total_le (map Int64.whole ns)) as Hle.
  unfold Int64.sum, Int64.wrap.
  set (t := fold_right Z.add 0%Z (map Int64.whole ns)) in *.
  assert (Hb : (Z.abs t <= 2 ^ 53)%Z) by lia.
  rewrite Z.mod_small by lia.
  replace (t + 2 ^ 63 - 2 ^ 63)%Z with t by lia. reflexivity.
Qed.

(** A machine whose sums are those of int64 has exact sums in the sense of
    [exact_sums]. *)
Lemma int64_sums_exact {N : Numpy} :
  (forall ns, series_sum ns = Int64.sum ns) ->
  (forall ns, group_sum ns = Int64.sum ns) ->
  exact_sums N.
Proof.
  intros Hs Hg ns Hns. rewrite Hs, Hg. split; now apply int64_sum_exact.
Qed.

(** The numbers of a group are among the numbers of the column. *)
Lemma group_numbers_bound (k : cell) (ks vs : list cell) :
  forallb is_integer (numbers vs) = true ->
  forallb is_integer (numbers (group_vals k (combine ks vs))) = true /\
  magnitude (numbers (group_vals k (combine ks vs))) <= magnitude (numbers vs).
Proof.
  revert vs. induction ks as [|a ks IH]; intros vs Hint.
  - split; [reflexivity|apply magnitude_nonneg].
  - destruct vs as [|v vs]; [split; [reflexivity|apply Qle_refl]|].
    assert (Hv : forallb is_integer (numbers vs) = true).
    { destruct v; simpl in Hint; auto.
      now apply andb_true_iff in Hint as [_ Hint]. }
    destruct (IH vs Hv) as [IH1 IH2].
    unfold group_vals in *. simpl.
    destruct (cell_eqb a k); simpl.
    + destruct v; simpl in *; auto.
      apply andb_true_iff in Hint as [Hq _]. rewrite Hq, IH1. split; [reflexivity|].
      apply Qplus_le_compat; [apply Qle_refl|exact IH2].
    + split; [exact IH1|].
      destruct v; simpl; auto.
      rewrite <- (Qplus_0_l (magnitude _)).
      apply Qplus_le_compat; [apply Qabs_nonneg|exact IH2].
Qed.

Lemma small_integers_group (k : cell) (ks vs : list cell) :
  small_integers (numbers vs) = true ->
  small_integers (numbers (group_vals k (combine ks vs))) = true.
Proof.
  rewrite !small_integers_spec. intros [Hint Hmag].
  destruct (group_numbers_bound k ks vs Hint) as [H1 H2].
  split; [exact H1|]. eapply Qle_trans; eauto.
Qed.

(** ** Group keys *)

Lemma insert_key_in (k : cell) (l : list cell) (x : cell) :
  In x (insert_key k l) -> x = k \/ In x l.
Proof.
  induction l as [|y l IH]; simpl.
  - intros [<-|[]]. now left.
  - destruct (cell_compare k y); simpl.
    + intros [<-|H]; auto.
    + intros [<-|[<-|H]]; auto.
    + intros [<-|H]; auto. destruct (IH H); auto.
Qed.

Lemma insert_key_cover (k : cell) (l : list cell) (x : cell) :
  isnull k = false ->
  x = k \/ In x l ->
  isnull x = false ->
  exists x', In x' (insert_key k l) /\ cell_eqb x x' = true.
Proof.
  intros Hk. induction l as [|y l IH]; simpl; intros Hx Hnx.
  - destruct Hx as [->|[]]. exists k. split; [now left|]. now apply cell_eqb_refl.
  - destruct (cell_compare k y) eqn:E.
    + destruct Hx as [->|[<-|Hx]].
      * exists k. split; [now left|]. now apply cell_eqb_refl.
      * exists k. split; [now left|].
        rewrite cell_eqb_sym. now apply cell_compare_eq.
      * exists x. split; [now right|]. now apply cell_eqb_refl.
    + destruct Hx as [->|Hx].
      * exists k. split; [now left|]. now apply cell_eqb_refl.
      * exists x. split; [now right|]. now apply cell_eqb_refl.
    + destruct Hx as [->|[<-|Hx]].
      * destruct IH as [x' [Hin He]]; auto. exists x'. split; [now right|exact He].
      * exists y. split; [now left|]. now apply cell_eqb_refl.
      * destruct IH as [x' [Hin He]]; auto. exists x'. split; [now right|exact He].
Qed.

Lemma insert_key_sorted (k : cell) (l : list cell) :
  isnull k = false ->
  StronglySorted cell_lt l ->
  StronglySorted cell_lt (insert_key k l).
Proof.
  intros Hk. induction l as [|y l IH]; simpl; intros Hs.
  - constructor; constructor.
  - inversion Hs as [|? ? Hl Hy]; subst.
    destruct (cell_compare k y) eqn:E.
    + constructor; [exact Hl|].
      apply cell_compare_eq in E; [|exact Hk].
      eapply Forall_impl; [|exact Hy].
      intros z Hz. unfold cell_lt in *.
      now rewrite (cell_compare_eqb_l k y z E).
    + constructor; [exact Hs|].
      constructor; [exact E|].
      eapply Forall_impl; [|exact Hy].
      intros z Hz. now apply (cell_lt_trans k y z).
    + constructor; [now apply IH|].
      apply Forall_forall. intros z Hz.
      apply insert_key_in in Hz as [->|Hz].
      * unfold cell_lt. rewrite cell_compare_antisym, E. reflexivity.
      * rewrite Forall_forall in Hy. now apply Hy.
Qed.

Lemma group_keys_sorted (ks : list cell) : StronglySorted cell_lt (group_keys ks).
Proof.
  induction ks as [|k ks IH]; simpl; [constructor|].
  destruct (isnull k) eqn:E; [exact IH|].
  now apply insert_key_sorted.
Qed.

Lemma group_keys_in (ks : list cell) (k : cell) :
  In k (group_keys ks) -> In k ks /\ isnull k = false.
Proof.
  induction ks as [|a ks IH]; simpl; [intros []|].
  destruct (isnull a) eqn:E.
  - intros H. destruct (IH H). auto.
  - intros H. apply insert_key_in in H as [->|H]; auto.
    destruct (IH H). auto.
Qed.

Lemma group_keys_cover (ks : list cell) (k : cell) :
  In k ks -> isnull k = false ->
  exists k', In k' (group_keys ks) /\ cell_eqb k k' = true.
Proof.
  induction ks as [|a ks IH]; simpl; [intros []|].
  intros Hin Hk. destruct (isnull a) eqn:E.
  - destruct Hin as [->|Hin]; [congruence|]. now apply IH.
  - destruct Hin as [->|Hin].
    + apply insert_key_cover; auto.
    + destruct (IH Hin Hk) as [k' [Hk' He]].
      destruct (insert_key_cover a (group_keys ks) k' E (or_intror Hk'))
        as [k'' [Hin'' He'']].
      { now apply group_keys_in in Hk'. }
      exists k''. split; [exact Hin''|]. eapply cell_eqb_trans; eauto.
Qed.

Lemma sorted_distinct (l : list cell) :
  StronglySorted cell_lt l ->
  ForallOrdPairs (fun a b => cell_eqb a b = false) l.
Proof.
  induction 1 as [|a l Hs IH Ha]; constructor; auto.
  eapply Forall_impl; [|exact Ha]. intros b. apply cell_lt_not_eqb.
Qed.

Lemma group_keys_distinct_values (col : list cell) :
  distinct_values col (group_keys col).
Proof.
  repeat split.
  - now apply group_keys_in in H.
  - now apply group_keys_in in H.
  - apply group_keys_cover.
  - apply sorted_distinct, group_keys_sorted.
Qed.

(** ** Frames *)

Lemma lookup_replace_same (c : string) (v w : list cell) (l : list (string * list cell)) :
  lookup c l = Some w -> lookup c (replace_col c v l) = Some v.
Proof.
  induction l as [|[n x] l IH]; simpl; [discriminate|].
  destruct (String.eqb n c) eqn:E; simpl; rewrite E; auto.
Qed.

Lemma lookup_replace_other (c c' : string) (v : list cell) (l : list (string * list cell)) :
  c <> c' -> lookup c' (replace_col c v l) = lookup c' l.
Proof.
  intros Hne. induction l as [|[n x] l IH]; simpl.
  - destruct (String.eqb c c') eqn:E; [|reflexivity].
    apply String.eqb_eq in E. contradiction.
  - destruct (String.eqb n c) eqn:E; simpl.
    + apply String.eqb_eq in E. subst n.
      destruct (String.eqb c c') eqn:E'; [|reflexivity].
      apply String.eqb_eq in E'. contradiction.
    + now rewrite IH.
Qed.

Lemma names_replace (c : string) (v w : list cell) (l : list (string * list cell)) :
  lookup c l = Some w -> map fst (replace_col c v l) = map fst l.
Proof.
  induction l as [|[n x] l IH]; simpl; [discriminate|].
  destruct (String.eqb n c) eqn:E; simpl; [reflexivity|].
  intros H. now rewrite IH.
Qed.

Lemma getitem_lookup (df : DataFrame) (c : string) (v : list cell) :
  getitem df c = Ok v <-> lookup c (cols df) = Some v.
Proof.
  unfold getitem. destruct (lookup c (cols df)); split; intros H;
    inversion H; reflexivity.
Qed.

Lemma getitem_setitem_same (df : DataFrame) (c : string) (v w : list cell) :
  getitem df c = Ok w -> getitem (setitem df c v) c = Ok v.
Proof.
  intros H. apply getitem_lookup in H. apply getitem_lookup. simpl.
  eapply lookup_replace_same; eauto.
Qed.

Lemma getitem_setitem_other (df : DataFrame) (c c' : string) (v : list cell) :
  c <> c' -> getitem (setitem df c v) c' = getitem df c'.
Proof.
  intros H. unfold getitem. simpl. now rewrite lookup_replace_other.
Qed.

Lemma columns_setitem (df : DataFrame) (c : string) (v w : list cell) :
  getitem df c = Ok w -> columns (setitem df c v) = columns df.
Proof.
  intros H. apply getitem_lookup in H. unfold columns. simpl.
  eapply names_replace; eauto.
Qed.

Lemma lookup_in (c : string) (l : list (string * list cell)) :
  In c (map fst l) -> exists v, lookup c l = Some v.
Proof.
  induction l as [|[n x] l IH]; simpl; [intros []|].
  intros [->|H].
  - rewrite String.eqb_refl. eauto.
  - destruct (String.eqb n c); eauto.
Qed.

Lemma getitem_in (df : DataFrame) (c : string) :
  In c (columns df) -> exists v, getitem df c = Ok v.
Proof.
  intros H. destruct (lookup_in c (cols df) H) as [v Hv].
  exists v. now apply getitem_lookup.
Qed.

Lemma lookup_length (c : string) (w : list cell) (n : nat)
  (l : list (string * list cell)) :
  lookup c l = Some w ->
  Forall (fun nv => List.length (snd nv) = n) l ->
  List.length w = n.
Proof.
  induction l as [|[m x] l IH]; simpl; [discriminate|].
  intros Hl HF. apply Forall_cons_iff in HF as [Hx Hrest]. simpl in Hx.
  destruct (String.eqb m c); [inversion Hl as [E]; rewrite <- E; exact Hx|auto].
Qed.

Lemma wf_getitem_length (df : DataFrame) (c : string) (col : list cell) :
  wf_frame df -> getitem df c = Ok col -> List.length col = nrows df.
Proof.
  intros [_ HF] H. apply getitem_lookup in H.
  eapply lookup_length; eauto.
Qed.

(** ** Coercions *)

Section CoercionFacts.
Context {P : TextParsers}.

Lemma assign_numeric_run (df : DataFrame) (c : string) (col : list cell) :
  getitem df c = Ok col ->
  assign_numeric c df = (setitem df c (fillna 0 (to_numeric col)), [], Ok tt).
Proof.
  intros H. unfold assign_numeric, vbind, get, lift, put. now rewrite H.
Qed.

Lemma assign_datetime_run (df : DataFrame) (c : string) (col : list cell) :
  getitem df c = Ok col ->
  assign_datetime c df = (setitem df c (to_datetime col), [], Ok tt).
Proof.
  intros H. unfold assign_datetime, vbind, get, lift, put. now rewrite H.
Qed.

Lemma coerced_amounts_are_numbers (col : list cell) :
  forallb is_num (fillna 0 (to_numeric col)) = true.
Proof.
  unfold fillna, to_numeric. rewrite map_map.
  induction col as [|c col IH]; simpl; [reflexivity|].
  rewrite IH, andb_true_r.
  destruct c; simpl; try reflexivity.
  destruct (parse_number s); reflexivity.
Qed.

Lemma coerced_dates_are_datetime (col : list cell) :
  forallb is_datetime (to_datetime col) = true.
Proof.
  unfold to_datetime. generalize col at 1. intros ctx.
  induction col as [|c col IH]; simpl; [reflexivity|].
  rewrite IH, andb_true_r.
  destruct c; simpl; try reflexivity; destruct (parse_date ctx _); reflexivity.
Qed.

End CoercionFacts.

Lemma forallb_weaken {A} (f g : A -> bool) (l : list A) :
  (forall x, f x = true -> g x = true) ->
  forallb f l = true -> forallb g l = true.
Proof.
  intros Hfg. rewrite !forallb_forall. auto.
Qed.

Lemma num_is_numeric (c : cell) : is_num c = true -> is_numeric c = true.
Proof. destruct c; simpl; auto. Qed.

(** ** The Home figures *)

(** Lines 139-142 on a table whose amount column holds numbers or missing
    cells. *)
Lemma summary_metrics_numeric {N : Numpy} (df : DataFrame)
  (amt_col cust_col : string) (col custs : list cell) :
  getitem df amt_col = Ok col ->
  forallb is_numeric col = true ->
  getitem df cust_col = Ok custs ->
  exists m,
    summary_metrics df amt_col cust_col = Ok m /\
    total_sales m = series_total col /\
    total_orders m = len df /\
    total_customers m = nunique custs /\
    avg_order m = (if (len df =? 0)%nat then 0
                   else true_divide (total_sales m) (len df)).
Proof.
  intros Hamt Hnum Hcust.
  exists (mkSummary (series_total col) (len df) (nunique custs)
            (if (len df =? 0)%nat then 0
             else true_divide (series_total col) (len df))).
  split.
  { unfold summary_metrics. rewrite Hamt. simpl.
    rewrite (nansum_numeric col Hnum). simpl.
    rewrite Hcust. reflexivity. }
  simpl. auto.
Qed.


(** ** Grouping *)

Lemma mapM_Forall2 {A B} (f : A -> result B) (Q : A -> B -> Prop) (l : list A) :
  (forall x, In x l -> exists y, f x = Ok y /\ Q x y) ->
  exists ys, mapM f l = Ok ys /\ Forall2 Q l ys.
Proof.
  induction l as [|x l IH]; intros H; simpl.
  - exists []. split; [reflexivity|constructor].
  - destruct (H x (or_introl eq_refl)) as [y [Hy HQ]].
    destruct IH as [ys [Hys HF]]; [intros z Hz; apply H; now right|].
    exists (y :: ys). rewrite Hy, Hys. split; [reflexivity|now constructor].
Qed.

Lemma group_vals_in (k v : cell) (ks vs : list cell) :
  In v (group_vals k (combine ks vs)) -> In v vs.
Proof.
  unfold group_vals. intros H.
  apply in_map_iff in H as [[k' v'] [<- H]].
  apply filter_In in H as [H _]. now apply in_combine_r in H.
Qed.

Lemma group_vals_numeric (k : cell) (ks vs : list cell) :
  forallb is_numeric vs = true ->
  forallb is_numeric (group_vals k (combine ks vs)) = true.
Proof.
  rewrite !forallb_forall. intros H v Hv. apply H.
  eapply group_vals_in; eauto.
Qed.


Lemma groupby_sum_numeric {N : Numpy} (df : DataFrame) (key val : string)
  (ks vs : list cell) :
  getitem df key = Ok ks ->
  getitem df val = Ok vs ->
  forallb is_numeric vs = true ->
  exists gs,
    groupby_sum df key val = Ok gs /\
    map fst gs = group_keys ks /\
    Forall (group_entry ks vs) gs.
Proof.
  intros Hk Hv Hnum. unfold groupby_sum. rewrite Hk, Hv. simpl.
  destruct (mapM_Forall2
              (fun k => rbind (group_nansum (group_vals k (combine ks vs)))
                              (fun s => Ok (k, s)))
              (fun k g => fst g = k /\ group_entry ks vs g)
              (group_keys ks)) as [gs [Hgs HF]].
  { intros k _.
    exists (k, CNum (group_total (group_vals k (combine ks vs)))).
    rewrite group_nansum_numeric by now apply group_vals_numeric.
    simpl. split; [reflexivity|]. split; reflexivity. }
  exists gs. split; [exact Hgs|].
  clear Hgs. induction HF as [|k g l gs' [Hfst Hg] HF IH]; simpl.
  - split; constructor.
  - destruct IH as [IH1 IH2]. split.
    + now rewrite Hfst, IH1.
    + now constructor.
Qed.

(** Where the machine neither wraps around nor rounds, the group sums are
    the sums of the amounts. *)
Lemma group_entries_exact {N : Numpy} (ks vs : list cell) (gs : list (cell * cell)) :
  exact_sums N ->
  small_integers (numbers vs) = true ->
  Forall (group_entry ks vs) gs ->
  Forall (exact_group_entry ks vs) gs.
Proof.
  intros Hex Hsmall. apply Forall_impl. intros g Hg.
  exists (group_total (group_vals (fst g) (combine ks vs))).
  split; [exact Hg|].
  apply group_total_exact; [exact Hex|]. now apply small_integers_group.
Qed.

Lemma in_map_fst {A B} (l : list (A * B)) (a : A) :
  In a (map fst l) -> exists b, In (a, b) l.
Proof.
  intros H. apply in_map_iff in H as [[a' b] [<- H]]. now exists b.
Qed.

(** ** The sales trend *)

(** The trend of lines 151 and 196 on a table whose date column holds
    timestamps or [NaT] and whose amount column holds numbers or [NaN]. *)
Lemma trend_by_date_numeric {N : Numpy} (df : DataFrame)
  (date_col amt_col : string) (dates amts : list cell) :
  getitem df date_col = Ok dates ->
  getitem df amt_col = Ok amts ->
  date_col <> amt_col ->
  forallb is_datetime dates = true ->
  forallb is_numeric amts = true ->
  exists trend,
    trend_by_date df date_col amt_col = Ok trend /\
    StronglySorted cell_lt (map fst trend) /\
    (forall k s, In (k, s) trend ->
       (exists t, k = CDate t) /\ In k dates /\
       s = CNum (group_total (group_vals k (combine dates amts)))) /\
    (forall t, In (CDate t) dates -> exists s, In (CDate t, s) trend) /\
    (forall s, ~ In (CNaT, s) trend).
Proof.
  intros Hd Ha Hne Hdt Hnum.
  destruct (groupby_sum_numeric df date_col amt_col dates amts Hd Ha Hnum)
    as [gs [Hgs [Hkeys Hent]]].
  assert (Hkey : forall k s, In (k, s) gs -> In k dates /\ isnull k = false).
  { intros k s Hin. apply group_keys_in. rewrite <- Hkeys.
    change k with (fst (k, s)). now apply in_map. }
  exists gs. split.
  { unfold trend_by_date. rewrite Hgs. simpl. unfold reset_index.
    apply String.eqb_neq in Hne. now rewrite Hne. }
  split; [rewrite Hkeys; apply group_keys_sorted|].
  split; [|split].
  - intros k s Hin. destruct (Hkey k s Hin) as [Hk Hnn].
    split; [|split; [exact Hk|]].
    + rewrite forallb_forall in Hdt. specialize (Hdt k Hk).
      destruct k; try discriminate. now exists t.
    + rewrite Forall_forall in Hent. exact (Hent _ Hin).
  - intros t Hin.
    destruct (group_keys_cover dates (CDate t) Hin eq_refl) as [k' [Hk' He]].
    rewrite <- Hkeys in Hk'. apply in_map_fst in Hk' as [s Hs].
    destruct k'; simpl in He; try discriminate.
    apply Z.eqb_eq in He. subst. now exists s.
  - intros s Hin. destruct (Hkey _ _ Hin) as [_ Hnn]. discriminate.
Qed.

(** C3 as the code has it.  For a table whose date column is coerced by
    [to_datetime] and whose amount column is coerced to numbers, the trend
    of lines 151 and 196 has one entry per date that is not missing, in
    strictly ascending order of date, each with the sum of the amounts of
    the rows of that date as the grouping forms it, which is the sum of
    these amounts where the machine neither wraps around nor rounds (whole
    amounts within 2^53); a row whose date is missing belongs to no entry:
    every key of the trend is a date. *)
Theorem trend_by_date_spec {P : TextParsers} {N : Numpy} (df : DataFrame)
  (date_col amt_col : string) (raw_dates raw_amts : list cell) :
  getitem df date_col = Ok (to_datetime raw_dates) ->
  getitem df amt_col = Ok (fillna 0 (to_numeric raw_amts)) ->
  date_col <> amt_col ->
  let dates := to_datetime raw_dates in
  let amts := fillna 0 (to_numeric raw_amts) in
  exists trend,
    trend_by_date df date_col amt_col = Ok trend /\
    StronglySorted cell_lt (map fst trend) /\
    (forall k s, In (k, s) trend ->
       (exists t, k = CDate t) /\ In k dates /\
       s = CNum (group_total (group_vals k (combine dates amts)))) /\
    (exact_sums N -> small_integers (numbers amts) = true ->
     forall k s, In (k, s) trend ->
       exists q, s = CNum q /\
                 q == amount_total (group_vals k (combine dates amts))) /\
    (forall t, In (CDate t) dates -> exists s, In (CDate t, s) trend) /\
    (forall s, ~ In (CNaT, s) trend).
Proof.
  intros Hd Ha Hne dates amts.
  destruct (trend_by_date_numeric df date_col amt_col dates amts Hd Ha Hne)
    as (trend & Htrend & Hsorted & Hent & Hall & Hnone).
  { apply coerced_dates_are_datetime. }
  { eapply forallb_weaken; [apply num_is_numeric|].
    apply coerced_amounts_are_numbers. }
  exists trend. repeat (split; [assumption|]).
  split; [|split; assumption].
  intros Hex Hsmall k s Hin.
  destruct (Hent k s Hin) as (_ & _ & ->).
  eexists. split; [reflexivity|].
  apply group_total_exact; [exact Hex|]. now apply small_integers_group.
Qed.

(** ** Descending sort *)

Lemma insert_desc_perm {A} (x : A * cell) (l : list (A * cell)) :
  Permutation (x :: l) (insert_desc x l).
Proof.
  induction l as [|y l IH]; simpl; [reflexivity|].
  destruct (cell_compare (snd y) (snd x)); try reflexivity.
  rewrite perm_swap. now constructor.
Qed.

Lemma insert_rank_perm {A} (x : nat * A) (l : list (nat * A)) :
  Permutation (x :: l) (insert_rank x l).
Proof.
  induction l as [|y l IH]; simpl; [reflexivity|].
  destruct (fst y <? fst x)%nat; [|reflexivity].
  rewrite perm_swap. now constructor.
Qed.

Lemma map_snd_combine {A B} (l : list A) (l' : list B) :
  List.length l = List.length l' -> map snd (combine l l') = l'.
Proof.
  revert l'. induction l as [|a l IH]; intros [|b l'] H; simpl in *;
    try reflexivity; try discriminate.
  f_equal. apply IH. now inversion H.
Qed.

(** Ranking the positions only reorders the entries. *)
Lemma by_rank_perm {A} (rank : nat -> nat) (l : list A) :
  Permutation l (by_rank rank l).
Proof.
  unfold by_rank.
  set (c := combine (map rank (seq 0 (List.length l))) l).
  assert (Hc : map snd c = l).
  { apply map_snd_combine. now rewrite length_map, length_seq. }
  rewrite <- Hc at 1. apply Permutation_map.
  clearbody c. clear Hc. induction c as [|x c IH]; simpl; [reflexivity|].
  rewrite <- insert_rank_perm. now constructor.
Qed.

Lemma sort_desc_perm {N : Numpy} {A} (l : list (A * cell)) :
  Permutation l (sort_desc l).
Proof.
  unfold sort_desc. rewrite (by_rank_perm (tie_rank (map snd l)) l) at 1.
  induction (by_rank _ l) as [|x l' IH]; simpl; [reflexivity|].
  rewrite <- insert_desc_perm. now constructor.
Qed.

Lemma cell_ge_trans (a b c : cell) :
  cell_compare a b <> Lt -> cell_compare b c <> Lt -> cell_compare a c <> Lt.
Proof.
  intros Hab Hbc Hac.
  destruct (cell_compare a b) eqn:E; [| congruence |].
  - apply Hbc. now rewrite <- (cell_compare_Eq_l a b c E).
  - apply Hbc. apply (cell_lt_trans b a c); [|exact Hac].
    unfold cell_lt. now rewrite cell_compare_antisym, E.
Qed.

Lemma insert_desc_descending {A} (x : A * cell) (l : list (A * cell)) :
  StronglySorted (fun u v => cell_compare (snd u) (snd v) <> Lt) l ->
  StronglySorted (fun u v => cell_compare (snd u) (snd v) <> Lt) (insert_desc x l).
Proof.
  induction l as [|y l IH]; simpl; intros Hs.
  - constructor; constructor.
  - inversion Hs as [|? ? Hl Hy]; subst.
    assert (Hcase : cell_compare (snd y) (snd x) = Gt \/
                    cell_compare (snd x) (snd y) <> Lt).
    { rewrite (cell_compare_antisym (snd y) (snd x)).
      destruct (cell_compare (snd y) (snd x)); simpl; auto; right; discriminate. }
    destruct (cell_compare (snd y) (snd x)) eqn:E.
    + destruct Hcase as [H|H]; [discriminate|].
      constructor; [exact Hs|]. constructor; [exact H|].
      eapply Forall_impl; [|exact Hy]. intros z Hz.
      now apply (cell_ge_trans (snd x) (snd y) (snd z)).
    + destruct Hcase as [H|H]; [discriminate|].
      constructor; [exact Hs|]. constructor; [exact H|].
      eapply Forall_impl; [|exact Hy]. intros z Hz.
      now apply (cell_ge_trans (snd x) (snd y) (snd z)).
    + constructor; [now apply IH|].
      apply Forall_forall. intros z Hz.
      apply (Permutation_in _ (Permutation_sym (insert_desc_perm x l))) in Hz.
      destruct Hz as [<-|Hz].
      * rewrite E. discriminate.
      * rewrite Forall_forall in Hy. now apply Hy.
Qed.

Lemma sort_desc_descending {N : Numpy} {A} (l : list (A * cell)) :
  StronglySorted (fun u v => cell_compare (snd u) (snd v) <> Lt) (sort_desc l).
Proof.
  unfold sort_desc. induction (by_rank _ l) as [|x l' IH]; simpl; [constructor|].
  now apply insert_desc_descending.
Qed.

Lemma firstn_in {A} (n : nat) (l : list A) (x : A) :
  In x (firstn n l) -> In x l.
Proof.
  intros H. rewrite <- (firstn_skipn n l). apply in_or_app. now left.
Qed.

Lemma firstn_sorted {A} (R : A -> A -> Prop) (n : nat) (l : list A) :
  StronglySorted R l -> StronglySorted R (firstn n l).
Proof.
  revert l. induction n as [|n IH]; intros l Hs; simpl; [constructor|].
  destruct l as [|x l]; [constructor|].
  inversion Hs as [|? ? Hl Hx]; subst.
  constructor; [now apply IH|].
  apply Forall_forall. intros y Hy. rewrite Forall_forall in Hx.
  apply Hx. eapply firstn_in. exact Hy.
Qed.

Lemma group_sums_comparable {N : Numpy} (ks vs : list cell)
  (gs : list (cell * cell)) :
  Forall (group_entry ks vs) gs -> comparable (map snd gs) = true.
Proof.
  intros H. unfold comparable.
  assert (E : forallb is_numeric (map snd gs) = true).
  { induction H as [|g gs Hg _ IH]; simpl; [reflexivity|].
    unfold group_entry in Hg. now rewrite Hg, IH. }
  now rewrite E.
Qed.

(** The ranking shared by lines 157 and 210, for a numeric amount column:
    the groups in key order, sorted by descending sum, whatever the order
    the sort leaves groups of equal sum in. *)
Lemma ranking_spec {N : Numpy} (df : DataFrame) (key amt : string)
  (ks vs : list cell) :
  getitem df key = Ok ks ->
  getitem df amt = Ok vs ->
  forallb is_numeric vs = true ->
  exists groups sorted,
    groupby_sum df key amt = Ok groups /\
    sort_values_desc groups = Ok sorted /\
    map fst groups = group_keys ks /\
    Forall (group_entry ks vs) groups /\
    Permutation groups sorted /\
    StronglySorted not_below sorted.
Proof.
  intros Hk Hv Hnum.
  destruct (groupby_sum_numeric df key amt ks vs Hk Hv Hnum)
    as [gs [Hgs [Hkeys Hent]]].
  exists gs, (sort_desc gs). split; [exact Hgs|].
  split.
  { unfold sort_values_desc. now rewrite (group_sums_comparable ks vs gs Hent). }
  split; [exact Hkeys|]. split; [exact Hent|].
  split; [apply sort_desc_perm|].
  apply sort_desc_descending.
Qed.

(** ** One customer *)

Lemma select_eq_mask (custs col : list cell) (selected : cell) :
  select (eq_mask custs selected) col = group_vals selected (combine custs col).
Proof.
  unfold eq_mask, group_vals. revert col.
  induction custs as [|c custs IH]; intros [|v col]; simpl; try reflexivity.
  - destruct (cell_eqb c selected); reflexivity.
  - destruct (cell_eqb c selected); simpl; now rewrite IH.
Qed.

Lemma lookup_map_select (mask : list bool) (c : string) (l : list (string * list cell)) :
  lookup c (map (fun nv => (fst nv, select mask (snd nv))) l)
  = option_map (select mask) (lookup c l).
Proof.
  induction l as [|[n v] l IH]; simpl; [reflexivity|].
  destruct (String.eqb n c); [reflexivity|exact IH].
Qed.

Lemma getitem_filter_rows (df : DataFrame) (mask : list bool) (c : string)
  (col : list cell) :
  getitem df c = Ok col ->
  getitem (filter_rows df mask) c = Ok (select mask col).
Proof.
  intros H. apply getitem_lookup in H. apply getitem_lookup.
  simpl. rewrite lookup_map_select, H. reflexivity.
Qed.

Lemma count_true_eq_mask (custs : list cell) (selected : cell) :
  count_true (eq_mask custs selected)
  = List.length (filter (fun c => cell_eqb c selected) custs).
Proof.
  unfold count_true, eq_mask.
  induction custs as [|c custs IH]; simpl; [reflexivity|].
  destruct (cell_eqb c selected); simpl; now rewrite IH.
Qed.

Lemma max_from_date (l : list cell) :
  forallb is_datetime l = true ->
  forall a : Z, exists t,
    max_from (CDate a) l = CDate t /\ (a <= t)%Z /\
    (t = a \/ In (CDate t) l) /\
    (forall x, In (CDate x) l -> (x <= t)%Z).
Proof.
  induction l as [|c l IH]; intros Hdt a; simpl.
  - exists a. split; [reflexivity|]. split; [lia|]. split; [now left|intros x []].
  - simpl in Hdt. apply andb_true_iff in Hdt as [Hc Hl].
    destruct c; try discriminate; simpl.
    + destruct (Z.compare_spec a t) as [E|E|E].
      * idtac.
        destruct (IH Hl a) as [m [Hm [Hle [Hin Hmax]]]].
        exists m. split; [exact Hm|]. split; [exact Hle|]. split.
        { destruct Hin as [->|Hin]; auto. }
        intros x [Hx|Hx]; [inversion Hx; subst; exact Hle|auto].
      * idtac.
        destruct (IH Hl t) as [m [Hm [Hle [Hin Hmax]]]].
        exists m. split; [exact Hm|]. split; [lia|]. split.
        { destruct Hin as [->|Hin]; auto. }
        intros x [Hx|Hx]; [inversion Hx; subst; exact Hle|auto].
      * idtac.
        destruct (IH Hl a) as [m [Hm [Hle [Hin Hmax]]]].
        exists m. split; [exact Hm|]. split; [exact Hle|]. split.
        { destruct Hin as [->|Hin]; auto. }
        intros x [Hx|Hx]; [inversion Hx; subst; lia|auto].
    + destruct (IH Hl a) as [m [Hm [Hle [Hin Hmax]]]].
      exists m. split; [exact Hm|]. split; [exact Hle|]. split.
      * destruct Hin; auto.
      * intros x [Hx|Hx]; [discriminate|auto].
Qed.

Lemma max_from_nat (l : list cell) :
  forallb is_datetime l = true -> latest_date l (max_from CNaT l).
Proof.
  induction l as [|c l IH]; intros Hdt.
  - split; [reflexivity|intros t []].
  - simpl in Hdt. apply andb_true_iff in Hdt as [Hc Hl].
    destruct c; try discriminate; simpl.
    + destruct (max_from_date l Hl t) as [m [Hm [Hle [Hin Hmax]]]].
      rewrite Hm. split.
      * intros Hnone. exfalso. apply (Hnone t). now left.
      * intros x [Hx|Hx].
        { inversion Hx; subst. exists m. repeat split; auto.
          destruct Hin as [->|Hin]; [now left|now right]. }
        exists m. repeat split; auto.
        destruct Hin as [->|Hin]; [now left|now right].
    + destruct (IH Hl) as [H1 H2]. split.
      * intros Hnone. apply H1. intros t Ht. apply (Hnone t). now right.
      * intros t [Ht|Ht]; [discriminate|].
        destruct (H2 t Ht) as [t' [Hm [Hin Hle]]].
        exists t'. repeat split; auto. now right.
Qed.

Lemma forallb_select {A} (f : A -> bool) (mask : list bool) (l : list A) :
  forallb f l = true -> forallb f (select mask l) = true.
Proof.
  revert l. induction mask as [|b mask IH]; intros l H.
  - reflexivity.
  - destruct l as [|x l]; [destruct b; reflexivity|].
    simpl in H. apply andb_true_iff in H as [Hx Hl].
    destruct b; simpl; [rewrite Hx; simpl|]; now apply IH.
Qed.

(** Lines 173-177 and [.date()] of line 187 on a table whose amount column
    holds numbers or [NaN] and whose date column holds timestamps or
    [NaT]. *)
Lemma customer_profile_numeric {N : Numpy} (df : DataFrame)
  (cust_col amt_col date_col : string) (custs amts dates : list cell)
  (selected : cell) :
  getitem df cust_col = Ok custs ->
  getitem df amt_col = Ok amts ->
  getitem df date_col = Ok dates ->
  forallb is_numeric amts = true ->
  forallb is_datetime dates = true ->
  exists p d,
    customer_profile df cust_col amt_col date_col selected = Ok p /\
    date_method (last_purchase p) = Ok d /\
    data p = filter_rows df (eq_mask custs selected) /\
    total_spend p = series_total (group_vals selected (combine custs amts)) /\
    order_count p = List.length (filter (fun c => cell_eqb c selected) custs) /\
    profile_avg_order p
    = (if (order_count p =? 0)%nat then 0
       else true_divide (total_spend p) (order_count p)) /\
    latest_date (group_vals selected (combine custs dates)) (last_purchase p) /\
    (last_purchase p = CNaT -> d = CNaT).
Proof.
  intros Hc Ha Hd Hnum0 Hdt0.
  pose (mask := eq_mask custs selected).
  assert (Hnum : forallb is_numeric (select mask amts) = true)
    by now apply forallb_select.
  assert (Hdt : forallb is_datetime (select mask dates) = true)
    by now apply forallb_select.
  pose proof (nansum_numeric _ Hnum) as Hsum.
  set (q := series_total (select mask amts)) in *.
  pose proof (max_from_nat _ Hdt) as Hlatest.
  set (last := max_from CNaT (select mask dates)) in *.
  assert (Hlast : exists d, date_method last = Ok d /\ (last = CNaT -> d = CNaT)).
  { assert (Hk : is_datetime last = true).
    { unfold last. clear -Hdt. generalize (select mask dates) Hdt. intros l.
      induction l as [|c l IH]; simpl; [reflexivity|].
      intros H. apply andb_true_iff in H as [Hc Hl].
      destruct c; try discriminate; simpl; [|now apply IH].
      destruct (max_from_date l Hl t) as [m [Hm _]]. now rewrite Hm. }
    destruct last; try discriminate; simpl; eauto.
    eexists. split; [reflexivity|discriminate]. }
  destruct Hlast as [d [Hdate HdNaT]].
  exists (mkProfile (filter_rows df mask) q (count_true mask)
            (if (count_true mask =? 0)%nat then 0
             else true_divide q (count_true mask)) last), d.
  split.
  { unfold customer_profile. rewrite Hc. simpl. fold mask.
    rewrite (getitem_filter_rows df mask amt_col amts Ha). simpl.
    rewrite Hsum. simpl.
    rewrite (getitem_filter_rows df mask date_col dates Hd). simpl.
    unfold series_max. rewrite Hdt. reflexivity. }
  simpl. split; [exact Hdate|]. split; [reflexivity|].
  unfold q, mask in *. rewrite !select_eq_mask in *.
  split; [reflexivity|]. split; [apply count_true_eq_mask|].
  split; [reflexivity|]. split; [exact Hlatest|exact HdNaT].
Qed.

(** C8 as the code has it.  For a table whose customer, amount and date
    roles are found, the amount and the date on two different columns, and
    any selected value: after the coercions of lines 169-170 the computation
    of lines 173-177 raises nothing.  It keeps the rows whose customer cell
    equals the selected value; [total_spend] is the sum of their amounts as
    [Series.sum] forms it, which is the sum of these amounts where the
    machine neither wraps around nor rounds (whole amounts within 2^53);
    [order_count] is their number; the average order is 0 when there is none
    and the quotient of the machine otherwise; [last_purchase] is the latest
    of their dates, [NaT] when all are missing; and [.date()] of line 187
    succeeds on it, [NaT] included. *)
Theorem customer_profile_spec {P : TextParsers} {N : Numpy} (df : DataFrame)
  (cust_col amt_col date_col : string) (custs raw_amts raw_dates : list cell)
  (selected : cell) :
  getitem df cust_col = Ok custs ->
  getitem df amt_col = Ok raw_amts ->
  getitem df date_col = Ok raw_dates ->
  amt_col <> date_col ->
  let amts := fillna 0 (to_numeric raw_amts) in
  let dates := to_datetime raw_dates in
  let df1 := setitem df amt_col amts in
  let df' := setitem df1 date_col dates in
  exists custs' p d,
    assign_numeric amt_col df = (df1, [], Ok tt) /\
    assign_datetime date_col df1 = (df', [], Ok tt) /\
    getitem df' cust_col = Ok custs' /\
    (cust_col <> amt_col -> cust_col <> date_col -> custs' = custs) /\
    customer_profile df' cust_col amt_col date_col selected = Ok p /\
    date_method (last_purchase p) = Ok d /\
    data p = filter_rows df' (eq_mask custs' selected) /\
    total_spend p = series_total (group_vals selected (combine custs' amts)) /\
    (exact_sums N -> small_integers (numbers amts) = true ->
     total_spend p == amount_total (group_vals selected (combine custs' amts))) /\
    order_count p = List.length (filter (fun c => cell_eqb c selected) custs') /\
    (order_count p = 0%nat -> profile_avg_order p = 0) /\
    (order_count p <> 0%nat ->
     profile_avg_order p = true_divide (total_spend p) (order_count p)) /\
    latest_date (group_vals selected (combine custs' dates)) (last_purchase p) /\
    ((forall t, ~ In (CDate t) (group_vals selected (combine custs' dates))) ->
     last_purchase p = CNaT /\ d = CNaT).
Proof.
  intros Hc Ha Hd Hne amts dates df1 df'.
  assert (Hd1 : getitem df1 date_col = Ok raw_dates).
  { unfold df1. rewrite getitem_setitem_other by exact Hne. exact Hd. }
  assert (Ha' : getitem df' amt_col = Ok amts).
  { unfold df'. rewrite getitem_setitem_other by congruence.
    now apply (getitem_setitem_same _ _ _ raw_amts). }
  assert (Hd' : getitem df' date_col = Ok dates)
    by now apply (getitem_setitem_same _ _ _ raw_dates).
  assert (Hc' : exists custs',
             getitem df' cust_col = Ok custs' /\
             (cust_col <> amt_col -> cust_col <> date_col -> custs' = custs)).
  { destruct (string_dec cust_col date_col) as [->|Hcd].
    { exists dates. split; [exact Hd'|]. intros _ H. now destruct H. }
    destruct (string_dec cust_col amt_col) as [->|Hca].
    { exists amts. split; [exact Ha'|]. intros H. now destruct H. }
    exists custs. split; [|reflexivity].
    unfold df', df1. rewrite !getitem_setitem_other by congruence. exact Hc. }
  destruct Hc' as (custs' & Hc' & Hsame).
  destruct (customer_profile_numeric df' cust_col amt_col date_col custs' amts dates
              selected Hc' Ha' Hd')
    as (p & d & Hp & Hdate & Hdata & Hspend & Hcount & Havg & Hlatest & HdNaT).
  { eapply forallb_weaken; [apply num_is_numeric|].
    apply coerced_amounts_are_numbers. }
  { apply coerced_dates_are_datetime. }
  exists custs', p, d.
  split; [now apply assign_numeric_run|].
  split; [now apply assign_datetime_run|].
  split; [exact Hc'|]. split; [exact Hsame|].
  split; [exact Hp|]. split; [exact Hdate|]. split; [exact Hdata|].
  split; [exact Hspend|].
  split.
  { intros Hex Hsmall. rewrite Hspend.
    apply series_total_exact; [exact Hex|]. now apply small_integers_group. }
  split; [exact Hcount|].
  split; [intros Hz; rewrite Havg, Hz; reflexivity|].
  split.
  { intros Hn. rewrite Havg. apply Nat.eqb_neq in Hn. rewrite Hn. reflexivity. }
  split; [exact Hlatest|].
  intros Hnone. destruct Hlatest as [H1 _].
  split; [now apply H1|]. apply HdNaT. now apply H1.
Qed.

(** X21.  The sum of line 174 on a column of dates: when the amount column
    of the table holds timestamps or [NaT], as it does after lines 169-170
    when one header is both the amount and the date header, and the selected
    customer has a row, the computation ends with a [TypeError]. *)
Theorem customer_profile_date_amounts {N : Numpy} (df : DataFrame)
  (cust_col col : string) (custs vals : list cell) (selected : cell) :
  getitem df cust_col = Ok custs ->
  getitem df col = Ok vals ->
  forallb is_datetime vals = true ->
  List.length custs = List.length vals ->
  (exists c, In c custs /\ cell_eqb c selected = true) ->
  customer_profile df cust_col col col selected = Raise TypeError.
Proof.
  intros Hc Hv Hdt Hlen Hsel.
  assert (Hex : existsb is_datetime (select (eq_mask custs selected) vals) = true).
  { clear Hc Hv. revert vals Hdt Hlen.
    induction custs as [|c custs IH]; intros [|v vals] Hdt Hlen;
      try discriminate; [destruct Hsel as (? & [] & _)|].
    simpl in Hdt. apply andb_true_iff in Hdt as [Hv Hvals].
    simpl. destruct (cell_eqb c selected) eqn:E; simpl.
    - now rewrite Hv.
    - apply IH; auto.
      destruct Hsel as (c' & [<-|Hin] & He); [congruence|]. now exists c'. }
  unfold customer_profile. rewrite Hc. simpl.
  rewrite (getitem_filter_rows df _ col vals Hv). simpl.
  unfold nansum, sum_with. now rewrite Hex.
Qed.

(** Lines 157 and 210 from the grouped and sorted sums. *)
Lemma top_of_ranking {N : Numpy} (df : DataFrame) (key_col amt_col : string)
  (groups sorted : list (cell * cell)) :
  groupby_sum df key_col amt_col = Ok groups ->
  sort_values_desc groups = Ok sorted ->
  key_col <> amt_col ->
  top_customers df key_col amt_col = Ok (firstn 10 sorted) /\
  top_products df key_col amt_col = Ok (firstn 20 sorted).
Proof.
  intros Hg Hs Hne. apply String.eqb_neq in Hne.
  unfold top_customers, top_products, reset_index, head.
  rewrite Hg. simpl. rewrite Hs, Hne. simpl. rewrite Hs. split; reflexivity.
Qed.

(** C5 as the code has it.  For a table with a key column (customer or
    product) and an amount column holding numbers or missing cells, as the
    amount column is after the coercion of the Home page: the groups are the
    distinct keys that are not missing, in ascending key order, each with
    the sum of its amounts as the grouping forms it, which is the sum of
    these amounts where the machine neither wraps around nor rounds (whole
    amounts within 2^53); the ranking is a reordering of the groups in which
    no sum is smaller than a sum after it, the order among groups of equal
    sum being left to the sort; the Home page keeps the first 10 and the
    Products page the first 20. *)
Theorem top_ranking_spec {N : Numpy} (df : DataFrame) (key_col amt_col : string)
  (keys amts : list cell) :
  getitem df key_col = Ok keys ->
  getitem df amt_col = Ok amts ->
  key_col <> amt_col ->
  forallb is_numeric amts = true ->
  exists groups sorted,
    distinct_values keys (map fst groups) /\
    StronglySorted cell_lt (map fst groups) /\
    Forall (group_entry keys amts) groups /\
    (exact_sums N -> small_integers (numbers amts) = true ->
     Forall (exact_group_entry keys amts) groups) /\
    Permutation groups sorted /\
    StronglySorted not_below sorted /\
    top_customers df key_col amt_col = Ok (firstn 10 sorted) /\
    top_products df key_col amt_col = Ok (firstn 20 sorted).
Proof.
  intros Hk Ha Hne Hnum.
  destruct (ranking_spec df key_col amt_col keys amts Hk Ha Hnum)
    as (groups & sorted & Hg & Hs & Hkeys & Hent & Hperm & Hsorted).
  exists groups, sorted.
  split; [rewrite Hkeys; apply group_keys_distinct_values|].
  split; [rewrite Hkeys; apply group_keys_sorted|].
  split; [exact Hent|].
  split; [intros Hex Hsmall; now apply group_entries_exact|].
  split; [exact Hperm|]. split; [exact Hsorted|].
  now apply (top_of_ranking df key_col amt_col groups sorted).
Qed.


(** ** What the pages write into [df] *)

Lemma read_only_get : read_only get.
Proof. intros df. now exists [], (Ok df). Qed.

Lemma read_only_lift {A} (r : result A) : read_only (lift r).
Proof. intros df. now exists [], r. Qed.

Lemma read_only_emit (w : widget) : read_only (emit w).
Proof. intros df. now exists [w], (Ok tt). Qed.

Lemma read_only_vbind {A B} (m : View A) (k : A -> View B) :
  read_only m -> (forall a, read_only (k a)) -> read_only (vbind m k).
Proof.
  intros Hm Hk df. unfold vbind.
  destruct (Hm df) as (w1 & r1 & ->).
  destruct r1 as [a|e].
  - destruct (Hk a df) as (w2 & r2 & ->). now exists (w1 ++ w2), r2.
  - now exists w1, (Raise e).
Qed.

Create HintDb views.
#[local] Hint Resolve read_only_get read_only_lift read_only_emit : views.

Ltac read_only_steps :=
  repeat (apply read_only_vbind; [auto with views | intros ?]);
  auto with views.

Lemma read_only_home_render {N : Numpy} (date_col cust_col amt_col : string) :
  read_only (home_render date_col cust_col amt_col).
Proof. unfold home_render. read_only_steps. Qed.

Lemma read_only_profile_render {N : Numpy} (selected : cell) (cust_col amt_col date_col : string) :
  read_only (profile_render selected cust_col amt_col date_col).
Proof. unfold profile_render. read_only_steps. Qed.

Lemma read_only_all_sales : read_only all_sales.
Proof. unfold all_sales. read_only_steps. Qed.

Lemma read_only_products {N : Numpy} : read_only products.
Proof.
  unfold products. apply read_only_vbind; [auto with views|].
  intros df. destruct (prod_cols (columns df)); read_only_steps.
Qed.

Section PageFacts.
Context {P : TextParsers} {N : Numpy}.

(** The Home page with its three roles found: lines 136-137 overwrite the
    date and amount columns, then the figures are computed. *)
Lemma home_resolved (df : DataFrame) (date_col cust_col amt_col : string)
  (dates amts : list cell) :
  empty df = false ->
  index0 (date_cols (columns df)) = Ok date_col ->
  index0 (cust_cols (columns df)) = Ok cust_col ->
  index0 (amt_cols (columns df)) = Ok amt_col ->
  getitem df date_col = Ok dates ->
  getitem df amt_col = Ok amts ->
  date_col <> amt_col ->
  home df =
  home_render date_col cust_col amt_col
    (setitem (setitem df date_col (to_datetime dates))
             amt_col (fillna 0 (to_numeric amts))).
Proof.
  intros Hne Hd Hc Ha Hgd Hga Hda.
  unfold home. unfold vbind at 1. unfold get at 1. rewrite Hne.
  unfold vbind at 1. unfold lift at 1. rewrite Hd.
  unfold vbind at 1. unfold lift at 1. rewrite Hc.
  unfold vbind at 1. unfold lift at 1. rewrite Ha.
  unfold vbind at 1. rewrite (assign_datetime_run df date_col dates Hgd).
  unfold vbind at 1.
  rewrite (assign_numeric_run _ amt_col amts)
    by (rewrite getitem_setitem_other; auto).
  simpl.
  destruct (home_render _ _ _ _) as [[df' ws] r]. reflexivity.
Qed.

Lemma customer_profile_page_resolved (df : DataFrame) (selected : cell)
  (date_col cust_col amt_col : string) (dates amts : list cell) :
  empty df = false ->
  index0 (date_cols (columns df)) = Ok date_col ->
  index0 (cust_cols (columns df)) = Ok cust_col ->
  index0 (amt_cols (columns df)) = Ok amt_col ->
  getitem df date_col = Ok dates ->
  getitem df amt_col = Ok amts ->
  date_col <> amt_col ->
  customer_profile_page selected df =
  profile_render selected cust_col amt_col date_col
    (setitem (setitem df amt_col (fillna 0 (to_numeric amts)))
             date_col (to_datetime dates)).
Proof.
  intros Hne Hd Hc Ha Hgd Hga Hda.
  unfold customer_profile_page. unfold vbind at 1. unfold get at 1. rewrite Hne.
  unfold vbind at 1. unfold lift at 1. rewrite Hc.
  unfold vbind at 1. unfold lift at 1. rewrite Ha.
  unfold vbind at 1. unfold lift at 1. rewrite Hd.
  unfold vbind at 1. rewrite (assign_numeric_run df amt_col amts Hga).
  unfold vbind at 1.
  rewrite (assign_datetime_run _ date_col dates)
    by (rewrite getitem_setitem_other; auto).
  simpl.
  destruct (profile_render _ _ _ _ _) as [[df' ws] r]. reflexivity.
Qed.

(** C4 as the code has it.  The All Sales and Products pages leave the
    session-held table as it is.  The Home and Customer Profile pages, once
    their three roles are found, overwrite the date column with its coerced
    dates and the amount column with its coerced numbers in the session-held
    table itself; the headers, the number of rows and every other column
    stay as they were, and the computations that follow write nothing. *)
Theorem pages_frame_effect (df : DataFrame) (date_col cust_col amt_col : string)
  (dates amts : list cell) (selected : cell) :
  empty df = false ->
  index0 (date_cols (columns df)) = Ok date_col ->
  index0 (cust_cols (columns df)) = Ok cust_col ->
  index0 (amt_cols (columns df)) = Ok amt_col ->
  getitem df date_col = Ok dates ->
  getitem df amt_col = Ok amts ->
  date_col <> amt_col ->
  forall page, exists df' ws r,
    run None page selected (Some df) = (Some df', ws, r) /\
    match page with
    | Home | CustomerProfile =>
        columns df' = columns df /\
        len df' = len df /\
        getitem df' date_col = Ok (to_datetime dates) /\
        getitem df' amt_col = Ok (fillna 0 (to_numeric amts)) /\
        (forall c, c <> date_col -> c <> amt_col -> getitem df' c = getitem df c)
    | AllSales | Products => df' = df
    end.
Proof.
  intros Hne Hd Hc Ha Hgd Hga Hda page.
  unfold run, page_view. destruct page.
  - rewrite (home_resolved df date_col cust_col amt_col dates amts) by assumption.
    destruct (read_only_home_render date_col cust_col amt_col
                (setitem (setitem df date_col (to_datetime dates))
                         amt_col (fillna 0 (to_numeric amts))))
      as (ws & r & ->).
    eexists _, ws, r. split; [reflexivity|].
    split.
    { rewrite (columns_setitem _ amt_col _ amts)
        by (rewrite getitem_setitem_other; auto).
      now rewrite (columns_setitem _ date_col _ dates). }
    split; [reflexivity|]. split.
    { rewrite getitem_setitem_other by congruence.
      now apply (getitem_setitem_same _ _ _ dates). }
    split.
    { apply (getitem_setitem_same _ _ _ amts).
      rewrite getitem_setitem_other; auto. }
    intros c H1 H2. rewrite !getitem_setitem_other by congruence. reflexivity.
  - destruct (read_only_all_sales df) as (ws & r & ->). now exists df, ws, r.
  - rewrite (customer_profile_page_resolved df selected date_col cust_col amt_col
               dates amts) by assumption.
    destruct (read_only_profile_render selected cust_col amt_col date_col
                (setitem (setitem df amt_col (fillna 0 (to_numeric amts)))
                         date_col (to_datetime dates)))
      as (ws & r & ->).
    eexists _, ws, r. split; [reflexivity|].
    split.
    { rewrite (columns_setitem _ date_col _ dates)
        by (rewrite getitem_setitem_other; auto).
      now rewrite (columns_setitem _ amt_col _ amts). }
    split; [reflexivity|]. split.
    { apply (getitem_setitem_same _ _ _ dates).
      rewrite getitem_setitem_other; auto. }
    split.
    { rewrite getitem_setitem_other by congruence.
      now apply (getitem_setitem_same _ _ _ amts). }
    intros c H1 H2. rewrite !getitem_setitem_other by congruence. reflexivity.
  - destruct (read_only_products df) as (ws & r & ->). now exists df, ws, r.
Qed.

End PageFacts.

(** ** The group sums add up to the amounts of the keyed rows *)


Lemma groups_total_nil (ks : list cell) : groups_total ks [] == 0.
Proof.
  induction ks as [|k ks IH]; simpl; [reflexivity|].
  rewrite IH. unfold group_vals. simpl. ring.
Qed.


Lemma groups_total_cons (ks : list cell) (r : cell * cell) (rows : list (cell * cell)) :
  groups_total ks (r :: rows) == row_share ks r + groups_total ks rows.
Proof.
  induction ks as [|k ks IH]; simpl; [ring|].
  rewrite IH. unfold group_vals. simpl.
  destruct (cell_eqb (fst r) k); simpl; ring.
Qed.

Lemma row_share_none (ks : list cell) (r : cell * cell) :
  (forall k, In k ks -> cell_eqb (fst r) k = false) -> row_share ks r == 0.
Proof.
  induction ks as [|k ks IH]; intros H; simpl; [reflexivity|].
  rewrite (H k) by now left. rewrite IH; [ring|].
  intros k' Hk'. apply H. now right.
Qed.

Lemma row_share_one (ks : list cell) (r : cell * cell) :
  ForallOrdPairs (fun a b => cell_eqb a b = false) ks ->
  (exists k, In k ks /\ cell_eqb (fst r) k = true) ->
  row_share ks r == amount (snd r).
Proof.
  induction 1 as [|k ks Hk Hks IH]; intros [k0 [Hin He]]; [destruct Hin|].
  simpl. destruct (cell_eqb (fst r) k) eqn:E.
  - rewrite row_share_none; [ring|].
    intros k' Hk'. destruct (cell_eqb (fst r) k') eqn:E'; [|reflexivity].
    rewrite Forall_forall in Hk. specialize (Hk k' Hk').
    rewrite cell_eqb_sym in E.
    rewrite (cell_eqb_trans k (fst r) k' E E') in Hk. discriminate.
  - destruct Hin as [->|Hin]; [congruence|].
    rewrite IH; [ring|]. now exists k0.
Qed.

Lemma groups_total_keyed (ks : list cell) (rows : list (cell * cell)) :
  ForallOrdPairs (fun a b => cell_eqb a b = false) ks ->
  (forall r, In r rows -> isnull (fst r) = false ->
             exists k, In k ks /\ cell_eqb (fst r) k = true) ->
  groups_total ks rows == amount_total (keyed_amounts rows).
Proof.
  intros Hd. induction rows as [|r rows IH]; intros Hcov.
  - apply groups_total_nil.
  - rewrite groups_total_cons.
    rewrite IH by (intros r' Hr'; apply Hcov; now right).
    unfold keyed_amounts. simpl. unfold notnull.
    destruct (isnull (fst r)) eqn:E; simpl.
    + rewrite row_share_none; [ring|].
      intros k _. destruct (cell_eqb (fst r) k) eqn:E'; [|reflexivity].
      apply cell_eqb_notnull in E' as [E' _]. congruence.
    + rewrite row_share_one; auto. reflexivity. apply Hcov; auto. now left.
Qed.

Lemma group_entries_total (ks vs : list cell) (gs : list (cell * cell)) :
  Forall (exact_group_entry ks vs) gs ->
  amount_total (map snd gs) == groups_total (map fst gs) (combine ks vs).
Proof.
  induction 1 as [|g gs [q [Hs Hq]] _ IH]; simpl; [reflexivity|].
  rewrite IH, Hs. simpl. now rewrite Hq.
Qed.

(** For a numeric amount column of whole amounts within 2^53, the sums of
    all the groups add up to the sum of the amounts of the rows whose key is
    not missing. *)
Lemma group_sums_total {N : Numpy} (df : DataFrame) (key amt : string)
  (ks vs : list cell) :
  exact_sums N ->
  getitem df key = Ok ks ->
  getitem df amt = Ok vs ->
  forallb is_numeric vs = true ->
  small_integers (numbers vs) = true ->
  exists groups,
    groupby_sum df key amt = Ok groups /\
    amount_total (map snd groups) == amount_total (keyed_amounts (combine ks vs)).
Proof.
  intros Hex Hk Hv Hnum Hsmall.
  destruct (groupby_sum_numeric df key amt ks vs Hk Hv Hnum)
    as [gs [Hgs [Hkeys Hent]]].
  exists gs. split; [exact Hgs|].
  rewrite (group_entries_total ks vs gs
             (group_entries_exact ks vs gs Hex Hsmall Hent)), Hkeys.
  apply groups_total_keyed.
  - apply sorted_distinct, group_keys_sorted.
  - intros [k v] Hin Hnn. simpl in *.
    apply group_keys_cover; [|exact Hnn].
    eapply in_combine_l; eauto.
Qed.

(** ** Counting and ranking on numeric amounts *)

Lemma distinct_fit (ds es : list cell) :
  ForallOrdPairs (fun a b => cell_eqb a b = false) ds ->
  (forall d, In d ds -> exists e, In e es /\ cell_eqb d e = true) ->
  (List.length ds <= List.length es)%nat.
Proof.
  intros Hd. revert es.
  induction Hd as [|d ds Hhead Htail IH]; intros es Hmap; simpl; [lia|].
  destruct (Hmap d (or_introl eq_refl)) as [e [He Hde]].
  apply in_split in He as (l1 & l2 & ->).
  rewrite length_app. simpl.
  assert (Hle : (List.length ds <= List.length (l1 ++ l2))%nat).
  { apply IH. intros d' Hd'.
    destruct (Hmap d' (or_intror Hd')) as [e' [He' Hde']].
    exists e'. split; [|exact Hde'].
    apply in_app_or in He' as [He'|[<-|He']]; apply in_or_app; auto.
    exfalso. rewrite Forall_forall in Hhead. specialize (Hhead d' Hd').
    rewrite cell_eqb_sym in Hde'.
    rewrite (cell_eqb_trans d e d' Hde Hde') in Hhead. discriminate. }
  rewrite length_app in Hle. lia.
Qed.

(** The number of distinct values of a column does not depend on the list
    chosen to enumerate them. *)
Lemma distinct_values_count (col ds es : list cell) :
  distinct_values col ds -> distinct_values col es ->
  List.length ds = List.length es.
Proof.
  intros (Hd1 & Hd2 & Hd3) (He1 & He2 & He3).
  apply Nat.le_antisymm; apply distinct_fit; auto.
  - intros d Hd. destruct (Hd1 d Hd). now apply He2.
  - intros e He. destruct (He1 e He). now apply Hd2.
Qed.

(** X20.  On a numeric amount column, whatever the limit: the ranking is no
    longer than the limit and its sums never increase; and where the machine
    neither wraps around nor rounds (whole amounts within 2^53), the sums of
    all the groups add up to the amounts of the rows whose key is not
    missing. *)
Lemma ranking_numeric_properties {N : Numpy} (df : DataFrame) (key amt : string)
  (ks vs : list cell) (limit : nat) :
  getitem df key = Ok ks ->
  getitem df amt = Ok vs ->
  forallb is_numeric vs = true ->
  exists groups sorted,
    groupby_sum df key amt = Ok groups /\
    sort_values_desc groups = Ok sorted /\
    (List.length (head limit sorted) <= limit)%nat /\
    StronglySorted (fun x y => cell_compare (snd x) (snd y) <> Lt)
                   (head limit sorted) /\
    (exact_sums N -> small_integers (numbers vs) = true ->
     amount_total (map snd groups)
     == amount_total (keyed_amounts (combine ks vs))).
Proof.
  intros Hk Hv Hnum.
  destruct (ranking_spec df key amt ks vs Hk Hv Hnum)
    as (groups & sorted & Hg & Hs & _ & _ & _ & Hsorted).
  exists groups, sorted. repeat (split; [assumption|]).
  split; [apply firstn_le_length|]. split; [now apply firstn_sorted|].
  intros Hex Hsmall.
  destruct (group_sums_total df key amt ks vs Hex Hk Hv Hnum Hsmall)
    as (groups' & Hg' & Htotal).
  rewrite Hg in Hg'. inversion Hg'. subst groups'. exact Htotal.
Qed.


(** ** The Home page as a whole *)

(** X18.  With its three roles found on three different columns, the Home
    page ends normally with the figures, the trend and the ranking computed on
    the coerced table. *)
Lemma home_renders {P : TextParsers} {N : Numpy} (df : DataFrame)
  (date_col cust_col amt_col : string) (dates custs amts : list cell) :
  empty df = false ->
  index0 (date_cols (columns df)) = Ok date_col ->
  index0 (cust_cols (columns df)) = Ok cust_col ->
  index0 (amt_cols (columns df)) = Ok amt_col ->
  getitem df date_col = Ok dates ->
  getitem df cust_col = Ok custs ->
  getitem df amt_col = Ok amts ->
  date_col <> amt_col -> cust_col <> amt_col -> cust_col <> date_col ->
  let df' := setitem (setitem df date_col (to_datetime dates))
                     amt_col (fillna 0 (to_numeric amts)) in
  exists m trend top,
    home df = (df', [Metrics m; LineChart trend; BarChart top], Ok tt) /\
    summary_metrics df' amt_col cust_col = Ok m /\
    trend_by_date df' date_col amt_col = Ok trend /\
    top_customers df' cust_col amt_col = Ok top.
Proof.
  intros Hne Hd Hc Ha Hgd Hgc Hga Hda Hca Hcd df'.
  rewrite (home_resolved df date_col cust_col amt_col dates amts) by assumption.
  fold df'.
  assert (Hga1 : getitem (setitem df date_col (to_datetime dates)) amt_col = Ok amts)
    by (rewrite getitem_setitem_other; auto).
  assert (Hgc1 : getitem (setitem df date_col (to_datetime dates)) cust_col = Ok custs)
    by (rewrite getitem_setitem_other; auto).
  assert (Hgd' : getitem df' date_col = Ok (to_datetime dates)).
  { unfold df'. rewrite getitem_setitem_other by congruence.
    now apply (getitem_setitem_same _ _ _ dates). }
  assert (Hga' : getitem df' amt_col = Ok (fillna 0 (to_numeric amts)))
    by (apply (getitem_setitem_same _ _ _ amts); exact Hga1).
  assert (Hgc' : getitem df' cust_col = Ok custs)
    by (unfold df'; rewrite getitem_setitem_other; auto).
  assert (Hnum : forallb is_numeric (fillna 0 (to_numeric amts)) = true).
  { eapply forallb_weaken; [apply num_is_numeric|].
    apply coerced_amounts_are_numbers. }
  destruct (summary_metrics_numeric df' amt_col cust_col _ custs Hga' Hnum Hgc')
    as (m & Hm & _).
  destruct (trend_by_date_numeric df' date_col amt_col _ _ Hgd' Hga' Hda)
    as (trend & Htrend & _); [apply coerced_dates_are_datetime|exact Hnum|].
  destruct (ranking_spec df' cust_col amt_col custs _ Hgc' Hga' Hnum)
    as (groups & sorted & Hg & Hs & _).
  destruct (top_of_ranking df' cust_col amt_col groups sorted Hg Hs Hca)
    as [Htop _].
  exists m, trend, (firstn 10 sorted).
  split; [|auto].
  clearbody df'.
  unfold home_render, vbind, get, lift, emit.
  rewrite Hm, Htrend, Htop. reflexivity.
Qed.


(** ** The Customer Profile page as a whole *)



Lemma forallb_filter {A} (f g : A -> bool) (l : list A) :
  forallb f l = true -> forallb f (filter g l) = true.
Proof.
  rewrite !forallb_forall. intros H x Hx. apply H.
  now apply filter_In in Hx.
Qed.




(** ** The pages on concrete files *)

Section SampleRuns.
#[local] Existing Instance Sample.parsers.
#[local] Existing Instance Sample.numpy.

(** The scenario of the specification: the figures of the Home page and of
    the profile of "Ali". *)
Example scenario_home :
  run (Some Sample.scenario_file) Home CNaN None =
  (Some (Sample.after_home Sample.scenario_file),
   [Metrics (mkSummary 15 3 2 (15 # 3));
    LineChart [(CDate 1706745600000000000, CNum 10);
               (CDate 1706832000000000000, CNum 5)];
    BarChart [(CStr "Ali", CNum 15); (CStr "Bee", CNum 0)]],
   Ok tt).
Proof. reflexivity. Qed.

Example scenario_profile :
  exists p,
    customer_profile (Sample.after_home Sample.scenario_file)
      "Customer" "Total" "Date" (CStr "Ali") = Ok p /\
    total_spend p = 15 /\ order_count p = 2%nat /\
    profile_avg_order p = 15 # 2 /\
    last_purchase p = CDate (Sample.days_from_civil 2024 2 2 * ns_per_day).
Proof. eexists. split; [reflexivity|]. repeat split. Qed.

(** A table with headers and no row: every figure is 0. *)
Example summary_metrics_no_rows :
  summary_metrics (mkDF 0 [("Date", []); ("Customer", []); ("Total", [])])
    "Total" "Customer"
  = Ok (mkSummary 0 0 0 0).
Proof. reflexivity. Qed.

(** A customer none of whose dates reads as a date: the card shows [NaT]
    and the page ends normally. *)
Example profile_all_missing_dates :
  exists df p ws,
    run (Some Sample.trend_file) CustomerProfile (CStr "Bee") None
    = (Some df, CustomerCard (CStr "Bee") p CNaT :: ws, Ok tt) /\
    last_purchase p = CNaT.
Proof. do 3 eexists. split; reflexivity. Qed.

(** Outside the computation of the profile, the select box of line 172
    sorts the customer values: a customer column with a missing cell among
    names ends the page with a [TypeError]. *)
Example profile_page_missing_customer :
  snd (run (Some Sample.missing_customer_file) CustomerProfile (CStr "Ali") None)
  = Raise TypeError.
Proof. reflexivity. Qed.

(** C3, counterexample.  On the file [01/02/2024,Ali,10 / bad,Bee,5] the
    date of the second row is missing after coercion, and the trend of the
    Home page is the single entry of 1 February with 10: the row of missing
    date is in no bucket, where the specification keeps it in a last bucket
    of its own. *)
Lemma trend_drops_missing_dates :
  let df := Sample.after_home Sample.trend_file in
  let trend := [(CDate 1706745600000000000, CNum 10)] in
  getitem df "Date" = Ok [CDate 1706745600000000000; CNaT] /\
  getitem df "Total" = Ok [CNum 10; CNum 5] /\
  trend_by_date df "Date" "Total" = Ok trend /\
  In (LineChart trend) (snd (fst (run (Some Sample.trend_file) Home CNaN None))) /\
  ~ null_bucket_last [CDate 1706745600000000000; CNaT] trend.
Proof.
  cbv zeta. split; [reflexivity|]. split; [reflexivity|].
  split; [reflexivity|]. split; [vm_compute; tauto|].
  intros H. destruct (H eq_refl) as (front & s & E).
  destruct front as [|x [|y front]]; simpl in E; discriminate.
Qed.

(** C4, counterexample.  Running the Home page on the table parsed from the
    scenario file changes that table: the session then holds the numbers
    10, 5, 0 where the file had the strings "10", "5", "bad", and the All
    Sales page shows the coerced table. *)
Lemma home_overwrites_session_table :
  let df := try_read_csv Sample.scenario_file in
  let df' := Sample.after_home Sample.scenario_file in
  getitem df "Total" = Ok [CStr "10"; CStr "5"; CStr "bad"] /\
  fst (fst (run None Home CNaN (Some df))) = Some df' /\
  getitem df' "Total" = Ok [CNum 10; CNum 5; CNum 0] /\
  run None AllSales CNaN (Some df') = (Some df', [Table df'], Ok tt) /\
  ~ leaves_table_unchanged Home CNaN df.
Proof.
  cbv zeta. repeat (split; [reflexivity|]).
  intros (ws & r & E). vm_compute in E. discriminate E.
Qed.

(** C5, counterexample.  "Bee" is met before "Ali" in the file and both
    total 10; the ranking of the Home page lists "Ali" first, and it is the
    same ranking when the two rows are swapped: the grouping emits the
    groups in key order whatever the order of the rows, so the order of
    first appearance cannot reach the sort (here a sort that leaves equal
    sums in the order it receives them).  Whatever order a sort left the two
    tied groups in, it would contradict the order of first appearance of one
    of the two files. *)
Lemma ties_follow_key_order :
  let top := [(CStr "Ali", CNum 10); (CStr "Bee", CNum 10)] in
  getitem (try_read_csv Sample.tie_file) "Customer" = Ok [CStr "Bee"; CStr "Ali"] /\
  top_customers (Sample.after_home Sample.tie_file) "Customer" "Total" = Ok top /\
  In (BarChart top) (snd (fst (run (Some Sample.tie_file) Home CNaN None))) /\
  In (BarChart top) (snd (fst (run (Some Sample.tie_file_swapped) Home CNaN None))) /\
  ~ ties_by_first_encounter [CStr "Bee"; CStr "Ali"] top /\
  (forall out, Permutation top out ->
     ~ (ties_by_first_encounter [CStr "Bee"; CStr "Ali"] out /\
        ties_by_first_encounter [CStr "Ali"; CStr "Bee"] out)).
Proof.
  cbv zeta. split; [reflexivity|]. split; [reflexivity|].
  split; [vm_compute; tauto|]. split; [vm_compute; tauto|].
  split.
  - intros H.
    specialize (H 0%nat 1%nat _ _ (Nat.lt_0_succ 0) eq_refl eq_refl eq_refl).
    vm_compute in H. lia.
  - intros out Hperm [H1 H2].
    apply Permutation_length_2_inv in Hperm as [-> | ->].
    + specialize (H1 0%nat 1%nat _ _ (Nat.lt_0_succ 0) eq_refl eq_refl eq_refl).
      vm_compute in H1. lia.
    + specialize (H2 0%nat 1%nat _ _ (Nat.lt_0_succ 0) eq_refl eq_refl eq_refl).
      vm_compute in H2. lia.
Qed.

(** C8, counterexample.  In this file the header "Total To Date" is both
    the first amount header and the first date header, and "Ali" has a row.
    The Customer Profile page coerces the column to numbers (line 169) and
    then to dates (line 170); line 174 asks a datetime column for its sum,
    and the page ends with a [TypeError] before rendering anything. *)
Lemma profile_shared_amount_date_header :
  let df := try_read_csv Sample.amount_date_file in
  let df' := mkDF 2 [("Customer", [CStr "Ali"; CStr "Bee"]);
                     ("Total To Date", [CDate 10; CDate 5])] in
  empty df = false /\
  index0 (cust_cols (columns df)) = Ok "Customer" /\
  index0 (amt_cols (columns df)) = Ok "Total To Date" /\
  index0 (date_cols (columns df)) = Ok "Total To Date" /\
  getitem df "Customer" = Ok [CStr "Ali"; CStr "Bee"] /\
  getitem df "Total To Date" = Ok [CNum 10; CNum 5] /\
  customer_profile df' "Customer" "Total To Date" "Total To Date" (CStr "Ali")
  = Raise TypeError /\
  run (Some Sample.amount_date_file) CustomerProfile (CStr "Ali") None
  = (Some df', [], Raise TypeError).
Proof. cbv zeta. repeat split. Qed.

(** C7, the failing input.  The amount column of this file holds "10",
    "bad" and "5"; its coerced total over the rows with a product is 15.
    The Home page coerces the column and ranks numbers.  The Products page,
    run on the freshly parsed table, sums the raw column: its "sums" are the
    concatenated strings "5" and "10bad", ranked as strings.  Run after the
    Home page on the session table, it ranks the numbers 10 and 5. *)
Theorem products_page_sums_raw_amounts :
  let df := try_read_csv Sample.product_file in
  let df' := Sample.after_home Sample.product_file in
  getitem df "Product" = Ok [CStr "Serum"; CStr "Serum"; CStr "Toner"] /\
  getitem df "Total" = Ok [CStr "10"; CStr "bad"; CStr "5"] /\
  amount_total
    (keyed_amounts (combine [CStr "Serum"; CStr "Serum"; CStr "Toner"]
                            (fillna 0 (to_numeric [CStr "10"; CStr "bad"; CStr "5"]))))
  == 15 /\
  run (Some Sample.product_file) Products CNaN None
  = (Some df,
     [BarChart [(CStr "Toner", CStr "5"); (CStr "Serum", CStr "10bad")]],
     Ok tt) /\
  top_customers df' "Customer" "Total" = Ok [(CStr "Ali", CNum 10); (CStr "Bee", CNum 5)] /\
  run None Products CNaN (Some df')
  = (Some df',
     [BarChart [(CStr "Serum", CNum 10); (CStr "Toner", CNum 5)]],
     Ok tt).
Proof. cbv zeta. repeat split. Qed.

End SampleRuns.

(** Whatever the arithmetic and the sort, the two files of tied customers
    get the same ranking: the order of their rows is lost in the grouping. *)
Example ties_ignore_row_order {N : Numpy} :
  top_customers (Sample.after_home Sample.tie_file) "Customer" "Total"
  = top_customers (Sample.after_home Sample.tie_file_swapped) "Customer" "Total".
Proof. reflexivity. Qed.

(** Where the amounts are held as int64 and their sum passes 2^63, the total
    of the Home page wraps around: two orders of 2^62 total -2^63. *)
Example total_sales_wraps_around {N : Numpy} :
  (forall ns, series_sum ns = Int64.sum ns) ->
  let amounts := [CNum (inject_Z (2 ^ 62)); CNum (inject_Z (2 ^ 62))] in
  let df := mkDF 2 [("Customer", [CStr "Ali"; CStr "Bee"]); ("Total", amounts)] in
  exists m,
    summary_metrics df "Total" "Customer" = Ok m /\
    total_sales m == inject_Z (- 2 ^ 63) /\
    amount_total amounts == inject_Z (2 ^ 63).
Proof.
  intros Hsum amounts df. eexists. split.
  - unfold summary_metrics, df. simpl. reflexivity.
  - simpl. unfold series_total, total_with. simpl. rewrite Hsum.
    split; reflexivity.
Qed.


(** ** The theorems at work on the sample files *)

Section Instances.
#[local] Existing Instance Sample.parsers.
#[local] Existing Instance Sample.numpy.

(** The semicolon scenario of the specification: comma and tab give one
    column, semicolon gives three. *)
Example semicolon_selected :
  multi_column (decode Sample.semicolon_file) "," = false /\
  multi_column (decode Sample.semicolon_file) Str.tab = false /\
  columns (try_read_csv Sample.semicolon_file) = ["Product"; "Qty"; "Amount"].
Proof. repeat split. Qed.

Lemma try_read_csv_first_delimiter_witness :
  exists pre sep post df,
    separators = pre ++ sep :: post /\
    (forall s, In s pre -> multi_column (decode Sample.semicolon_file) s = false) /\
    read_csv (decode Sample.semicolon_file) sep = Ok df /\
    (1 < shape1 df)%nat /\
    try_read_csv Sample.semicolon_file = df.
Proof.
  apply (try_read_csv_first_delimiter Sample.semicolon_file).
  exists ";". split; [simpl; tauto | reflexivity].
Defined.

Lemma try_read_csv_no_delimiter_witness :
  try_read_csv Sample.one_column_file = empty_frame /\
  len (try_read_csv Sample.one_column_file) = 0%nat /\
  shape1 (try_read_csv Sample.one_column_file) = 0%nat /\
  empty (try_read_csv Sample.one_column_file) = true.
Proof.
  apply (try_read_csv_no_delimiter Sample.one_column_file).
  intros s [<-|[<-|[<-|[]]]]; reflexivity.
Defined.

Lemma products_amount_lookup_unguarded_witness :
  products (try_read_csv Sample.no_amount_file)
  = (try_read_csv Sample.no_amount_file, [], Raise IndexError) /\
  (forall df' : DataFrame,
      (forall c, In c (columns df') ->
                 mentions "product" c = false /\ mentions "item" c = false) ->
      products df' = (df', [Info "Tiada column produk dalam fail CSV ni."], Ok tt)).
Proof.
  apply (products_amount_lookup_unguarded (try_read_csv Sample.no_amount_file)).
  - reflexivity.
  - exists "Product". split; [simpl; tauto | left; reflexivity].
  - intros c [<-|[<-|[]]]; split; reflexivity.
Defined.

(** The exact sums of the sample instance are exact. *)
Lemma sample_sums_exact : exact_sums Sample.numpy.
Proof.
  intros ns _. simpl.
  assert (H : Sample.exact_sum ns == exact_total ns).
  { destruct ns as [|n ns]; [reflexivity|]. simpl.
    revert n. induction ns as [|m ns IH]; intros n; simpl; [ring|].
    rewrite IH. ring. }
  split; exact H.
Qed.

(** The coerced amounts of the scenario are whole numbers within 2^53. *)
Example scenario_amounts_small :
  small_integers (numbers (fillna 0 (to_numeric [CStr "10"; CStr "5"; CStr "bad"])))
  = true.
Proof. reflexivity. Qed.


Lemma trend_by_date_spec_witness :
  let dates :=
    to_datetime [CStr "01/02/2024"; CStr "02/02/2024"; CStr "01/02/2024"] in
  let amts := fillna 0 (to_numeric [CStr "10"; CStr "5"; CStr "bad"]) in
  exists trend,
    trend_by_date (Sample.after_home Sample.scenario_file) "Date" "Total" = Ok trend /\
    StronglySorted cell_lt (map fst trend) /\
    (forall k s, In (k, s) trend ->
       (exists t, k = CDate t) /\ In k dates /\
       s = CNum (group_total (group_vals k (combine dates amts)))) /\
    (exact_sums Sample.numpy -> small_integers (numbers amts) = true ->
     forall k s, In (k, s) trend ->
       exists q, s = CNum q /\
                 q == amount_total (group_vals k (combine dates amts))) /\
    (forall t, In (CDate t) dates -> exists s, In (CDate t, s) trend) /\
    (forall s, ~ In (CNaT, s) trend).
Proof.
  apply (trend_by_date_spec (Sample.after_home Sample.scenario_file)
           "Date" "Total").
  - reflexivity.
  - reflexivity.
  - discriminate.
Defined.

Lemma top_ranking_spec_witness :
  exists groups sorted,
    distinct_values [CStr "Ali"; CStr "Ali"; CStr "Bee"] (map fst groups) /\
    StronglySorted cell_lt (map fst groups) /\
    Forall (group_entry [CStr "Ali"; CStr "Ali"; CStr "Bee"]
                        [CNum 10; CNum 5; CNum 0]) groups /\
    (exact_sums Sample.numpy ->
     small_integers (numbers [CNum 10; CNum 5; CNum 0]) = true ->
     Forall (exact_group_entry [CStr "Ali"; CStr "Ali"; CStr "Bee"]
                               [CNum 10; CNum 5; CNum 0]) groups) /\
    Permutation groups sorted /\
    StronglySorted not_below sorted /\
    top_customers (Sample.after_home Sample.scenario_file) "Customer" "Total"
    = Ok (firstn 10 sorted) /\
    top_products (Sample.after_home Sample.scenario_file) "Customer" "Total"
    = Ok (firstn 20 sorted).
Proof.
  apply (top_ranking_spec (Sample.after_home Sample.scenario_file)
           "Customer" "Total").
  - reflexivity.
  - reflexivity.
  - discriminate.
  - reflexivity.
Defined.

Lemma customer_profile_spec_witness :
  let df := try_read_csv Sample.scenario_file in
  let custs := [CStr "Ali"; CStr "Ali"; CStr "Bee"] in
  let amts := fillna 0 (to_numeric [CStr "10"; CStr "5"; CStr "bad"]) in
  let dates :=
    to_datetime [CStr "01/02/2024"; CStr "02/02/2024"; CStr "01/02/2024"] in
  let df1 := setitem df "Total" amts in
  let df' := setitem df1 "Date" dates in
  let selected := CStr "Ali" in
  exists custs' p d,
    assign_numeric "Total" df = (df1, [], Ok tt) /\
    assign_datetime "Date" df1 = (df', [], Ok tt) /\
    getitem df' "Customer" = Ok custs' /\
    ("Customer" <> "Total" -> "Customer" <> "Date" -> custs' = custs) /\
    customer_profile df' "Customer" "Total" "Date" selected = Ok p /\
    date_method (last_purchase p) = Ok d /\
    data p = filter_rows df' (eq_mask custs' selected) /\
    total_spend p = series_total (group_vals selected (combine custs' amts)) /\
    (exact_sums Sample.numpy -> small_integers (numbers amts) = true ->
     total_spend p == amount_total (group_vals selected (combine custs' amts))) /\
    order_count p = List.length (filter (fun c => cell_eqb c selected) custs') /\
    (order_count p = 0%nat -> profile_avg_order p = 0) /\
    (order_count p <> 0%nat ->
     profile_avg_order p = true_divide (total_spend p) (order_count p)) /\
    latest_date (group_vals selected (combine custs' dates)) (last_purchase p) /\
    ((forall t, ~ In (CDate t) (group_vals selected (combine custs' dates))) ->
     last_purchase p = CNaT /\ d = CNaT).
Proof.
  apply (customer_profile_spec (try_read_csv Sample.scenario_file)
           "Customer" "Total" "Date"
           [CStr "Ali"; CStr "Ali"; CStr "Bee"]
           [CStr "10"; CStr "5"; CStr "bad"]
           [CStr "01/02/2024"; CStr "02/02/2024"; CStr "01/02/2024"]
           (CStr "Ali")).
  - reflexivity.
  - reflexivity.
  - reflexivity.
  - discriminate.
Defined.

Lemma pages_frame_effect_witness :
  let df := try_read_csv Sample.scenario_file in
  let dates := [CStr "01/02/2024"; CStr "02/02/2024"; CStr "01/02/2024"] in
  let amts := [CStr "10"; CStr "5"; CStr "bad"] in
  exists df' ws r,
    run None Home CNaN (Some df) = (Some df', ws, r) /\
    (columns df' = columns df /\
     len df' = len df /\
     getitem df' "Date" = Ok (to_datetime dates) /\
     getitem df' "Total" = Ok (fillna 0 (to_numeric amts)) /\
     (forall c, c <> "Date" -> c <> "Total" -> getitem df' c = getitem df c)).
Proof.
  refine (pages_frame_effect (try_read_csv Sample.scenario_file)
            "Date" "Customer" "Total"
            [CStr "01/02/2024"; CStr "02/02/2024"; CStr "01/02/2024"]
            [CStr "10"; CStr "5"; CStr "bad"] CNaN _ _ _ _ _ _ _ Home).
  - reflexivity.
  - reflexivity.
  - reflexivity.
  - reflexivity.
  - reflexivity.
  - reflexivity.
  - discriminate.
Defined.

End Instances.

(** ** More on the role lookups *)

Lemma index0_filter_first {A} (f : A -> bool) (l : list A) (c : A) :
  index0 (filter f l) = Ok c <->
  exists pre post,
    l = pre ++ c :: post /\ f c = true /\ (forall x, In x pre -> f x = false).
Proof.
  split.
  - induction l as [|a l IH]; simpl; [discriminate|].
    destruct (f a) eqn:E; simpl.
    + intros H. inversion H; subst.
      exists [], l. repeat split; auto. intros x [].
    + intros H. destruct (IH H) as (pre & post & -> & Hc & Hpre).
      exists (a :: pre), post. repeat split; auto.
      intros x [<-|Hx]; auto.
  - intros (pre & post & -> & Hc & Hpre).
    induction pre as [|a pre IH]; simpl.
    + now rewrite Hc.
    + rewrite (Hpre a) by now left.
      apply IH. intros x Hx. apply Hpre. now right.
Qed.

(** X1.  Each role is given to the first header, in header order, that
    contains one of its keywords: the lookups of lines 132-134, 166-168 and
    206-209 return [c] exactly when [c] mentions a keyword of the role and
    no header before it does. *)
Theorem role_lookup_first_match (cs : list string) (c : string) :
  (index0 (date_cols cs) = Ok c <->
   exists pre post, cs = pre ++ c :: post /\
     mentions "date" c = true /\
     (forall x, In x pre -> mentions "date" x = false)) /\
  (index0 (cust_cols cs) = Ok c <->
   exists pre post, cs = pre ++ c :: post /\
     mentions "name" c || mentions "customer" c = true /\
     (forall x, In x pre -> mentions "name" x || mentions "customer" x = false)) /\
  (index0 (amt_cols cs) = Ok c <->
   exists pre post, cs = pre ++ c :: post /\
     mentions "total" c || mentions "amount" c = true /\
     (forall x, In x pre -> mentions "total" x || mentions "amount" x = false)) /\
  (index0 (prod_cols cs) = Ok c <->
   exists pre post, cs = pre ++ c :: post /\
     mentions "product" c || mentions "item" c = true /\
     (forall x, In x pre -> mentions "product" x || mentions "item" x = false)).
Proof.
  unfold date_cols, cust_cols, amt_cols, prod_cols, mentions.
  refine (conj _ (conj _ (conj _ _))).
  - apply (index0_filter_first (fun c => Str.contains "date" (Str.lower c))).
  - apply (index0_filter_first
             (fun c => Str.contains "name" (Str.lower c)
                       || Str.contains "customer" (Str.lower c))).
  - apply (index0_filter_first
             (fun c => Str.contains "total" (Str.lower c)
                       || Str.contains "amount" (Str.lower c))).
  - apply (index0_filter_first
             (fun c => Str.contains "product" (Str.lower c)
                       || Str.contains "item" (Str.lower c))).
Qed.

(** ** Substrings and case *)

Lemma prefix_append (a s : string) :
  String.prefix a s = true <-> exists post, s = (a ++ post)%string.
Proof.
  revert s. induction a as [|x a IH]; intros s; simpl.
  - split; [intros _; now exists s|]. destruct s; reflexivity.
  - destruct s as [|y s]; simpl.
    + split; [discriminate|]. intros [post H]. discriminate.
    + destruct (ascii_dec x y) as [->|Hne].
      * rewrite IH. split; intros [post H]; exists post.
        -- now rewrite H.
        -- now inversion H.
      * split; [discriminate|]. intros [post H]. congruence.
Qed.

Lemma contains_append (sub s : string) :
  Str.contains sub s = true <-> exists pre post, s = (pre ++ sub ++ post)%string.
Proof.
  induction s as [|y s IH].
  - cbn [Str.contains]. rewrite orb_false_r, prefix_append. split.
    + intros [post H]. now exists "", post.
    + intros (pre & post & H). destruct pre; simpl in H; [now exists post|discriminate].
  - cbn [Str.contains]. rewrite orb_true_iff, prefix_append, IH. split.
    + intros [[post H]|(pre & post & H)].
      * now exists "", post.
      * exists (String y pre), post. simpl. now rewrite H.
    + intros (pre & post & H). destruct pre as [|z pre]; simpl in H.
      * left. now exists post.
      * right. inversion H. now exists pre, post.
Qed.

Lemma lower_append (a b : string) :
  Str.lower (a ++ b) = (Str.lower a ++ Str.lower b)%string.
Proof. induction a as [|x a IH]; simpl; [reflexivity|now rewrite IH]. Qed.

Lemma lower_split (s x y : string) :
  Str.lower s = (x ++ y)%string ->
  exists a b, s = (a ++ b)%string /\ Str.lower a = x /\ Str.lower b = y.
Proof.
  revert s. induction x as [|c x IH]; intros s H; simpl in H.
  - now exists "", s.
  - destruct s as [|d s]; simpl in H; [discriminate|].
    inversion H as [[Hc Hs]].
    destruct (IH s Hs) as (a & b & -> & Ha & Hb).
    exists (String d a), b. simpl. now rewrite Ha.
Qed.

(** X2.  The test ["kw" in c.lower()] of the role lookups is a
    case-insensitive substring test: it holds exactly when some contiguous
    part of the header lower-cases to the keyword. *)
Theorem mentions_substring (kw c : string) :
  mentions kw c = true <->
  exists pre mid post, c = (pre ++ mid ++ post)%string /\ Str.lower mid = kw.
Proof.
  unfold mentions. rewrite contains_append. split.
  - intros (pre' & post' & H).
    destruct (lower_split _ _ _ H) as (pre & rest & -> & Hpre & Hrest).
    destruct (lower_split _ _ _ Hrest) as (mid & post & -> & Hmid & Hpost).
    now exists pre, mid, post.
  - intros (pre & mid & post & -> & Hmid).
    exists (Str.lower pre), (Str.lower post).
    now rewrite !lower_append, Hmid.
Qed.

(** ** More on the loader and on tables without usable data *)

Section LoaderFacts.
Context {P : TextParsers} {N : Numpy}.

Lemma try_seps_result (content : string) (seps : list string) :
  try_seps content seps = empty_frame \/
  exists sep, In sep seps /\
    read_csv content sep = Ok (try_seps content seps) /\
    (1 < shape1 (try_seps content seps))%nat.
Proof.
  induction seps as [|sep rest IH]; simpl; [now left|].
  destruct (read_csv content sep) as [df|e] eqn:E.
  - destruct (1 <? shape1 df)%nat eqn:L.
    + right. exists sep. split; [now left|]. split; [exact E|].
      now apply Nat.ltb_lt.
    + destruct IH as [IH|(s & Hs & Hr & Hl)]; [now left|].
      right. exists s. auto.
  - destruct IH as [IH|(s & Hs & Hr & Hl)]; [now left|].
    right. exists s. auto.
Qed.

(** X3.  What [try_read_csv] returns is either the empty [pd.DataFrame()]
    or a table that [read_csv] produced for one of the three separators and
    that has more than one column: never a one-column table. *)
Theorem try_read_csv_result (file : list Byte.byte) :
  (try_read_csv file = empty_frame \/
   exists sep, In sep separators /\
     read_csv (decode file) sep = Ok (try_read_csv file) /\
     (1 < shape1 (try_read_csv file))%nat) /\
  shape1 (try_read_csv file) <> 1%nat.
Proof.
  unfold try_read_csv.
  pose proof (try_seps_result (decode file) separators) as H.
  split; [exact H|].
  destruct H as [-> | (sep & _ & _ & Hl)]; [discriminate|lia].
Qed.

(** X4.  When no separator gives a table with more than one column, no page
    raises on the upload: Home and Customer Profile show their warning, All
    Sales shows the empty table, Products reports that there is no product
    column, and the session holds the empty table. *)
Theorem pages_on_unusable_file (file : list Byte.byte) (selected : cell)
  (session : option DataFrame) :
  (forall s, In s separators -> multi_column (decode file) s = false) ->
  run (Some file) Home selected session
  = (Some empty_frame, [Warning "Upload CSV untuk mula analisis."], Ok tt) /\
  run (Some file) CustomerProfile selected session
  = (Some empty_frame, [Warning "Upload CSV untuk mula."], Ok tt) /\
  run (Some file) AllSales selected session
  = (Some empty_frame, [Table empty_frame], Ok tt) /\
  run (Some file) Products selected session
  = (Some empty_frame, [Info "Tiada column produk dalam fail CSV ni."], Ok tt).
Proof.
  intros Hnone.
  assert (E : try_read_csv file = empty_frame)
    by (unfold try_read_csv; now apply try_seps_none).
  unfold run. rewrite E. repeat split.
Qed.

(** X5.  On a table that is not empty, a missing date, customer or amount
    header ends both the Home page and the Customer Profile page with the
    [IndexError] of a lookup [[...][0]], before anything is written to the
    table or rendered. *)
Theorem pages_with_missing_role (df : DataFrame) (selected : cell) :
  empty df = false ->
  date_cols (columns df) = [] \/ cust_cols (columns df) = [] \/
  amt_cols (columns df) = [] ->
  home df = (df, [], Raise IndexError) /\
  customer_profile_page selected df = (df, [], Raise IndexError).
Proof.
  intros Hne Hmiss.
  unfold home, customer_profile_page, vbind, get, lift. rewrite Hne.
  destruct (date_cols (columns df)) as [|d ds];
    destruct (cust_cols (columns df)) as [|c cs];
    destruct (amt_cols (columns df)) as [|a az]; simpl;
    try (split; reflexivity).
  destruct Hmiss as [H|[H|H]]; discriminate.
Qed.


End LoaderFacts.

(** ** Pages run one after the other on the session table *)

Lemma replace_col_same (c : string) (v : list cell) (l : list (string * list cell)) :
  lookup c l = Some v -> replace_col c v l = l.
Proof.
  induction l as [|[n w] l IH]; simpl; [discriminate|].
  destruct (String.eqb n c) eqn:E.
  - intros H. now inversion H.
  - intros H. now rewrite IH.
Qed.

Lemma setitem_same (df : DataFrame) (c : string) (v : list cell) :
  getitem df c = Ok v -> setitem df c v = df.
Proof.
  intros H. apply getitem_lookup in H. unfold setitem.
  rewrite (replace_col_same c v _ H). now destruct df.
Qed.

Lemma replace_col_comm (c c' : string) (v w : list cell)
  (l : list (string * list cell)) :
  c <> c' -> In c (map fst l) -> In c' (map fst l) ->
  replace_col c' w (replace_col c v l) = replace_col c v (replace_col c' w l).
Proof.
  intros Hne. induction l as [|[n x] l IH]; simpl; [intros []|].
  intros Hc Hc'.
  destruct (String.eqb n c) eqn:E; destruct (String.eqb n c') eqn:E'; simpl;
    rewrite ?E, ?E'; try reflexivity.
  - apply String.eqb_eq in E, E'. congruence.
  - apply String.eqb_neq in E, E'.
    destruct Hc as [Hc|Hc]; [contradiction|].
    destruct Hc' as [Hc'|Hc']; [contradiction|].
    now rewrite IH.
Qed.

Lemma getitem_columns (df : DataFrame) (c : string) (v : list cell) :
  getitem df c = Ok v -> In c (columns df).
Proof.
  intros H. apply getitem_lookup in H. unfold columns.
  induction (cols df) as [|[n x] l IH]; simpl in *; [discriminate|].
  destruct (String.eqb n c) eqn:E; [left; now apply String.eqb_eq|right; auto].
Qed.

Lemma setitem_comm (df : DataFrame) (c c' : string) (v w x y : list cell) :
  c <> c' -> getitem df c = Ok x -> getitem df c' = Ok y ->
  setitem (setitem df c v) c' w = setitem (setitem df c' w) c v.
Proof.
  intros Hne Hc Hc'. unfold setitem. simpl. f_equal.
  apply replace_col_comm; auto.
  - eapply getitem_columns; eauto.
  - eapply getitem_columns; eauto.
Qed.

Section Reruns.
Context {P : TextParsers} {N : Numpy}.

Lemma coerce_amounts_twice (col : list cell) :
  fillna 0 (to_numeric (fillna 0 (to_numeric col))) = fillna 0 (to_numeric col).
Proof.
  unfold fillna, to_numeric. rewrite !map_map. apply map_ext. intros c.
  destruct c; simpl; try reflexivity.
  destruct (parse_number s); reflexivity.
Qed.

Lemma coerce_dates_twice (col : list cell) :
  to_datetime (to_datetime col) = to_datetime col.
Proof.
  unfold to_datetime at 1. generalize (to_datetime col) at 1. intros ctx.
  unfold to_datetime. rewrite map_map.
  generalize col at 1 3. intros ctx'. apply map_ext. intros c.
  destruct c; simpl; try reflexivity; destruct (parse_date ctx' _); reflexivity.
Qed.

Lemma empty_setitem (df : DataFrame) (c : string) (v w : list cell) :
  getitem df c = Ok w -> empty (setitem df c v) = empty df.
Proof.
  intros H. unfold empty, shape1. simpl.
  assert (E : List.length (replace_col c v (cols df)) = List.length (cols df)).
  { rewrite <- (length_map fst), <- (length_map fst (cols df)).
    apply getitem_lookup in H. now rewrite (names_replace c v w _ H). }
  now rewrite E.
Qed.

(** The table left by the coercions of the Home page is left as it is by the
    coercions of both pages. *)
Lemma coerced_table_fixed (df : DataFrame) (d a : string) (dates amts : list cell) :
  getitem df d = Ok dates ->
  getitem df a = Ok amts ->
  d <> a ->
  let df' := setitem (setitem df d (to_datetime dates)) a (fillna 0 (to_numeric amts)) in
  getitem df' d = Ok (to_datetime dates) /\
  getitem df' a = Ok (fillna 0 (to_numeric amts)) /\
  columns df' = columns df /\
  empty df' = empty df /\
  setitem (setitem df' d (to_datetime (to_datetime dates)))
          a (fillna 0 (to_numeric (fillna 0 (to_numeric amts)))) = df' /\
  setitem (setitem df' a (fillna 0 (to_numeric (fillna 0 (to_numeric amts)))))
          d (to_datetime (to_datetime dates)) = df' /\
  setitem (setitem df a (fillna 0 (to_numeric amts))) d (to_datetime dates) = df'.
Proof.
  intros Hd Ha Hne df'.
  assert (Ha1 : getitem (setitem df d (to_datetime dates)) a = Ok amts)
    by (rewrite getitem_setitem_other; auto).
  assert (Hd' : getitem df' d = Ok (to_datetime dates)).
  { unfold df'. rewrite getitem_setitem_other by congruence.
    now apply (getitem_setitem_same _ _ _ dates). }
  assert (Ha' : getitem df' a = Ok (fillna 0 (to_numeric amts)))
    by (apply (getitem_setitem_same _ _ _ amts); exact Ha1).
  split; [exact Hd'|]. split; [exact Ha'|]. split.
  { unfold df'. rewrite (columns_setitem _ a _ amts Ha1).
    now rewrite (columns_setitem _ d _ dates). }
  split.
  { unfold df'. rewrite (empty_setitem _ a _ amts Ha1).
    now rewrite (empty_setitem _ d _ dates). }
  rewrite coerce_dates_twice, coerce_amounts_twice.
  split; [|split].
  - rewrite (setitem_same df' d _ Hd'). now apply setitem_same.
  - rewrite (setitem_same df' a _ Ha'). now apply setitem_same.
  - unfold df'. symmetry. eapply setitem_comm; eauto.
Qed.

(** X6.  Rendering the Home page again on the table it left in the session
    changes nothing: the table stays as it is and the page shows the same
    widgets and ends the same way, although the first run overwrote two
    columns in place. *)
Theorem home_rerun_stable (df df' : DataFrame) (selected selected' : cell)
  (ws : list widget) (r : result unit) :
  (forall d a, index0 (date_cols (columns df)) = Ok d ->
               index0 (amt_cols (columns df)) = Ok a -> d <> a) ->
  run None Home selected (Some df) = (Some df', ws, r) ->
  run None Home selected' (Some df') = (Some df', ws, r).
Proof.
  intros Hda. unfold run, page_view.
  destruct (empty df) eqn:Hne.
  { unfold home at 1, vbind, get. rewrite Hne. unfold emit.
    intros H. inversion H; subst. unfold home, vbind, get. rewrite Hne.
    reflexivity. }
  destruct (index0 (date_cols (columns df))) as [d|e] eqn:Hd.
  2:{ unfold home at 1, vbind, get, lift. rewrite Hne, Hd.
      intros H. inversion H; subst.
      unfold home, vbind, get, lift. rewrite Hne, Hd. reflexivity. }
  destruct (index0 (cust_cols (columns df))) as [c|e] eqn:Hc.
  2:{ unfold home at 1, vbind, get, lift. rewrite Hne, Hd, Hc.
      intros H. inversion H; subst.
      unfold home, vbind, get, lift. rewrite Hne, Hd, Hc. reflexivity. }
  destruct (index0 (amt_cols (columns df))) as [a|e] eqn:Ha.
  2:{ unfold home at 1, vbind, get, lift. rewrite Hne, Hd, Hc, Ha.
      intros H. inversion H; subst.
      unfold home, vbind, get, lift. rewrite Hne, Hd, Hc, Ha. reflexivity. }
  specialize (Hda d a eq_refl eq_refl).
  destruct (getitem_in df d) as [dates Hgd]; [now apply date_col_in in Hd|].
  destruct (getitem_in df a) as [amts Hga]; [now apply amt_col_in in Ha|].
  rewrite (home_resolved df d c a dates amts Hne Hd Hc Ha Hgd Hga Hda).
  destruct (coerced_table_fixed df d a dates amts Hgd Hga Hda)
    as (Hd' & Ha' & Hcols & Hemp & Hfix & _ & _).
  set (dfc := setitem (setitem df d (to_datetime dates)) a
                      (fillna 0 (to_numeric amts))) in *.
  destruct (read_only_home_render d c a dfc) as (ws0 & r0 & Hrender).
  rewrite Hrender. intros H. inversion H; subst df' ws0 r0.
  rewrite (home_resolved dfc d c a (to_datetime dates) (fillna 0 (to_numeric amts)));
    try assumption; try (rewrite Hcols; assumption); try congruence.
  rewrite Hfix, Hrender. reflexivity.
Qed.

(** X7.  The Customer Profile page shows the same thing, and leaves the
    same table, whether it runs on the table as parsed or on the table left
    by a visit of the Home page: the coercions of the two pages agree and do
    nothing on a table already coerced. *)
Theorem profile_after_home (df : DataFrame) (selected selected' : cell) :
  (forall d a, index0 (date_cols (columns df)) = Ok d ->
               index0 (amt_cols (columns df)) = Ok a -> d <> a) ->
  run None CustomerProfile selected (fst (fst (run None Home selected' (Some df))))
  = run None CustomerProfile selected (Some df).
Proof.
  intros Hda. unfold run, page_view.
  destruct (empty df) eqn:Hne.
  { unfold home, vbind, get. rewrite Hne. reflexivity. }
  destruct (index0 (date_cols (columns df))) as [d|e] eqn:Hd.
  2:{ unfold home, vbind, get, lift. rewrite Hne, Hd. reflexivity. }
  destruct (index0 (cust_cols (columns df))) as [c|e] eqn:Hc.
  2:{ unfold home, vbind, get, lift. rewrite Hne, Hd, Hc. reflexivity. }
  destruct (index0 (amt_cols (columns df))) as [a|e] eqn:Ha.
  2:{ unfold home, vbind, get, lift. rewrite Hne, Hd, Hc, Ha. reflexivity. }
  specialize (Hda d a eq_refl eq_refl).
  destruct (getitem_in df d) as [dates Hgd]; [now apply date_col_in in Hd|].
  destruct (getitem_in df a) as [amts Hga]; [now apply amt_col_in in Ha|].
  rewrite (home_resolved df d c a dates amts Hne Hd Hc Ha Hgd Hga Hda).
  destruct (coerced_table_fixed df d a dates amts Hgd Hga Hda)
    as (Hd' & Ha' & Hcols & Hemp & _ & Hfix & Hcomm).
  set (dfc := setitem (setitem df d (to_datetime dates)) a
                      (fillna 0 (to_numeric amts))) in *.
  destruct (read_only_home_render d c a dfc) as (ws0 & r0 & ->).
  cbn [fst].
  rewrite (customer_profile_page_resolved dfc selected d c a
             (to_datetime dates) (fillna 0 (to_numeric amts)));
    try assumption; try (rewrite Hcols; assumption); try congruence.
  rewrite (customer_profile_page_resolved df selected d c a dates amts)
    by assumption.
  now rewrite Hfix, Hcomm.
Qed.

End Reruns.
(** ** Coercing twice *)

(** X17.  The in-place coercions of lines 136-137 and 169-170 are
    idempotent: coercing a column a second time leaves the table as the
    first coercion left it (numbers and dates pass through unchanged), also
    when the column does not exist. *)
Theorem coercions_idempotent {P : TextParsers} (df : DataFrame) (c : string) :
  fst (fst (assign_numeric c (fst (fst (assign_numeric c df)))))
  = fst (fst (assign_numeric c df)) /\
  fst (fst (assign_datetime c (fst (fst (assign_datetime c df)))))
  = fst (fst (assign_datetime c df)).
Proof.
  destruct (getitem df c) as [col|e] eqn:E.
  - rewrite (assign_numeric_run df c col E), (assign_datetime_run df c col E).
    cbn [fst].
    pose proof (getitem_setitem_same df c (fillna 0 (to_numeric col)) col E) as H1.
    pose proof (getitem_setitem_same df c (to_datetime col) col E) as H2.
    rewrite (assign_numeric_run _ c _ H1), (assign_datetime_run _ c _ H2).
    cbn [fst]. rewrite coerce_amounts_twice, coerce_dates_twice.
    split; now apply setitem_same.
  - unfold assign_numeric, assign_datetime, vbind, get, lift. rewrite E.
    cbn [fst]. rewrite E. split; reflexivity.
Qed.

(** ** Well-formed tables *)

Lemma replace_col_lengths (c : string) (v w : list cell) (n : nat)
  (l : list (string * list cell)) :
  lookup c l = Some w ->
  List.length v = n ->
  Forall (fun nv => List.length (snd nv) = n) l ->
  Forall (fun nv => List.length (snd nv) = n) (replace_col c v l).
Proof.
  intros Hl Hv. induction l as [|[m x] l IH]; simpl in *; [discriminate|].
  intros HF. apply Forall_cons_iff in HF as [Hx Hrest]. simpl in Hx.
  destruct (String.eqb m c) eqn:E.
  - constructor; auto.
  - constructor; auto.
Qed.

Lemma wf_setitem (df : DataFrame) (c : string) (v w : list cell) :
  wf_frame df ->
  getitem df c = Ok w ->
  List.length v = List.length w ->
  wf_frame (setitem df c v).
Proof.
  intros Hwf Hc Hlen.
  pose proof (wf_getitem_length df c w Hwf Hc) as Hw.
  destruct Hwf as [Hnd HF]. split.
  - rewrite (columns_setitem df c v w Hc). exact Hnd.
  - simpl. apply getitem_lookup in Hc.
    eapply replace_col_lengths; eauto. congruence.
Qed.

Section Invariants.
Context {P : TextParsers} {N : Numpy}.

Lemma wf_assign_numeric (df : DataFrame) (c : string) :
  wf_frame df -> wf_frame (fst (fst (assign_numeric c df))).
Proof.
  intros Hwf. destruct (getitem df c) as [col|e] eqn:E.
  - rewrite (assign_numeric_run df c col E). simpl.
    apply (wf_setitem df c _ col Hwf E).
    unfold fillna, to_numeric. now rewrite !length_map.
  - unfold assign_numeric, vbind, get, lift. rewrite E. exact Hwf.
Qed.

Lemma wf_assign_datetime (df : DataFrame) (c : string) :
  wf_frame df -> wf_frame (fst (fst (assign_datetime c df))).
Proof.
  intros Hwf. destruct (getitem df c) as [col|e] eqn:E.
  - rewrite (assign_datetime_run df c col E). simpl.
    apply (wf_setitem df c _ col Hwf E).
    unfold to_datetime. now rewrite length_map.
  - unfold assign_datetime, vbind, get, lift. rewrite E. exact Hwf.
Qed.

(** X8.  Whatever the page and whatever happens on it, a session table
    whose headers are distinct and whose columns all have the length of its
    index keeps these two properties: the in-place coercions replace a
    column by one of the same length under the same header. *)
Theorem pages_keep_well_formed (df : DataFrame) (page : Page) (selected : cell) :
  wf_frame df ->
  exists df' ws r,
    run None page selected (Some df) = (Some df', ws, r) /\
    wf_frame df' /\ columns df' = columns df /\ len df' = len df.
Proof.
  intros Hwf. unfold run.
  destruct (page_view page selected df) as [[df' ws] r] eqn:E.
  exists df', ws, r. split; [reflexivity|].
  assert (Hkeep : forall (c : string) (df0 : DataFrame),
             wf_frame df0 /\ columns df0 = columns df /\ len df0 = len df ->
             (wf_frame (fst (fst (assign_numeric c df0))) /\
              columns (fst (fst (assign_numeric c df0))) = columns df /\
              len (fst (fst (assign_numeric c df0))) = len df) /\
             (wf_frame (fst (fst (assign_datetime c df0))) /\
              columns (fst (fst (assign_datetime c df0))) = columns df /\
              len (fst (fst (assign_datetime c df0))) = len df)).
  { intros c df0 (H1 & H2 & H3). split.
    - split; [now apply wf_assign_numeric|].
      destruct (getitem df0 c) as [col|e] eqn:G.
      + rewrite (assign_numeric_run df0 c col G). simpl.
        now rewrite (columns_setitem df0 c _ col G).
      + unfold assign_numeric, vbind, get, lift. rewrite G. simpl. auto.
    - split; [now apply wf_assign_datetime|].
      destruct (getitem df0 c) as [col|e] eqn:G.
      + rewrite (assign_datetime_run df0 c col G). simpl.
        now rewrite (columns_setitem df0 c _ col G).
      + unfold assign_datetime, vbind, get, lift. rewrite G. simpl. auto. }
  assert (Hinit : wf_frame df /\ columns df = columns df /\ len df = len df) by auto.
  destruct page; simpl in E.
  - unfold home, vbind at 1, get at 1 in E.
    destruct (empty df).
    { unfold emit in E. inversion E; subst. auto. }
    unfold vbind at 1, lift at 1 in E.
    destruct (index0 (date_cols (columns df))) as [d|e]; [|inversion E; subst; auto].
    unfold vbind at 1, lift at 1 in E.
    destruct (index0 (cust_cols (columns df))) as [c|e]; [|inversion E; subst; auto].
    unfold vbind at 1, lift at 1 in E.
    destruct (index0 (amt_cols (columns df))) as [a|e]; [|inversion E; subst; auto].
    unfold vbind at 1 in E.
    destruct (Hkeep d df Hinit) as [_ H1].
    destruct (assign_datetime d df) as [[df1 w1] [[]|e]]; simpl in H1;
      [|inversion E; subst; auto].
    unfold vbind at 1 in E.
    destruct (Hkeep a df1 H1) as [H2 _].
    destruct (assign_numeric a df1) as [[df2 w2] [[]|e]]; simpl in H2;
      [|inversion E; subst; auto].
    destruct (read_only_home_render d c a df2) as (w3 & r3 & Hr).
    rewrite Hr in E. inversion E; subst. auto.
  - destruct (read_only_all_sales df) as (w & r0 & Hr).
    rewrite Hr in E. inversion E; subst. auto.
  - unfold customer_profile_page, vbind at 1, get at 1 in E.
    destruct (empty df).
    { unfold emit in E. inversion E; subst. auto. }
    unfold vbind at 1, lift at 1 in E.
    destruct (index0 (cust_cols (columns df))) as [c|e]; [|inversion E; subst; auto].
    unfold vbind at 1, lift at 1 in E.
    destruct (index0 (amt_cols (columns df))) as [a|e]; [|inversion E; subst; auto].
    unfold vbind at 1, lift at 1 in E.
    destruct (index0 (date_cols (columns df))) as [d|e]; [|inversion E; subst; auto].
    unfold vbind at 1 in E.
    destruct (Hkeep a df Hinit) as [H1 _].
    destruct (assign_numeric a df) as [[df1 w1] [[]|e]]; simpl in H1;
      [|inversion E; subst; auto].
    unfold vbind at 1 in E.
    destruct (Hkeep d df1 H1) as [_ H2].
    destruct (assign_datetime d df1) as [[df2 w2] [[]|e]]; simpl in H2;
      [|inversion E; subst; auto].
    destruct (read_only_profile_render selected c a d df2) as (w3 & r3 & Hr).
    rewrite Hr in E. inversion E; subst. auto.
  - destruct (read_only_products df) as (w & r0 & Hr).
    rewrite Hr in E. inversion E; subst. auto.
Qed.

End Invariants.

(** ** How the figures of the pages relate *)

Lemma insert_key_length (k : cell) (l : list cell) :
  (List.length (insert_key k l) <= S (List.length l))%nat.
Proof.
  induction l as [|x l IH]; simpl; [lia|].
  destruct (cell_compare k x); simpl; lia.
Qed.

Lemma group_keys_length (l : list cell) :
  (List.length (group_keys l) <= List.length l)%nat.
Proof.
  induction l as [|k l IH]; simpl; [lia|].
  destruct (isnull k); [lia|].
  pose proof (insert_key_length k (group_keys l)). lia.
Qed.

(** X9.  On a well-formed table the figures of lines 139-142 never show
    more customers than orders. *)
Theorem summary_metrics_consistent {N : Numpy} (df : DataFrame)
  (amt_col cust_col : string) (m : Summary) :
  wf_frame df ->
  summary_metrics df amt_col cust_col = Ok m ->
  (total_customers m <= total_orders m)%nat.
Proof.
  intros Hwf. unfold summary_metrics.
  destruct (getitem df amt_col) as [col|e] eqn:Ha; simpl; [|discriminate].
  destruct (nansum col) as [s|e] eqn:Hs; simpl; [|discriminate].
  destruct (getitem df cust_col) as [custs|e] eqn:Hc; simpl; [|discriminate].
  destruct (as_number s) as [q|e] eqn:Hq; simpl; [|discriminate].
  intros H. inversion H; subst m; clear H. simpl.
  pose proof (wf_getitem_length df cust_col custs Hwf Hc) as Hlc.
  unfold nunique, len. rewrite <- Hlc. apply group_keys_length.
Qed.

Lemma group_vals_no_match (selected : cell) (ks vs : list cell) :
  (forall c, In c ks -> cell_eqb c selected = false) ->
  group_vals selected (combine ks vs) = [].
Proof.
  intros H. unfold group_vals.
  rewrite filter_nil; [reflexivity|].
  intros [k v] Hin. simpl. apply H. eapply in_combine_l; eauto.
Qed.

Lemma cell_eqb_null_r (c selected : cell) :
  isnull selected = true -> cell_eqb c selected = false.
Proof. destruct c, selected; simpl; auto; discriminate. Qed.

(** X10.  A selected value that no customer cell equals, in particular a
    missing value (which equals nothing, missing cells included), gives an
    empty profile and no exception: no row, total 0, average 0, last
    purchase [NaT]. *)
Theorem unknown_customer_profile {N : Numpy} (df : DataFrame)
  (cust_col amt_col date_col : string) (custs amts dates : list cell)
  (selected : cell) :
  getitem df cust_col = Ok custs ->
  getitem df amt_col = Ok amts ->
  getitem df date_col = Ok dates ->
  forallb is_numeric amts = true ->
  forallb is_datetime dates = true ->
  isnull selected = true \/ (forall c, In c custs -> cell_eqb c selected = false) ->
  exists p,
    customer_profile df cust_col amt_col date_col selected = Ok p /\
    len (data p) = 0%nat /\
    order_count p = 0%nat /\
    total_spend p == 0 /\
    profile_avg_order p == 0 /\
    last_purchase p = CNaT.
Proof.
  intros Hc Ha Hd Hnum Hdt Hsel.
  assert (Hno : forall c, In c custs -> cell_eqb c selected = false).
  { destruct Hsel as [Hnull|H]; [|exact H].
    intros c _. now apply cell_eqb_null_r. }
  destruct (customer_profile_numeric df cust_col amt_col date_col custs amts dates
              selected Hc Ha Hd Hnum Hdt)
    as (p & d & Hp & _ & Hdata & Hspend & Hcount & Havg & [Hlast _] & _).
  rewrite (group_vals_no_match selected custs amts Hno) in Hspend.
  rewrite (group_vals_no_match selected custs dates Hno) in Hlast.
  rewrite (filter_nil _ custs Hno) in Hcount. simpl in Hcount.
  exists p. split; [exact Hp|]. split.
  { rewrite Hdata. unfold len, filter_rows. simpl.
    rewrite count_true_eq_mask, (filter_nil _ custs Hno). reflexivity. }
  split; [exact Hcount|]. split; [rewrite Hspend; reflexivity|]. split.
  - rewrite Havg, Hcount. reflexivity.
  - apply Hlast. intros t [].
Qed.

(** X11.  Where the machine neither wraps around nor rounds (whole amounts
    within 2^53), the total spend shown on the profile of a customer is the
    sum of that customer's group in the grouping behind the Top Customers
    chart; and a customer of that grouping has at least one order. *)
Theorem profile_total_is_group_sum {N : Numpy} (df : DataFrame)
  (cust_col amt_col date_col : string) (custs amts dates : list cell)
  (groups : list (cell * cell)) (k s : cell) (p : Profile) :
  exact_sums N ->
  getitem df cust_col = Ok custs ->
  getitem df amt_col = Ok amts ->
  getitem df date_col = Ok dates ->
  forallb is_numeric amts = true ->
  small_integers (numbers amts) = true ->
  forallb is_datetime dates = true ->
  groupby_sum df cust_col amt_col = Ok groups ->
  In (k, s) groups ->
  customer_profile df cust_col amt_col date_col k = Ok p ->
  (exists q, s = CNum q /\ q == total_spend p) /\
  (0 < order_count p)%nat.
Proof.
  intros Hex Hc Ha Hd Hnum Hsmall Hdt Hg Hin Hp.
  destruct (groupby_sum_numeric df cust_col amt_col custs amts Hc Ha Hnum)
    as (gs & Hgs & Hkeys & Hent).
  rewrite Hg in Hgs. inversion Hgs; subst gs; clear Hgs.
  destruct (customer_profile_numeric df cust_col amt_col date_col custs amts dates
              k Hc Ha Hd Hnum Hdt)
    as (p' & d & Hp' & _ & _ & Hspend & Hcount & _).
  rewrite Hp in Hp'. inversion Hp'; subst p'; clear Hp'.
  pose proof (small_integers_group k custs amts Hsmall) as Hk.
  split.
  - rewrite Forall_forall in Hent. pose proof (Hent _ Hin) as Hs.
    unfold group_entry in Hs. simpl in Hs.
    eexists. split; [exact Hs|].
    rewrite Hspend, (group_total_exact _ Hex Hk), (series_total_exact _ Hex Hk).
    reflexivity.
  - assert (Hk' : In k (group_keys custs)).
    { rewrite <- Hkeys. change k with (fst (k, s)). now apply in_map. }
    apply group_keys_in in Hk' as [Hk' Hnn].
    rewrite Hcount.
    assert (Hf : In k (filter (fun c => cell_eqb c k) custs)).
    { apply filter_In. split; [exact Hk'|now apply cell_eqb_refl]. }
    destruct (filter (fun c => cell_eqb c k) custs); [destruct Hf|simpl; lia].
Qed.

Lemma keyed_amounts_all (ks vs : list cell) :
  forallb notnull ks = true ->
  List.length ks = List.length vs ->
  keyed_amounts (combine ks vs) = vs.
Proof.
  unfold keyed_amounts. revert vs.
  induction ks as [|k ks IH]; intros [|v vs] Hnn Hlen; simpl in *;
    try reflexivity; try discriminate.
  apply andb_true_iff in Hnn as [Hk Hks]. rewrite Hk. simpl.
  rewrite IH; auto.
Qed.

(** X12.  Where the machine neither wraps around nor rounds (whole amounts
    within 2^53), the sums of the trend add up to the amounts of the rows
    that have a date: the amounts of the rows of missing date are not part
    of them, and when no date is missing they add up to the whole total of
    the amount column. *)
Theorem trend_adds_up {N : Numpy} (df : DataFrame) (date_col amt_col : string)
  (dates amts : list cell) :
  exact_sums N ->
  getitem df date_col = Ok dates ->
  getitem df amt_col = Ok amts ->
  date_col <> amt_col ->
  forallb is_numeric amts = true ->
  small_integers (numbers amts) = true ->
  exists trend,
    trend_by_date df date_col amt_col = Ok trend /\
    amount_total (map snd trend)
    == amount_total (keyed_amounts (combine dates amts)) /\
    (forallb notnull dates = true -> List.length dates = List.length amts ->
     amount_total (map snd trend) == amount_total amts).
Proof.
  intros Hex Hd Ha Hne Hnum Hsmall.
  destruct (group_sums_total df date_col amt_col dates amts Hex Hd Ha Hnum Hsmall)
    as (groups & Hg & Htotal).
  exists groups. split.
  { unfold trend_by_date, reset_index. rewrite Hg. simpl.
    apply String.eqb_neq in Hne. now rewrite Hne. }
  split; [exact Htotal|].
  intros Hnn Hlen. rewrite Htotal. now rewrite keyed_amounts_all.
Qed.

(** ** Edge cases of the pages *)

Lemma unique_from_keeps (seen col : list cell) (x : cell) :
  In x col ->
  existsb (same_value x) seen = false ->
  exists y, In y (unique_from seen col) /\ same_value y x = true.
Proof.
  revert seen. induction col as [|c col IH]; intros seen; [intros []|].
  intros [->|Hin] Hseen; simpl.
  - rewrite Hseen. exists x. split; [now left|].
    unfold same_value. destruct x; simpl;
      rewrite ?String.eqb_refl, ?Z.eqb_refl; try reflexivity.
    apply orb_true_iff. left. apply Qeq_bool_iff. reflexivity.
  - destruct (existsb (same_value c) seen) eqn:E.
    + now apply IH.
    + destruct (same_value x c) eqn:Exc.
      * exists c. split; [now left|].
        unfold same_value in *. destruct x, c; simpl in *;
          try discriminate; try reflexivity.
        -- now rewrite String.eqb_sym.
        -- rewrite orb_false_r in *. apply Qeq_bool_iff.
           apply Qeq_bool_iff in Exc. now symmetry.
        -- now rewrite Z.eqb_sym.
      * destruct (IH (c :: seen) Hin) as (y & Hy & Hyx).
        { simpl. now rewrite Exc. }
        exists y. split; [now right|exact Hyx].
Qed.

Lemma unique_not_comparable (custs : list cell) (s : string) :
  In (CStr s) custs -> In CNaN custs -> comparable (unique custs) = false.
Proof.
  intros Hs Hn.
  destruct (unique_from_keeps [] custs (CStr s) Hs eq_refl) as (y & Hy & Hys).
  destruct (unique_from_keeps [] custs CNaN Hn eq_refl) as (z & Hz & Hzn).
  fold (unique custs) in Hy, Hz.
  assert (Ey : is_str y = true) by (destruct y; simpl in *; try discriminate; auto).
  assert (Ez : isnull z = true) by (destruct z; simpl in *; try discriminate; auto).
  unfold comparable.
  assert (H1 : forallb is_numeric (unique custs) = false).
  { destruct (forallb is_numeric (unique custs)) eqn:E; [|reflexivity].
    rewrite forallb_forall in E. specialize (E y Hy).
    destruct y; simpl in *; discriminate. }
  assert (H2 : forallb is_str (unique custs) = false).
  { destruct (forallb is_str (unique custs)) eqn:E; [|reflexivity].
    rewrite forallb_forall in E. specialize (E z Hz).
    destruct z; simpl in *; discriminate. }
  assert (H3 : forallb is_datetime (unique custs) = false).
  { destruct (forallb is_datetime (unique custs)) eqn:E; [|reflexivity].
    rewrite forallb_forall in E. specialize (E y Hy).
    destruct y; simpl in *; discriminate. }
  now rewrite H1, H2, H3.
Qed.

Section PageEdges.
Context {P : TextParsers} {N : Numpy}.

(** X13.  A customer column that holds a name in one row and nothing in
    another ends the Customer Profile page with the [TypeError] of
    [sorted(...)] on line 172: nothing is rendered, and the coercions of
    lines 169-170 have already been written to the table. *)
Theorem profile_page_mixed_customers (df : DataFrame) (selected : cell)
  (date_col cust_col amt_col : string) (dates custs amts : list cell)
  (s : string) :
  empty df = false ->
  index0 (date_cols (columns df)) = Ok date_col ->
  index0 (cust_cols (columns df)) = Ok cust_col ->
  index0 (amt_cols (columns df)) = Ok amt_col ->
  getitem df date_col = Ok dates ->
  getitem df cust_col = Ok custs ->
  getitem df amt_col = Ok amts ->
  date_col <> amt_col -> cust_col <> amt_col -> cust_col <> date_col ->
  In (CStr s) custs -> In CNaN custs ->
  customer_profile_page selected df
  = (setitem (setitem df amt_col (fillna 0 (to_numeric amts)))
             date_col (to_datetime dates),
     [], Raise TypeError).
Proof.
  intros Hne Hd Hc Ha Hgd Hgc Hga Hda Hca Hcd Hs Hn.
  rewrite (customer_profile_page_resolved df selected date_col cust_col amt_col
             dates amts) by assumption.
  unfold profile_render, vbind, get, lift.
  rewrite !getitem_setitem_other by congruence. rewrite Hgc.
  unfold sorted_check. now rewrite (unique_not_comparable custs s Hs Hn).
Qed.

(** X14.  When one header is both the first customer header and the first
    amount header, the Home page renders its figures and its trend and then
    ends with the [ValueError] of [reset_index()]: the ranking of line 157
    groups a column by itself, and the key cannot be inserted next to a
    column of the same name. *)
Theorem home_shared_customer_amount_header (df : DataFrame)
  (date_col col : string) (dates amts : list cell) :
  empty df = false ->
  index0 (date_cols (columns df)) = Ok date_col ->
  index0 (cust_cols (columns df)) = Ok col ->
  index0 (amt_cols (columns df)) = Ok col ->
  getitem df date_col = Ok dates ->
  getitem df col = Ok amts ->
  date_col <> col ->
  exists m trend,
    home df
    = (setitem (setitem df date_col (to_datetime dates))
               col (fillna 0 (to_numeric amts)),
       [Metrics m; LineChart trend], Raise ValueError).
Proof.
  intros Hne Hd Hc Ha Hgd Hga Hda.
  rewrite (home_resolved df date_col col col dates amts) by assumption.
  set (df' := setitem (setitem df date_col (to_datetime dates))
                      col (fillna 0 (to_numeric amts))).
  assert (Hga' : getitem df' col = Ok (fillna 0 (to_numeric amts))).
  { apply (getitem_setitem_same _ _ _ amts).
    rewrite getitem_setitem_other; auto. }
  assert (Hgd' : getitem df' date_col = Ok (to_datetime dates)).
  { unfold df'. rewrite getitem_setitem_other by congruence.
    now apply (getitem_setitem_same _ _ _ dates). }
  assert (Hnum : forallb is_numeric (fillna 0 (to_numeric amts)) = true).
  { eapply forallb_weaken; [apply num_is_numeric|].
    apply coerced_amounts_are_numbers. }
  destruct (summary_metrics_numeric df' col col _ _ Hga' Hnum Hga')
    as (m & Hm & _).
  destruct (trend_by_date_numeric df' date_col col _ _ Hgd' Hga' Hda)
    as (trend & Htrend & _); [apply coerced_dates_are_datetime|exact Hnum|].
  destruct (ranking_spec df' col col _ _ Hga' Hga' Hnum)
    as (groups & sorted & Hg & Hs & _).
  exists m, trend. clearbody df'.
  unfold home_render, vbind, get, lift, emit.
  rewrite Hm, Htrend. unfold top_customers. rewrite Hg. simpl rbind.
  rewrite Hs. simpl rbind. unfold reset_index. rewrite String.eqb_refl.
  reflexivity.
Qed.

End PageEdges.

(** X15.  With a product header and an amount header on two different
    columns and an amount column of numbers or missing cells, the Products
    page ends normally and writes nothing: its chart is the first 20 of the
    product groups reordered so that no sum is smaller than a sum after it,
    so it has at most 20 bars, and with at most 20 products no product is
    left out. *)
Theorem products_renders {N : Numpy} (df : DataFrame) (prod amt_col : string)
  (prods amts : list cell) :
  index0 (prod_cols (columns df)) = Ok prod ->
  index0 (amt_cols (columns df)) = Ok amt_col ->
  getitem df prod = Ok prods ->
  getitem df amt_col = Ok amts ->
  prod <> amt_col ->
  forallb is_numeric amts = true ->
  exists groups sorted,
    groupby_sum df prod amt_col = Ok groups /\
    Permutation groups sorted /\
    StronglySorted not_below sorted /\
    products df = (df, [BarChart (firstn 20 sorted)], Ok tt) /\
    (List.length (firstn 20 sorted) <= 20)%nat /\
    ((List.length groups <= 20)%nat -> firstn 20 sorted = sorted).
Proof.
  intros Hp Ha Hgp Hga Hne Hnum.
  destruct (ranking_spec df prod amt_col prods amts Hgp Hga Hnum)
    as (groups & sorted & Hg & Hs & _ & _ & Hperm & Hsorted).
  destruct (top_of_ranking df prod amt_col groups sorted Hg Hs Hne) as [_ Htop].
  exists groups, sorted. repeat (split; [assumption|]).
  split.
  { unfold products, vbind, get, lift, emit.
    destruct (prod_cols (columns df)) as [|p ps]; [discriminate|].
    simpl in Hp. inversion Hp; subst p. rewrite Ha, Htop. reflexivity. }
  split; [apply firstn_le_length|].
  intros Hlen. apply firstn_all2.
  now rewrite <- (Permutation_length Hperm).
Qed.

(** ** The order history *)

Lemma sorted_map_snd {A} (R : cell -> cell -> Prop) (l : list (A * cell)) :
  StronglySorted (fun u v => R (snd u) (snd v)) l ->
  StronglySorted R (map snd l).
Proof.
  induction 1 as [|x l Hl IH Hx]; simpl; constructor; auto.
  apply Forall_forall. intros b Hb.
  apply in_map_iff in Hb as (r & <- & Hr).
  rewrite Forall_forall in Hx. now apply Hx.
Qed.

Lemma filter_split_perm {A} (f g : A -> bool) (l : list A) :
  (forall x, g x = negb (f x)) ->
  Permutation (filter f l ++ filter g l) l.
Proof.
  intros Hg. induction l as [|x l IH]; simpl; [constructor|].
  rewrite Hg. destruct (f x); simpl.
  - now constructor.
  - rewrite <- Permutation_middle. now constructor.
Qed.

Lemma combine_seq_nth (col : list cell) (s i : nat) (c : cell) :
  In (i, c) (combine (seq s (List.length col)) col) ->
  nth (i - s) col CNaN = c /\ (s <= i)%nat.
Proof.
  revert s. induction col as [|x col IH]; intros s; simpl; [intros []|].
  intros [H|H].
  - inversion H; subst. rewrite Nat.sub_diag. auto.
  - destruct (IH (S s) H) as [Hn Hle].
    split; [|lia].
    replace (i - s)%nat with (S (i - S s)) by lia. exact Hn.
Qed.

Lemma take_indexed (col : list cell) (l : list (nat * cell)) :
  (forall r, In r l -> In r (combine (seq 0 (List.length col)) col)) ->
  take (map fst l) col = map snd l.
Proof.
  intros H. unfold take. rewrite map_map. apply map_ext_in.
  intros [i c] Hin. simpl.
  destruct (combine_seq_nth col 0 i c (H _ Hin)) as [Hn _].
  now rewrite Nat.sub_0_r in Hn.
Qed.

Lemma map_fst_combine_seq (col : list cell) (s : nat) :
  map fst (combine (seq s (List.length col)) col) = seq s (List.length col).
Proof.
  revert s. induction col as [|x col IH]; intros s; simpl; [reflexivity|].
  now rewrite IH.
Qed.

Lemma map_snd_combine_seq (col : list cell) (s : nat) :
  map snd (combine (seq s (List.length col)) col) = col.
Proof.
  revert s. induction col as [|x col IH]; intros s; simpl; [reflexivity|].
  now rewrite IH.
Qed.

Lemma lookup_map_take (idx : list nat) (c : string) (l : list (string * list cell)) :
  lookup c (map (fun nv => (fst nv, take idx (snd nv))) l)
  = option_map (take idx) (lookup c l).
Proof.
  induction l as [|[n v] l IH]; simpl; [reflexivity|].
  destruct (String.eqb n c); [reflexivity|exact IH].
Qed.

(** X16.  The order history of line 193 lists the rows of the customer
    once each, reordered as a whole: the rows that have a date by descending
    date, then the rows of missing date; the headers and the number of rows
    are those of the table. *)
Theorem order_history_sorted {N : Numpy} (df : DataFrame) (date_col : string)
  (dates : list cell) :
  getitem df date_col = Ok dates ->
  forallb is_datetime dates = true ->
  exists history front back,
    sort_rows_desc df date_col = Ok history /\
    Permutation (argsort_desc dates) (seq 0 (List.length dates)) /\
    columns history = columns df /\
    len history = len df /\
    (forall c col, getitem df c = Ok col ->
                   getitem history c = Ok (take (argsort_desc dates) col)) /\
    getitem history date_col = Ok (front ++ back) /\
    Permutation (front ++ back) dates /\
    StronglySorted (fun a b => cell_compare a b <> Lt) front /\
    forallb notnull front = true /\
    forallb isnull back = true.
Proof.
  intros Hd Hdt.
  set (rows := combine (seq 0 (List.length dates)) dates).
  set (present := filter (fun r : nat * cell => notnull (snd r)) rows).
  set (missing := filter (fun r : nat * cell => isnull (snd r)) rows).
  assert (Hperm : Permutation (sort_desc present ++ missing) rows).
  { rewrite <- (sort_desc_perm present). apply filter_split_perm.
    intros r. unfold notnull. now rewrite negb_involutive. }
  assert (Hidx : argsort_desc dates
                 = map fst (sort_desc present ++ missing)).
  { unfold argsort_desc. fold rows. fold present. fold missing.
    now rewrite map_app. }
  assert (Htake : take (argsort_desc dates) dates
                  = map snd (sort_desc present) ++ map snd missing).
  { rewrite Hidx, <- map_app. apply take_indexed.
    intros r Hr. eapply Permutation_in; eauto. }
  exists (mkDF (nrows df)
               (map (fun nv => (fst nv, take (argsort_desc dates) (snd nv))) (cols df))),
         (map snd (sort_desc present)), (map snd missing).
  split.
  { unfold sort_rows_desc. rewrite Hd. simpl.
    unfold comparable.
    rewrite (forallb_filter is_datetime notnull dates Hdt), orb_true_r.
    reflexivity. }
  split.
  { rewrite Hidx, <- (map_fst_combine_seq dates 0). fold rows.
    now apply Permutation_map. }
  split.
  { unfold columns. simpl. rewrite map_map. reflexivity. }
  split; [reflexivity|].
  assert (Hget : forall c col, getitem df c = Ok col ->
            getitem (mkDF (nrows df)
               (map (fun nv => (fst nv, take (argsort_desc dates) (snd nv))) (cols df))) c
            = Ok (take (argsort_desc dates) col)).
  { intros c col Hc. apply getitem_lookup in Hc. apply getitem_lookup.
    simpl. now rewrite lookup_map_take, Hc. }
  split; [exact Hget|].
  split; [rewrite <- Htake; now apply Hget|].
  split.
  { rewrite <- map_app, <- (map_snd_combine_seq dates 0). fold rows.
    now apply Permutation_map. }
  split.
  { apply sorted_map_snd, sort_desc_descending. }
  split.
  - apply forallb_forall. intros c Hc.
    apply in_map_iff in Hc as (r & <- & Hr).
    apply (Permutation_in _ (Permutation_sym (sort_desc_perm present))) in Hr.
    now apply filter_In in Hr.
  - apply forallb_forall. intros c Hc.
    apply in_map_iff in Hc as (r & <- & Hr).
    now apply filter_In in Hr.
Qed.


(** ** Further theorems at work on the sample files *)

Section MoreInstances.
#[local] Existing Instance Sample.parsers.
#[local] Existing Instance Sample.numpy.

Lemma scenario_frame_well_formed : wf_frame (try_read_csv Sample.scenario_file).
Proof.
  split.
  - vm_compute. repeat constructor; simpl; intuition discriminate.
  - vm_compute. repeat constructor.
Defined.

Lemma scenario_coerced_well_formed :
  wf_frame (Sample.after_home Sample.scenario_file).
Proof.
  split.
  - vm_compute. repeat constructor; simpl; intuition discriminate.
  - vm_compute. repeat constructor.
Defined.

Lemma pages_on_unusable_file_witness :
  run (Some Sample.one_column_file) Home CNaN None
  = (Some empty_frame, [Warning "Upload CSV untuk mula analisis."], Ok tt) /\
  run (Some Sample.one_column_file) CustomerProfile CNaN None
  = (Some empty_frame, [Warning "Upload CSV untuk mula."], Ok tt) /\
  run (Some Sample.one_column_file) AllSales CNaN None
  = (Some empty_frame, [Table empty_frame], Ok tt) /\
  run (Some Sample.one_column_file) Products CNaN None
  = (Some empty_frame, [Info "Tiada column produk dalam fail CSV ni."], Ok tt).
Proof.
  apply (pages_on_unusable_file Sample.one_column_file CNaN None).
  intros s [<-|[<-|[<-|[]]]]; reflexivity.
Defined.

Lemma pages_with_missing_role_witness :
  home (try_read_csv Sample.no_amount_file)
  = (try_read_csv Sample.no_amount_file, [], Raise IndexError) /\
  customer_profile_page (CStr "Ali") (try_read_csv Sample.no_amount_file)
  = (try_read_csv Sample.no_amount_file, [], Raise IndexError).
Proof.
  apply (pages_with_missing_role (try_read_csv Sample.no_amount_file) (CStr "Ali")).
  - reflexivity.
  - right. right. reflexivity.
Defined.

Lemma home_rerun_stable_witness :
  run None Home (CStr "Ali") (Some (Sample.after_home Sample.scenario_file))
  = run None Home CNaN (Some (try_read_csv Sample.scenario_file)).
Proof.
  apply (home_rerun_stable (try_read_csv Sample.scenario_file)
           (Sample.after_home Sample.scenario_file) CNaN (CStr "Ali")).
  - intros d a Hd Ha. inversion Hd. inversion Ha. discriminate.
  - reflexivity.
Defined.

Lemma profile_after_home_witness :
  run None CustomerProfile (CStr "Ali")
    (fst (fst (run None Home CNaN (Some (try_read_csv Sample.scenario_file)))))
  = run None CustomerProfile (CStr "Ali") (Some (try_read_csv Sample.scenario_file)).
Proof.
  apply (profile_after_home (try_read_csv Sample.scenario_file)).
  intros d a Hd Ha. inversion Hd. inversion Ha. discriminate.
Defined.

Lemma pages_keep_well_formed_witness :
  exists df' ws r,
    run None Home CNaN (Some (try_read_csv Sample.scenario_file)) = (Some df', ws, r) /\
    wf_frame df' /\
    columns df' = columns (try_read_csv Sample.scenario_file) /\
    len df' = len (try_read_csv Sample.scenario_file).
Proof.
  apply (pages_keep_well_formed (try_read_csv Sample.scenario_file) Home CNaN).
  exact scenario_frame_well_formed.
Defined.

Lemma summary_metrics_consistent_witness :
  (total_customers (mkSummary 15 3 2 (15 # 3))
   <= total_orders (mkSummary 15 3 2 (15 # 3)))%nat.
Proof.
  apply (summary_metrics_consistent (Sample.after_home Sample.scenario_file)
           "Total" "Customer").
  - exact scenario_coerced_well_formed.
  - reflexivity.
Defined.

Lemma unknown_customer_profile_witness :
  exists p,
    customer_profile (Sample.after_home Sample.scenario_file)
      "Customer" "Total" "Date" (CStr "Zed") = Ok p /\
    len (data p) = 0%nat /\
    order_count p = 0%nat /\
    total_spend p == 0 /\
    profile_avg_order p == 0 /\
    last_purchase p = CNaT.
Proof.
  apply (unknown_customer_profile (Sample.after_home Sample.scenario_file)
           "Customer" "Total" "Date"
           [CStr "Ali"; CStr "Ali"; CStr "Bee"]
           [CNum 10; CNum 5; CNum 0]
           [CDate 1706745600000000000; CDate 1706832000000000000;
            CDate 1706745600000000000]).
  - reflexivity.
  - reflexivity.
  - reflexivity.
  - reflexivity.
  - reflexivity.
  - right. intros c [<-|[<-|[<-|[]]]]; reflexivity.
Defined.

Lemma profile_total_is_group_sum_witness :
  (exists q, CNum 15 = CNum q /\
             q == total_spend
                    (mkProfile
                       (filter_rows (Sample.after_home Sample.scenario_file)
                                    [true; true; false])
                       15 2 (15 # 2) (CDate 1706832000000000000))) /\
  (0 < order_count
         (mkProfile
            (filter_rows (Sample.after_home Sample.scenario_file)
                         [true; true; false])
            15 2 (15 # 2) (CDate 1706832000000000000)))%nat.
Proof.
  apply (profile_total_is_group_sum (Sample.after_home Sample.scenario_file)
           "Customer" "Total" "Date"
           [CStr "Ali"; CStr "Ali"; CStr "Bee"]
           [CNum 10; CNum 5; CNum 0]
           [CDate 1706745600000000000; CDate 1706832000000000000;
            CDate 1706745600000000000]
           [(CStr "Ali", CNum 15); (CStr "Bee", CNum 0)]
           (CStr "Ali") (CNum 15)).
  - exact sample_sums_exact.
  - reflexivity.
  - reflexivity.
  - reflexivity.
  - reflexivity.
  - reflexivity.
  - reflexivity.
  - reflexivity.
  - left. reflexivity.
  - reflexivity.
Defined.

Lemma trend_adds_up_witness :
  let dates := [CDate 1706745600000000000; CNaT] in
  let amts := [CNum 10; CNum 5] in
  exists trend,
    trend_by_date (Sample.after_home Sample.trend_file) "Date" "Total" = Ok trend /\
    amount_total (map snd trend)
    == amount_total (keyed_amounts (combine dates amts)) /\
    (forallb notnull dates = true -> List.length dates = List.length amts ->
     amount_total (map snd trend) == amount_total amts).
Proof.
  apply (trend_adds_up (Sample.after_home Sample.trend_file) "Date" "Total").
  - exact sample_sums_exact.
  - reflexivity.
  - reflexivity.
  - discriminate.
  - reflexivity.
  - reflexivity.
Defined.

Lemma profile_page_mixed_customers_witness :
  customer_profile_page (CStr "Ali") (try_read_csv Sample.missing_customer_file)
  = (setitem
       (setitem (try_read_csv Sample.missing_customer_file) "Total"
                (fillna 0 (to_numeric [CNum 10; CNum 5])))
       "Date" (to_datetime [CStr "01/02/2024"; CStr "02/02/2024"]),
     [], Raise TypeError).
Proof.
  apply (profile_page_mixed_customers
           (try_read_csv Sample.missing_customer_file) (CStr "Ali")
           "Date" "Customer" "Total"
           [CStr "01/02/2024"; CStr "02/02/2024"]
           [CStr "Ali"; CNaN]
           [CNum 10; CNum 5] "Ali").
  - reflexivity.
  - reflexivity.
  - reflexivity.
  - reflexivity.
  - reflexivity.
  - reflexivity.
  - reflexivity.
  - discriminate.
  - discriminate.
  - discriminate.
  - left. reflexivity.
  - right. left. reflexivity.
Defined.

Lemma home_shared_customer_amount_header_witness :
  exists m trend,
    home (try_read_csv Sample.shared_header_file)
    = (setitem
         (setitem (try_read_csv Sample.shared_header_file) "Date"
                  (to_datetime [CStr "01/02/2024"; CStr "02/02/2024"]))
         "Customer Total" (fillna 0 (to_numeric [CNum 10; CNum 5])),
       [Metrics m; LineChart trend], Raise ValueError).
Proof.
  apply (home_shared_customer_amount_header
           (try_read_csv Sample.shared_header_file)
           "Date" "Customer Total"
           [CStr "01/02/2024"; CStr "02/02/2024"] [CNum 10; CNum 5]).
  - reflexivity.
  - reflexivity.
  - reflexivity.
  - reflexivity.
  - reflexivity.
  - reflexivity.
  - discriminate.
Defined.

Lemma products_renders_witness :
  exists groups sorted,
    groupby_sum (Sample.after_home Sample.product_file) "Product" "Total"
    = Ok groups /\
    Permutation groups sorted /\
    StronglySorted not_below sorted /\
    products (Sample.after_home Sample.product_file)
    = (Sample.after_home Sample.product_file,
       [BarChart (firstn 20 sorted)], Ok tt) /\
    (List.length (firstn 20 sorted) <= 20)%nat /\
    ((List.length groups <= 20)%nat -> firstn 20 sorted = sorted).
Proof.
  apply (products_renders (Sample.after_home Sample.product_file)
           "Product" "Total"
           [CStr "Serum"; CStr "Serum"; CStr "Toner"]
           [CNum 10; CNum 0; CNum 5]).
  - reflexivity.
  - reflexivity.
  - reflexivity.
  - reflexivity.
  - discriminate.
  - reflexivity.
Defined.

Lemma order_history_sorted_witness :
  let df := Sample.after_home Sample.trend_file in
  let dates := [CDate 1706745600000000000; CNaT] in
  exists history front back,
    sort_rows_desc df "Date" = Ok history /\
    Permutation (argsort_desc dates) (seq 0 (List.length dates)) /\
    columns history = columns df /\
    len history = len df /\
    (forall c col, getitem df c = Ok col ->
                   getitem history c = Ok (take (argsort_desc dates) col)) /\
    getitem history "Date" = Ok (front ++ back) /\
    Permutation (front ++ back) dates /\
    StronglySorted (fun a b => cell_compare a b <> Lt) front /\
    forallb notnull front = true /\
    forallb isnull back = true.
Proof.
  apply (order_history_sorted (Sample.after_home Sample.trend_file) "Date").
  - reflexivity.
  - reflexivity.
Defined.

Lemma home_renders_witness :
  let df := try_read_csv Sample.scenario_file in
  let df' :=
    setitem
      (setitem df "Date"
               (to_datetime [CStr "01/02/2024"; CStr "02/02/2024"; CStr "01/02/2024"]))
      "Total" (fillna 0 (to_numeric [CStr "10"; CStr "5"; CStr "bad"])) in
  exists m trend top,
    home df = (df', [Metrics m; LineChart trend; BarChart top], Ok tt) /\
    summary_metrics df' "Total" "Customer" = Ok m /\
    trend_by_date df' "Date" "Total" = Ok trend /\
    top_customers df' "Customer" "Total" = Ok top.
Proof.
  apply (home_renders (try_read_csv Sample.scenario_file)
           "Date" "Customer" "Total"
           [CStr "01/02/2024"; CStr "02/02/2024"; CStr "01/02/2024"]
           [CStr "Ali"; CStr "Ali"; CStr "Bee"]
           [CStr "10"; CStr "5"; CStr "bad"]).
  - reflexivity.
  - reflexivity.
  - reflexivity.
  - reflexivity.
  - reflexivity.
  - reflexivity.
  - reflexivity.
  - discriminate.
  - discriminate.
  - discriminate.
Defined.


Lemma ranking_numeric_properties_witness :
  let ks := [CStr "Ali"; CStr "Ali"; CStr "Bee"] in
  let vs := [CNum 10; CNum 5; CNum 0] in
  exists groups sorted,
    groupby_sum (Sample.after_home Sample.scenario_file) "Customer" "Total"
    = Ok groups /\
    sort_values_desc groups = Ok sorted /\
    (List.length (head 1 sorted) <= 1)%nat /\
    StronglySorted (fun x y => cell_compare (snd x) (snd y) <> Lt)
                   (head 1 sorted) /\
    (exact_sums Sample.numpy -> small_integers (numbers vs) = true ->
     amount_total (map snd groups)
     == amount_total (keyed_amounts (combine ks vs))).
Proof.
  apply (ranking_numeric_properties (Sample.after_home Sample.scenario_file)
           "Customer" "Total").
  - reflexivity.
  - reflexivity.
  - reflexivity.
Defined.

Lemma customer_profile_date_amounts_witness :
  customer_profile
    (mkDF 2 [("Customer", [CStr "Ali"; CStr "Bee"]);
             ("Total To Date", [CDate 10; CDate 5])])
    "Customer" "Total To Date" "Total To Date" (CStr "Ali")
  = Raise TypeError.
Proof.
  apply (customer_profile_date_amounts _ "Customer" "Total To Date"
           [CStr "Ali"; CStr "Bee"] [CDate 10; CDate 5] (CStr "Ali")).
  - reflexivity.
  - reflexivity.
  - reflexivity.
  - reflexivity.
  - exists (CStr "Ali"). split; [left; reflexivity|reflexivity].
Defined.

End MoreInstances.
